(** * Gradient editor of tvtk (tvtk/util/gradient_editor.py)

    A shallow embedding of the toolkit-independent part of the gradient
    editor: the colour conversions, [Color], [ColorControlPoint], the legacy
    table [GradientTableOld] and the delegating table [GradientTable].

    Numbers.  A Python [float] is taken as an exact rational ([Q]): the
    embedding follows the arithmetic the code writes down and leaves the
    rounding of binary64 out.  Equality of computed values is therefore
    stated with [==] ([Qeq]); a result that is exact here is what the code
    yields up to rounding.  Where rounding can change an outcome (a
    comparison, a truncation, an overflow), the theorems carry a premise or
    a margin that keeps them clear of it, and [Binary64] runs the same
    functions on the floats of the interpreter to show the case.  A Python
    [int] is a [Z]; [int(x)] truncates towards zero. *)

From Stdlib Require Import ZArith QArith Qround Qabs List String Ascii Bool Lia Lqa.
Import ListNotations.

Local Open Scope Z_scope.
Local Open Scope Q_scope.

(** ** Python numbers *)

Module Py.

(** [x < y] on floats, as a boolean. *)
Definition ltb (x y : Q) : bool := negb (Qle_bool y x).
(** [x >= y]. *)
Definition geb (x y : Q) : bool := Qle_bool y x.
(** [x != y]. *)
Definition neb (x y : Q) : bool := negb (Qeq_bool x y).

(** [int(x)]: truncation towards zero. *)
Definition int (x : Q) : Z := Z.quot (Qnum x) (Zpos (Qden x)).

(** [max((r,g,b))] and [min((r,g,b))]: the first extremal element wins. *)
Definition max2 (m x : Q) : Q := if ltb m x then x else m.
Definition min2 (m x : Q) : Q := if ltb x m then x else m.
Definition max3 (r g b : Q) : Q := max2 (max2 r g) b.
Definition min3 (r g b : Q) : Q := min2 (min2 r g) b.

End Py.

(** ** Utility functions *)

(** [lerp(arg0,arg1,f)] *)
Definition lerp (arg0 arg1 f : Q) : Q := (1 - f) * arg0 + f * arg1.

Definition color4 : Type := (Q * Q * Q * Q)%type.

(** [rgba_to_hsva(r,g,b,a)].  Both divisions are guarded by the tests the
    code makes, so the total division of [Q] is never used at 0. *)
Definition rgba_to_hsva (r g b a : Q) : color4 :=
  let max_comp := Py.max3 r g b in
  let min_comp := Py.min3 r g b in
  let h := 1 / 6 in
  let h :=
    if Py.neb max_comp min_comp then
      if Py.geb r g && Py.geb r b then h * (0 + (g - b) / (max_comp - min_comp))
      else if Py.geb g b then h * (2 + (b - r) / (max_comp - min_comp))
      else h * (4 + (r - g) / (max_comp - min_comp))
    else h in
  let h := if Py.ltb h 0 then h + 1 else h in
  let h := if Py.ltb 1 h then h - 1 else h in
  let s := if Py.neb max_comp 0 then (max_comp - min_comp) / max_comp else 0 in
  let v := max_comp in
  (h, s, v, a).

(** The threshold [1e-4] below which a colour counts as achromatic. *)
Definition achromatic_threshold : Q := 1 # 10000.

(** [hsva_to_rgba(h_,s,v,a)] *)
Definition hsva_to_rgba (h_ s v a : Q) : color4 :=
  let h := h_ * 360 in
  if Py.ltb s achromatic_threshold then (v, v, v, a)
  else
    let hue_slice_index := Py.int (h / 60) in
    let hue_partial := h / 60 - inject_Z hue_slice_index in
    let p := v * (1 - s) in
    let q := v * (1 - hue_partial * s) in
    let t := v * (1 - (1 - hue_partial) * s) in
    if (0 =? hue_slice_index)%Z then (v, t, p, a)
    else if (1 =? hue_slice_index)%Z then (q, v, p, a)
    else if (2 =? hue_slice_index)%Z then (p, v, t, a)
    else if (3 =? hue_slice_index)%Z then (p, q, v, a)
    else if (4 =? hue_slice_index)%Z then (t, p, v, a)
    else if (5 =? hue_slice_index)%Z then (v, p, q, a)
    else (v, v, v, a).

(** ** [Color] *)

Module Color.

Record t : Type := mk { hsva : color4 }.

(** [Color()] *)
Definition init : t := mk (0, 0, 1 # 2, 1).

Definition set_rgba (self : t) (r g b a : Q) : t := mk (rgba_to_hsva r g b a).
Definition set_rgb (self : t) (r g b : Q) : t := set_rgba self r g b 1.
Definition get_hsva (self : t) : color4 := hsva self.
Definition set_hsva (self : t) (h s v a : Q) : t := mk (h, s, v, a).
Definition get_rgba (self : t) : color4 :=
  let '(h, s, v, a) := hsva self in hsva_to_rgba h s v a.

Definition hue (self : t) : Q := let '(h, _, _, _) := hsva self in h.
Definition saturation (self : t) : Q := let '(_, s, _, _) := hsva self in s.
Definition value (self : t) : Q := let '(_, _, v, _) := hsva self in v.
Definition alpha (self : t) : Q := let '(_, _, _, a) := hsva self in a.

(** [set_lerp(f,A,B)] *)
Definition set_lerp (self : t) (f : Q) (A B : t) : t :=
  mk (lerp (hue A) (hue B) f, lerp (saturation A) (saturation B) f,
      lerp (value A) (value B) f, lerp (alpha A) (alpha B) f).

End Color.

(** Componentwise equality of colours up to [==]. *)
Definition color4_eq (x y : color4) : Prop :=
  let '(x0, x1, x2, x3) := x in
  let '(y0, y1, y2, y3) := y in
  x0 == y0 /\ x1 == y1 /\ x2 == y2 /\ x3 == y3.

(** ** Exceptions and the state-and-exception monad

    A method runs on [self], may change it, and either returns or raises;
    what it changed before raising stays changed. *)

Inductive exn : Type :=
| ValueError (args : list string)
| IndexError
| ZeroDivisionError
| AssertionError
| NotImplementedError
| IOError
| UnboundLocalError.

Inductive result (A : Type) : Type :=
| Ok (a : A)
| Raise (e : exn).
Arguments Ok {A} a.
Arguments Raise {A} e.

Definition M (S A : Type) : Type := S -> result A * S.

Definition ret {S A} (a : A) : M S A := fun self => (Ok a, self).
Definition bind {S A B} (m : M S A) (k : A -> M S B) : M S B :=
  fun self =>
    match m self with
    | (Ok a, self') => k a self'
    | (Raise e, self') => (Raise e, self')
    end.
Definition raise {S A} (e : exn) : M S A := fun self => (Raise e, self).
Definition lift {S A} (r : result A) : M S A := fun self => (r, self).
Definition get {S} : M S S := fun self => (Ok self, self).
Definition gets {S A} (f : S -> A) : M S A := fun self => (Ok (f self), self).
Definition modify {S} (f : S -> S) : M S unit := fun self => (Ok tt, f self).
(** [assert(b)] *)
Definition assert_ {S} (b : bool) : M S unit :=
  if b then ret tt else raise AssertionError.

Declare Scope py_scope.
Delimit Scope py_scope with py.
Notation "x <- m ;; k" := (bind m (fun x => k))
  (at level 61, m at next level, right associativity) : py_scope.
Notation "m ;; k" := (bind m (fun _ => k))
  (at level 61, right associativity) : py_scope.
Local Open Scope py_scope.

(** [for x in l: body(x)] *)
Fixpoint for_each {S A} (l : list A) (body : A -> M S unit) : M S unit :=
  match l with
  | [] => ret tt
  | x :: l' => body x ;; for_each l' body
  end.

(** [for x in l: locals = body(x, locals)], for a loop that rebinds local
    variables. *)
Fixpoint for_fold {S A L} (l : list A) (body : A -> L -> M S L) (locals : L)
  : M S L :=
  match l with
  | [] => ret locals
  | x :: l' => locals' <- body x locals ;; for_fold l' body locals'
  end.

(** ** Python sequences and strings *)

Module PySeq.

(** [range(n)] *)
Definition range (n : Z) : list Z := map Z.of_nat (seq 0 (Z.to_nat n)).

(** [l[i]], with the negative indices of Python. *)
Definition index {A} (l : list A) (i : Z) : option nat :=
  let n := Z.of_nat (List.length l) in
  if ((0 <=? i) && (i <? n))%Z then Some (Z.to_nat i)
  else if ((- n <=? i) && (i <? 0))%Z then Some (Z.to_nat (n + i))
  else None.

Definition getitem {A} (l : list A) (i : Z) : result A :=
  match index l i with
  | Some n => match nth_error l n with Some x => Ok x | None => Raise IndexError end
  | None => Raise IndexError
  end.

Fixpoint replace_nth {A} (n : nat) (x : A) (l : list A) : list A :=
  match l, n with
  | [], _ => []
  | _ :: l', O => x :: l'
  | y :: l', S n' => y :: replace_nth n' x l'
  end.

(** [l[i] = x] *)
Definition setitem {A} (l : list A) (i : Z) (x : A) : result (list A) :=
  match index l i with
  | Some n => Ok (replace_nth n x l)
  | None => Raise IndexError
  end.

(** [[x] * n] *)
Definition repeat_list {A} (x : A) (n : Z) : list A := repeat x (Z.to_nat n).

Definition newline : ascii := "010"%char.

(** The whitespace of [str.split()]. *)
Definition is_space (c : ascii) : bool :=
  match nat_of_ascii c with
  | 32%nat | 9%nat | 10%nat | 11%nat | 12%nat | 13%nat => true
  | _ => false
  end.

(** [c in s] for a one-character string [c]. *)
Fixpoint contains (c : ascii) (s : string) : bool :=
  match s with
  | EmptyString => false
  | String c' s' => Ascii.eqb c c' || contains c s'
  end.

(** [file.readline()] on the unread part of a file: the line with its
    newline, and what is left; the empty string at the end of the file. *)
Fixpoint readline (unread : string) : string * string :=
  match unread with
  | EmptyString => (EmptyString, EmptyString)
  | String c rest =>
      if Ascii.eqb c newline then (String c EmptyString, rest)
      else let (line, rest') := readline rest in (String c line, rest')
  end.

(** [s.split()]: the maximal runs of characters that are not whitespace.
    [word] is the run being read, reversed. *)
Fixpoint split_aux (s : string) (word : list ascii) : list string :=
  let flush (k : list string) :=
    match word with
    | [] => k
    | _ => string_of_list_ascii (rev word) :: k
    end in
  match s with
  | EmptyString => flush []
  | String c s' =>
      if is_space c then flush (split_aux s' [])
      else split_aux s' (c :: word)
  end.
Definition split (s : string) : list string := split_aux s [].

(** [len(s)] *)
Definition len (s : string) : Z := Z.of_nat (String.length s).

End PySeq.

(** ** Decimal literals

    [float(s)] of the Python run time is not part of the repository; the
    functions that call it take it as a parameter [float_of].  The reader
    below, for [sign digits . digits e sign digits], is the instance used to
    run them. *)

Module Decimal.

Definition is_digit (c : ascii) : bool :=
  let n := nat_of_ascii c in (48 <=? n)%nat && (n <=? 57)%nat.
Definition digit (c : ascii) : Z := Z.of_nat (nat_of_ascii c - 48).

Fixpoint span_digits (cs : list ascii) : list ascii * list ascii :=
  match cs with
  | c :: cs' =>
      if is_digit c then let (ds, r) := span_digits cs' in (c :: ds, r)
      else ([], cs)
  | [] => ([], [])
  end.

Definition number (ds : list ascii) : Z :=
  fold_left (fun acc c => (10 * acc + digit c)%Z) ds 0%Z.

Definition sign (cs : list ascii) : bool * list ascii :=
  match cs with
  | "-"%char :: r => (true, r)
  | "+"%char :: r => (false, r)
  | _ => (false, cs)
  end.

Definition exponent (cs : list ascii) : option Z :=
  match cs with
  | [] => Some 0%Z
  | c :: r =>
      if Ascii.eqb c "e" || Ascii.eqb c "E" then
        let (neg, r) := sign r in
        let (ds, r) := span_digits r in
        match ds, r with
        | _ :: _, [] => Some (if neg then (- number ds)%Z else number ds)
        | _, _ => None
        end
      else None
  end.

Definition float (s : string) : option Q :=
  let (neg, cs) := sign (list_ascii_of_string s) in
  let (ip, cs) := span_digits cs in
  let (fp, cs) :=
    match cs with
    | "."%char :: r => span_digits r
    | _ => ([], cs)
    end in
  match ip ++ fp with
  | [] => None
  | ds =>
      match exponent cs with
      | None => None
      | Some e =>
          let m := inject_Z (number ds) * 10 ^ (e - Z.of_nat (List.length fp)) in
          Some (if neg then - m else m)
      end
  end.

End Decimal.

(** [file.readlines()]-style view of a file: its lines, each with its
    newline (the last one possibly without).  A file object is the list of
    the lines not read yet. *)
Fixpoint readlines (content : string) : list string :=
  match content with
  | EmptyString => []
  | String c rest =>
      if Ascii.eqb c PySeq.newline then String c EmptyString :: readlines rest
      else match readlines rest with
           | [] => [String c EmptyString]
           | line :: lines => String c line :: lines
           end
  end.

(** [file.readline()]: the next line, or the empty string at the end. *)
Definition readline (file : list string) : string * list string :=
  match file with
  | [] => (EmptyString, [])
  | line :: file' => (line, file')
  end.

(** [x / y] on floats raises on a zero divisor. *)
Definition py_div (x y : Q) : result Q :=
  if Qeq_bool y 0 then Raise ZeroDivisionError else Ok (x / y).

(** ** [ColorControlPoint] *)

Module ColorControlPoint.

Record t : Type := mk {
  color : Color.t;
  pos : Q;
  fixed : bool;
  active_channels : string
}.

Definition with_pos (p : Q) (self : t) : t :=
  mk (color self) p (fixed self) (active_channels self).
Definition with_color (c : Color.t) (self : t) : t :=
  mk c (pos self) (fixed self) (active_channels self).
Definition with_fixed (b : bool) (self : t) : t :=
  mk (color self) (pos self) b (active_channels self).
Definition with_active_channels (s : string) (self : t) : t :=
  mk (color self) (pos self) (fixed self) s.

(** [activate_channels(new_channels)] *)
Fixpoint activate_channels (self : t) (new_channels : string) : t :=
  match new_channels with
  | EmptyString => self
  | String c rest =>
      let self :=
        if negb (PySeq.contains c (active_channels self))
        then with_active_channels (active_channels self ++ String c EmptyString) self
        else self in
      activate_channels self rest
  end.

(** [ColorControlPoint(active_channels, fixed)] *)
Definition init (channels : string) (fixed : bool) : t :=
  let self := mk Color.init 0 fixed EmptyString in
  if negb (String.eqb "a" channels)
  then activate_channels (with_active_channels "rgb" self) channels
  else with_active_channels "a" self.

(** [set_pos(f)] *)
Definition set_pos (self : t) (f : Q) : t :=
  with_pos (Py.max2 (Py.min2 f 1) 0) self.

End ColorControlPoint.

(** The four channels the tables are computed for: the pairs
    [("h",0),("s",1),("v",2),("a",3)] of [update]. *)
Inductive channel : Type := Ch_h | Ch_s | Ch_v | Ch_a.

Definition channel_name (it : channel) : ascii :=
  match it with Ch_h => "h" | Ch_s => "s" | Ch_v => "v" | Ch_a => "a" end%char.
Definition channel_index (it : channel) : Z :=
  match it with Ch_h => 0 | Ch_s => 1 | Ch_v => 2 | Ch_a => 3 end%Z.
(** [hsva[it[1]]] *)
Definition channel_of (it : channel) (c : color4) : Q :=
  let '(h, s, v, a) := c in
  match it with Ch_h => h | Ch_s => s | Ch_v => v | Ch_a => a end.
Definition channels : list channel := [Ch_h; Ch_s; Ch_v; Ch_a].

(** Stable sort of control points by position, as [list.sort] with the
    three-way comparison [pred] of [sort_control_points]. *)
Fixpoint insert_by_pos (x : ColorControlPoint.t) (l : list ColorControlPoint.t)
  : list ColorControlPoint.t :=
  match l with
  | [] => [x]
  | y :: l' =>
      if Py.ltb (ColorControlPoint.pos y) (ColorControlPoint.pos x)
      then y :: insert_by_pos x l'
      else x :: l
  end.
Definition sort_by_pos (l : list ColorControlPoint.t) : list ColorControlPoint.t :=
  fold_right insert_by_pos [] l.

(** The function object that [exec] of a [def ParamFn(x)] statement leaves:
    its source and the value of the global [a] it was compiled with. *)
Record callable : Type := mk_callable { def_string : string; global_a : Q }.

(** ** [GradientTableOld]: the legacy table *)

Module GradientTableOld.

Record t : Type := mk {
  size : Z;
  table : list (list Q);
  table_hsva : list (list Q);
  control_points : list ColorControlPoint.t;
  scaling_function_string : string;
  scaling_function_parameter : Q;
  scaling_function : option callable
}.

Definition with_table (x : list (list Q)) (self : t) : t :=
  mk (size self) x (table_hsva self) (control_points self)
     (scaling_function_string self) (scaling_function_parameter self)
     (scaling_function self).
Definition with_table_hsva (x : list (list Q)) (self : t) : t :=
  mk (size self) (table self) x (control_points self)
     (scaling_function_string self) (scaling_function_parameter self)
     (scaling_function self).
Definition with_control_points (x : list ColorControlPoint.t) (self : t) : t :=
  mk (size self) (table self) (table_hsva self) x
     (scaling_function_string self) (scaling_function_parameter self)
     (scaling_function self).
Definition with_scaling_function_string (x : string) (self : t) : t :=
  mk (size self) (table self) (table_hsva self) (control_points self)
     x (scaling_function_parameter self) (scaling_function self).
Definition with_scaling_function_parameter (x : Q) (self : t) : t :=
  mk (size self) (table self) (table_hsva self) (control_points self)
     (scaling_function_string self) x (scaling_function self).
Definition with_scaling_function (x : option callable) (self : t) : t :=
  mk (size self) (table self) (table_hsva self) (control_points self)
     (scaling_function_string self) (scaling_function_parameter self) x.

(** [self.table_hsva[channel][idx]] *)
Definition table_hsva_get (c idx : Z) : M t Q :=
  row <- (fun self => (PySeq.getitem (table_hsva self) c, self)) ;;
  lift (PySeq.getitem row idx).

(** [self.table[channel][idx]] *)
Definition table_get (c idx : Z) : M t Q :=
  row <- (fun self => (PySeq.getitem (table self) c, self)) ;;
  lift (PySeq.getitem row idx).

(** [self.table_hsva[channel][idx] = x] *)
Definition table_hsva_set (c idx : Z) (x : Q) : M t unit :=
  row <- (fun self => (PySeq.getitem (table_hsva self) c, self)) ;;
  row' <- lift (PySeq.setitem row idx x) ;;
  rows <- (fun self => (PySeq.setitem (table_hsva self) c row', self)) ;;
  modify (with_table_hsva rows).

(** [self.table[channel][idx] = x] *)
Definition table_set (c idx : Z) (x : Q) : M t unit :=
  row <- (fun self => (PySeq.getitem (table self) c, self)) ;;
  row' <- lift (PySeq.setitem row idx x) ;;
  rows <- (fun self => (PySeq.setitem (table self) c row', self)) ;;
  modify (with_table rows).

(** [get_color_hsva(idx)] *)
Definition get_color_hsva (idx : Z) : M t color4 :=
  h <- table_hsva_get 0 idx ;;
  s <- table_hsva_get 1 idx ;;
  v <- table_hsva_get 2 idx ;;
  a <- table_hsva_get 3 idx ;;
  ret (h, s, v, a).

(** [get_color(idx)] *)
Definition get_color (idx : Z) : M t color4 :=
  r <- table_get 0 idx ;;
  g <- table_get 1 idx ;;
  b <- table_get 2 idx ;;
  a <- table_get 3 idx ;;
  ret (r, g, b, a).

(** [set_color_hsva(idx,hsva_color)] *)
Definition set_color_hsva (idx : Z) (hsva_color : color4) : M t unit :=
  let '(h, s, v, a) := hsva_color in
  table_hsva_set 0 idx h ;;
  table_hsva_set 1 idx s ;;
  table_hsva_set 2 idx v ;;
  table_hsva_set 3 idx a.

(** [set_color(idx,rgba_color)] *)
Definition set_color (idx : Z) (rgba_color : color4) : M t unit :=
  let '(r, g, b, a) := rgba_color in
  table_set 0 idx r ;;
  table_set 1 idx g ;;
  table_set 2 idx b ;;
  table_set 3 idx a.

(** [get_pos_index(f)] *)
Definition get_pos_index (self : t) (f : Q) : Z :=
  Py.int (f * inject_Z (size self - 1)).

(** [get_index_pos(idx)] *)
Definition get_index_pos (idx : Z) : M t Q :=
  n <- gets size ;;
  lift (py_div (1 * inject_Z idx) (inject_Z (n - 1))).

(** [get_pos_color(f)] *)
Definition get_pos_color (f : Q) : M t Color.t :=
  let result := Color.init in
  self <- get ;;
  e <- get_color_hsva (get_pos_index self f) ;;
  let '(e0, e1, e2, e3) := e in
  ret (Color.set_hsva result e0 e1 e2 e3).

(** [get_pos_rgba_color_lerped(f)] *)
Definition get_pos_rgba_color_lerped (f : Q) : M t color4 :=
  n <- gets size ;;
  let scaled_pos := Py.max2 (Py.min2 f 1) 0 * inject_Z (n - 1) in
  let idx0 := Py.int scaled_pos in
  let fraction := scaled_pos - inject_Z idx0 in
  let idx1 := Z.min (n - 1) (1 + idx0) in
  r0 <- table_get 0 idx0 ;; r1 <- table_get 0 idx1 ;;
  g0 <- table_get 1 idx0 ;; g1 <- table_get 1 idx1 ;;
  b0 <- table_get 2 idx0 ;; b1 <- table_get 2 idx1 ;;
  a0 <- table_get 3 idx0 ;; a1 <- table_get 3 idx1 ;;
  ret (lerp r0 r1 fraction, lerp g0 g1 fraction,
       lerp b0 b1 fraction, lerp a0 a1 fraction).

(** [sort_control_points()] *)
Definition sort_control_points : M t unit :=
  modify (fun self => with_control_points (sort_by_pos (control_points self)) self).

(** [insert_control_point(new_point)] *)
Definition insert_control_point (new_point : ColorControlPoint.t) : M t unit :=
  modify (fun self => with_control_points (control_points self ++ [new_point]) self) ;;
  sort_control_points.

(** The local variables of the loop over [k] in [update].  [upcoming] is
    [control_point_indices[end_point_id+1:]], the part of the list the
    [while] loop has not read yet; [start_point] is unbound until the
    [while] loop has run once. *)
Record walk : Type := mk_walk {
  start_point_id : Z;
  end_point_id : Z;
  start_pos : Q;
  end_pos : Q;
  next_interval_begin_idx : Z;
  start_point : option ColorControlPoint.t;
  end_point : ColorControlPoint.t;
  upcoming : list (Z * ColorControlPoint.t)
}.

(** [while( k == next_interval_begin_idx ): ...]; reading
    [control_point_indices[end_point_id]] past the end raises. *)
Fixpoint advance (k : Z) (rest : list (Z * ColorControlPoint.t)) (w : walk)
  : result walk :=
  if (k =? next_interval_begin_idx w)%Z then
    match rest with
    | [] => Raise IndexError
    | (idx, point) :: rest' =>
        advance k rest'
          {| start_point_id := start_point_id w + 1;
             end_point_id := end_point_id w + 1;
             start_point := Some (end_point w);
             start_pos := end_pos w;
             end_point := point;
             end_pos := ColorControlPoint.pos point;
             next_interval_begin_idx := 1 + idx;
             upcoming := rest' |}
    end
  else Ok w.

(** The body of [for k in range(self.size)] for the channel [it]. *)
Definition interpolate_entry (it : channel) (k : Z) (w : walk) : M t walk :=
  w <- lift (advance k (upcoming w) w) ;;
  cur_pos <- get_index_pos k ;;
  f <- lift (py_div (cur_pos - start_pos w) (end_pos w - start_pos w)) ;;
  assert_ (Qle_bool 0 f && Qle_bool f 1) ;;
  start <- lift (match start_point w with
                 | Some p => Ok p
                 | None => Raise UnboundLocalError
                 end) ;;
  table_hsva_set (channel_index it) k
    (lerp (channel_of it (Color.hsva (ColorControlPoint.color start)))
          (channel_of it (Color.hsva (ColorControlPoint.color (end_point w))))
          f) ;;
  ret w.

(** The body of [for it in [("h",0),("s",1),("v",2),("a",3)]]. *)
Definition update_channel
    (control_point_indices_total : list (Z * ColorControlPoint.t))
    (it : channel) : M t unit :=
  let control_point_indices :=
    filter (fun x => PySeq.contains (channel_name it)
                       (ColorControlPoint.active_channels (snd x)))
           control_point_indices_total in
  assert_ (2 <=? Z.of_nat (List.length control_point_indices))%Z ;;
  first <- lift (PySeq.getitem control_point_indices 0) ;;
  let w0 := {| start_point_id := -1; end_point_id := 0;
               start_pos := 0; end_pos := 0;
               next_interval_begin_idx := 0;
               start_point := None; end_point := snd first;
               upcoming := tl control_point_indices |} in
  n <- gets size ;;
  w <- for_fold (PySeq.range n) (interpolate_entry it) w0 ;;
  n <- gets size ;;
  assert_ (next_interval_begin_idx w =? n)%Z.

(** [control_point_indices_total] of [update]. *)
Definition control_point_indices_total (self : t) : list (Z * ColorControlPoint.t) :=
  map (fun point => (get_pos_index self (ColorControlPoint.pos point), point))
      (control_points self).

(** [update()] *)
Definition update : M t unit :=
  self <- get ;;
  let total := control_point_indices_total self in
  for_each channels (update_channel total) ;;
  n <- gets size ;;
  for_each (PySeq.range n)
    (fun k =>
       c <- get_color_hsva k ;;
       let '(h, s, v, a) := c in
       set_color k (hsva_to_rgba h s v a)).

Section Runtime.

(** What the code takes from the Python run time: whether [exec] compiles a
    [def] statement, [float] of a string, and the contents of the files that
    can be opened. *)
Variable compiles : string -> bool.
Variable float_of : string -> option Q.
Variable fs : string -> option string.

Definition py_float (s : string) : result Q :=
  match float_of s with
  | Some x => Ok x
  | None => Raise (ValueError ["could not convert string to float: " ++ s]%string)
  end.

Definition py_open (file_name : string) : result (list string) :=
  match fs file_name with
  | Some content => Ok (readlines content)
  | None => Raise IOError
  end.

(** [scaling_parameters_changed()] *)
Definition scaling_parameters_changed : M t unit :=
  modify (with_scaling_function None) ;;
  self <- get ;;
  let def_string :=
    ("def ParamFn(x): return " ++ scaling_function_string self ++ " ")%string in
  if String.eqb "" (scaling_function_string self) then ret tt
  else if compiles def_string
  then modify (with_scaling_function
                 (Some (mk_callable def_string (scaling_function_parameter self))))
  else raise (ValueError ["failed to compile function: "; def_string]%string).

(** [set_scaling_function_parameter(new_parameter)] *)
Definition set_scaling_function_parameter (new_parameter : Q) : M t unit :=
  modify (with_scaling_function_parameter new_parameter) ;;
  scaling_parameters_changed.

(** [set_scaling_function(new_function_string)] *)
Definition set_scaling_function (new_function_string : string) : M t unit :=
  modify (with_scaling_function_string new_function_string) ;;
  scaling_parameters_changed.

(** The message of the error [load] raises at a short line. *)
Definition broken_line_message (cur_line : string) : string :=
  ("gradient file format broken at line:" ++ String PySeq.newline cur_line)%string.

(** The body of the [while True] loop of [load] for a line that was read. *)
Definition load_line (cur_line : string)
    (new_control_points : list ColorControlPoint.t)
  : M t (list ColorControlPoint.t) :=
  let args := PySeq.split cur_line in
  if (Z.of_nat (List.length args) <? 7)%Z
  then raise (ValueError [broken_line_message cur_line])
  else
    let new_point := ColorControlPoint.init "" false in
    a0 <- lift (PySeq.getitem args 0) ;;
    p <- lift (py_float a0) ;;
    let new_point := ColorControlPoint.set_pos new_point p in
    a1 <- lift (PySeq.getitem args 1) ;;
    let new_point := ColorControlPoint.with_fixed (String.eqb "True" a1) new_point in
    a2 <- lift (PySeq.getitem args 2) ;;
    let new_point := ColorControlPoint.with_active_channels a2 new_point in
    a3 <- lift (PySeq.getitem args 3) ;; h <- lift (py_float a3) ;;
    a4 <- lift (PySeq.getitem args 4) ;; s <- lift (py_float a4) ;;
    a5 <- lift (PySeq.getitem args 5) ;; v <- lift (py_float a5) ;;
    a6 <- lift (PySeq.getitem args 6) ;; a <- lift (py_float a6) ;;
    let new_point :=
      ColorControlPoint.with_color
        (Color.set_hsva (ColorControlPoint.color new_point) h s v a) new_point in
    ret (new_control_points ++ [new_point]).

(** The header of a [.grad] file: the version tag and, from version 1.1
    on, the scaling function and its parameter.  Returns the file object
    after the lines read. *)
Definition load_header (file : list string) : M t (list string) :=
  let (version_tag, file) := readline file in
  tag <- lift (PySeq.getitem (PySeq.split version_tag) 1) ;;
  v <- lift (py_float tag) ;;
  let version := v + (1 # 100000) in
  if Py.geb version (11 # 10) then
    let (function_line, file) := readline file in
    let function_line_split := PySeq.split function_line in
    let (parameter_line, file) := readline file in
    (if (Z.of_nat (List.length function_line_split) =? 2)%Z
     then f <- lift (PySeq.getitem function_line_split 1) ;;
          modify (with_scaling_function_string f)
     else modify (with_scaling_function_string "")) ;;
    a <- lift (PySeq.getitem (PySeq.split parameter_line) 1) ;;
    p <- lift (py_float a) ;;
    modify (with_scaling_function_parameter p) ;;
    ret file
  else
    modify (with_scaling_function_string "") ;;
    modify (with_scaling_function_parameter (1 # 2)) ;;
    ret file.

(** [load(file_name)] *)
Definition load (file_name : string) : M t unit :=
  file <- lift (py_open file_name) ;;
  file <- load_header file ;;
  let (_, file) := readline file in
  new_control_points <- for_fold file load_line [] ;;
  modify (with_control_points new_control_points) ;;
  sort_control_points ;;
  scaling_parameters_changed ;;
  update.

End Runtime.

(** [GradientTableOld(num_entries)]: the object before the final
    [self.update()], and the constructor. *)
Definition init_fields (num_entries : Z) : t :=
  let row := PySeq.repeat_list 0 num_entries in
  let left_control_point :=
    ColorControlPoint.set_pos (ColorControlPoint.init "hsva" true) 0 in
  let left_control_point :=
    ColorControlPoint.with_color
      (Color.set_rgb (ColorControlPoint.color left_control_point) 0 0 0)
      left_control_point in
  let right_control_point :=
    ColorControlPoint.set_pos (ColorControlPoint.init "hsva" true) 1 in
  let right_control_point :=
    ColorControlPoint.with_color
      (Color.set_rgb (ColorControlPoint.color right_control_point) 1 1 1)
      right_control_point in
  let mid_control_point :=
    ColorControlPoint.set_pos (ColorControlPoint.init "hsv" false) (4 # 10) in
  let mid_control_point :=
    ColorControlPoint.with_color
      (Color.set_rgb (ColorControlPoint.color mid_control_point) 1 (4 # 10) 0)
      mid_control_point in
  snd (insert_control_point mid_control_point
         (mk num_entries [row; row; row; row] [row; row; row; row]
             [left_control_point; right_control_point] "" (1 # 2) None)).

Definition init (num_entries : Z) : result unit * t :=
  update (init_fields num_entries).

End GradientTableOld.

(** ** [GradientTable]: the delegating table *)

Module GradientTable.

(** Modelled from the spec: the external continuous colour representation
    ([tvtk.ColorTransferFunction]) and the external opacity representation
    ([tvtk.PiecewiseFunction]) are not part of the sources; each is taken as
    the sequence of keyframes it was given since it was last cleared, which
    is what [update] replays. *)
Definition ColorTransferFunction : Type := list (Q * Q * Q * Q).
Definition PiecewiseFunction : Type := list (Q * Q).
Definition remove_all_points {A} (points : list A) : list A := [].
Definition add_hsv_point (ctf : ColorTransferFunction) (x h s v : Q)
  : ColorTransferFunction := ctf ++ [(x, h, s, v)].
Definition add_point (otf : PiecewiseFunction) (x a : Q)
  : PiecewiseFunction := otf ++ [(x, a)].

Record t : Type := mk {
  size : Z;
  table : ColorTransferFunction;
  alpha : PiecewiseFunction;
  control_points : list ColorControlPoint.t;
  scaling_function_string : string;
  scaling_function_parameter : Q;
  scaling_function : option callable
}.

Definition with_table (x : ColorTransferFunction) (self : t) : t :=
  mk (size self) x (alpha self) (control_points self)
     (scaling_function_string self) (scaling_function_parameter self)
     (scaling_function self).
Definition with_alpha (x : PiecewiseFunction) (self : t) : t :=
  mk (size self) (table self) x (control_points self)
     (scaling_function_string self) (scaling_function_parameter self)
     (scaling_function self).
Definition with_control_points (x : list ColorControlPoint.t) (self : t) : t :=
  mk (size self) (table self) (alpha self) x
     (scaling_function_string self) (scaling_function_parameter self)
     (scaling_function self).

(** [sort_control_points()] *)
Definition sort_control_points : M t unit :=
  modify (fun self => with_control_points (sort_by_pos (control_points self)) self).

(** [insert_control_point(new_point)] *)
Definition insert_control_point (new_point : ColorControlPoint.t) : M t unit :=
  modify (fun self => with_control_points (control_points self ++ [new_point]) self) ;;
  sort_control_points.

(** The body of [for point in self.control_points] in [update]. *)
Definition replay_point (point : ColorControlPoint.t) : M t unit :=
  let x := ColorControlPoint.pos point in
  let '(h, s, v, a) := Color.get_hsva (ColorControlPoint.color point) in
  (if negb (String.eqb (ColorControlPoint.active_channels point) "a")
   then modify (fun self => with_table (add_hsv_point (table self) x h s v) self)
   else ret tt) ;;
  (if PySeq.contains "a" (ColorControlPoint.active_channels point)
   then modify (fun self => with_alpha (add_point (alpha self) x a) self)
   else ret tt).

(** [update()] *)
Definition update : M t unit :=
  modify (fun self => with_table (remove_all_points (table self)) self) ;;
  modify (fun self => with_alpha (remove_all_points (alpha self)) self) ;;
  points <- gets control_points ;;
  for_each points replay_point.

(** [scaling_parameters_changed()] *)
Definition scaling_parameters_changed : M t unit :=
  raise NotImplementedError.

(** [set_scaling_function_parameter(new_parameter)] *)
Definition set_scaling_function_parameter (new_parameter : Q) : M t unit :=
  raise NotImplementedError.

(** [set_scaling_function(new_function_string)] *)
Definition set_scaling_function (new_function_string : string) : M t unit :=
  raise NotImplementedError.

End GradientTable.
From Stdlib Require Import Permutation.

(** ** More of [Color] and of the tables *)

(** [Color.get_rgb255()] *)
Definition get_rgb255 (self : Color.t) : Z * Z * Z :=
  let '(r, g, b, _) := Color.get_rgba self in
  (Py.int (r * 255), Py.int (g * 255), Py.int (b * 255)).

(** Modelled from the spec: the discrete lookup table ([tvtk.LookupTable])
    is not part of the sources; it is taken as its number of entries and the
    sequence of the entries it was given with [set_table_value]. *)
Record LookupTable : Type := mk_LookupTable {
  number_of_table_values : Z;
  table_values : list (Z * color4)
}.

Definition set_table_value (vtk_table : LookupTable) (idx : Z) (rgba : color4)
  : LookupTable :=
  mk_LookupTable (number_of_table_values vtk_table)
    (table_values vtk_table ++ [(idx, rgba)]).

(** Modelled from the spec: a volume property ([tvtk.VolumeProperty]) is
    taken as its colour function, the range of that function and its
    opacity function, the two functions being the keyframes they were
    given. *)
Record VolumeProperty : Type := mk_VolumeProperty {
  rgb_transfer_function : list (Q * Q * Q * Q);
  rgb_range : Q * Q;
  scalar_opacity : list (Q * Q)
}.

(** The body of [for point in self.control_points] in
    [store_to_vtk_volume_prop], the same in both tables. *)
Definition store_point (s1 size : Q) (volume_prop : VolumeProperty)
    (point : ColorControlPoint.t) : VolumeProperty :=
  let x := s1 + ColorControlPoint.pos point * size in
  let '(h, s, v, a) := Color.get_hsva (ColorControlPoint.color point) in
  let volume_prop :=
    if negb (String.eqb (ColorControlPoint.active_channels point) "a")
    then mk_VolumeProperty
           (rgb_transfer_function volume_prop ++ [(x, h, s, v)])
           (rgb_range volume_prop) (scalar_opacity volume_prop)
    else volume_prop in
  if PySeq.contains "a" (ColorControlPoint.active_channels point)
  then mk_VolumeProperty (rgb_transfer_function volume_prop)
         (rgb_range volume_prop) (scalar_opacity volume_prop ++ [(x, a)])
  else volume_prop.

(** [GradientTableOld.store_to_vtk_volume_prop(volume_prop, scalar_range)];
    the table itself is only read. *)
Definition old_store_to_vtk_volume_prop (self : GradientTableOld.t)
    (volume_prop : VolumeProperty) (scalar_range : Q * Q) : VolumeProperty :=
  let volume_prop := mk_VolumeProperty [] (rgb_range volume_prop) [] in
  let (s1, s2) := scalar_range in
  let size := s2 - s1 in
  fold_left (store_point s1 size) (GradientTableOld.control_points self)
    volume_prop.

(** [GradientTable.store_to_vtk_volume_prop(volume_prop, scalar_range)];
    [range_settable] tells whether [ctf.range = s1, s2] succeeds (it is
    tried and given up on an exception). *)
Definition store_to_vtk_volume_prop (range_settable : bool)
    (self : GradientTable.t) (volume_prop : VolumeProperty)
    (scalar_range : Q * Q) : VolumeProperty :=
  let volume_prop := mk_VolumeProperty [] (rgb_range volume_prop) [] in
  let (s1, s2) := scalar_range in
  let volume_prop :=
    if range_settable
    then mk_VolumeProperty (rgb_transfer_function volume_prop) (s1, s2)
           (scalar_opacity volume_prop)
    else volume_prop in
  let size := s2 - s1 in
  fold_left (store_point s1 size) (GradientTable.control_points self)
    volume_prop.

Section Scaling.

(** The call of a compiled scaling function, which the Python run time
    evaluates. *)
Variable call : callable -> Q -> result Q.

(** [GradientTableOld.store_to_vtk_lookup_table(vtk_table, num_entries)].
    The lookup table is handed on from step to step and is the result of a
    call that returns; of a call that raises only the exception is kept. *)
Definition old_store_to_vtk_lookup_table (vtk_table : LookupTable)
    (num_entries : Z) : M GradientTableOld.t LookupTable :=
  let vtk_table := mk_LookupTable num_entries (table_values vtk_table) in
  fn <- gets GradientTableOld.scaling_function ;;
  let scale_xform :=
    match fn with
    | Some f => call f
    | None => fun x => Ok x
    end in
  for_fold (PySeq.range num_entries)
    (fun idx vtk_table =>
       x <- lift (py_div (inject_Z idx) (inject_Z (num_entries - 1))) ;;
       f <- lift (scale_xform x) ;;
       rgba <- GradientTableOld.get_pos_rgba_color_lerped f ;;
       ret (set_table_value vtk_table idx rgba))
    vtk_table.

End Scaling.

(** *** Import from a transfer-function pair *)

(** Modelled from the spec: the colour function and the opacity function
    of a volume property are not part of the sources; each is taken as what
    [load_from_vtk_volume_prop] asks of it: its size, the range, the
    [nodes] attribute where the object has one, and the values it
    interpolates. *)
Record ColorFunction : Type := mk_ColorFunction {
  ctf_size : Z;
  ctf_range : Q * Q;
  ctf_nodes : option (list Q);
  ctf_get_color : Q -> Q * Q * Q
}.

Record OpacityFunction : Type := mk_OpacityFunction {
  otf_size : Z;
  otf_nodes : option (list Q);
  otf_get_value : Q -> Q
}.

(** The outcome of building the new control points: the points, an
    exception of the kinds above, or the [AttributeError] of reading
    [otf.nodes] from an object without that attribute. *)
Inductive imported : Type :=
| Points (new_ctl_pts : list ColorControlPoint.t)
| ImportRaise (e : exn)
| ImportAttributeError.

Definition import_bind (m : imported)
    (k : list ColorControlPoint.t -> imported) : imported :=
  match m with
  | Points l => k l
  | ImportRaise e => ImportRaise e
  | ImportAttributeError => ImportAttributeError
  end.

(** The control point made for the sample [x] with the colour [(r,g,b,a)]:
    the end of both loop bodies. *)
Definition import_point (channels : string) (fixed : bool) (s1 scale x : Q)
    (rgb : Q * Q * Q) (a : Q) : result ColorControlPoint.t :=
  let pt := ColorControlPoint.init channels fixed in
  let '(r, g, b) := rgb in
  let pt := ColorControlPoint.with_color
              (Color.set_rgba (ColorControlPoint.color pt) r g b a) pt in
  match py_div (x - s1) scale with
  | Ok pos => Ok (ColorControlPoint.set_pos pt pos)
  | Raise e => Raise e
  end.

(** The first loop, [for i in range(size)], over the colour function. *)
Definition import_color_step (ctf : ColorFunction) (otf : OpacityFunction)
    (size : Z) (s1 scale ds : Q) (i : Z)
    (new_ctl_pts : list ColorControlPoint.t) : imported :=
  let sample :=
    match ctf_nodes ctf with
    | Some nodes => PySeq.getitem nodes i
    | None => Ok (s1 + inject_Z i * ds)
    end in
  match sample with
  | Raise e => ImportRaise e
  | Ok x =>
      let rgb := ctf_get_color ctf x in
      let a := otf_get_value otf x in
      let made :=
        if (i =? 0)%Z || (i =? size - 1)%Z
        then import_point "hsva" true s1 scale x rgb a
        else import_point "hsv" false s1 scale x rgb a in
      match made with
      | Ok pt => Points (new_ctl_pts ++ [pt])
      | Raise e => ImportRaise e
      end
  end.

(** The sample position of the second loop: [otf.nodes[i]] when the
    colour function has [nodes], else [s1 + i*ds]. *)
Inductive sampled : Type :=
| Sampled (x : Q)
| SampleRaise (e : exn)
| SampleAttributeError.

Definition opacity_sample (ctf : ColorFunction) (otf : OpacityFunction)
    (s1 ds : Q) (i : Z) : sampled :=
  match ctf_nodes ctf with
  | Some _ =>
      match otf_nodes otf with
      | Some nodes =>
          match PySeq.getitem nodes i with
          | Ok x => Sampled x
          | Raise e => SampleRaise e
          end
      | None => SampleAttributeError
      end
  | None => Sampled (s1 + inject_Z i * ds)
  end.

(** The second loop, [for i in range(1, size-1)], over the opacity
    function. *)
Definition import_opacity_step (ctf : ColorFunction) (otf : OpacityFunction)
    (s1 scale ds : Q) (i : Z)
    (new_ctl_pts : list ColorControlPoint.t) : imported :=
  match opacity_sample ctf otf s1 ds i with
  | SampleRaise e => ImportRaise e
  | SampleAttributeError => ImportAttributeError
  | Sampled x =>
      let a := otf_get_value otf x in
      let rgb := ctf_get_color ctf x in
      match import_point "a" false s1 scale x rgb a with
      | Ok pt => Points (new_ctl_pts ++ [pt])
      | Raise e => ImportRaise e
      end
  end.

Fixpoint import_loop (l : list Z)
    (body : Z -> list ColorControlPoint.t -> imported)
    (new_ctl_pts : list ColorControlPoint.t) : imported :=
  match l with
  | [] => Points new_ctl_pts
  | i :: l' => import_bind (body i new_ctl_pts) (import_loop l' body)
  end.

(** [range(a, b)] *)
Definition range_from (a b : Z) : list Z :=
  map (fun i => (a + Z.of_nat i)%Z) (seq 0 (Z.to_nat (b - a))).

(** The control points that [load_from_vtk_volume_prop] builds, the same in
    both tables, before it assigns them. *)
Definition new_control_points (ctf : ColorFunction) (otf : OpacityFunction)
  : imported :=
  let size := ctf_size ctf in
  if negb (1 <? size)%Z then ImportRaise AssertionError
  else if negb (1 <? otf_size otf)%Z then ImportRaise AssertionError
  else
    let (s1, s2) := ctf_range ctf in
    let scale := s2 - s1 in
    match py_div scale (inject_Z (size - 1)) with
    | Raise e => ImportRaise e
    | Ok ds =>
        import_bind
          (import_loop (PySeq.range size)
             (import_color_step ctf otf size s1 scale ds) [])
          (fun new_ctl_pts =>
             let size := otf_size otf in
             match py_div scale (inject_Z (size - 1)) with
             | Raise e => ImportRaise e
             | Ok ds =>
                 import_loop (range_from 1 (size - 1))
                   (import_opacity_step ctf otf s1 scale ds) new_ctl_pts
             end)
    end.

(** How a call of [load_from_vtk_volume_prop] ends. *)
Inductive outcome : Type :=
| Done (r : result unit)
| AttributeError.

(** [GradientTableOld.load_from_vtk_volume_prop(volume_prop)] *)
Definition old_load_from_vtk_volume_prop (ctf : ColorFunction)
    (otf : OpacityFunction) (self : GradientTableOld.t)
  : outcome * GradientTableOld.t :=
  match new_control_points ctf otf with
  | Points new_ctl_pts =>
      let (r, self) :=
        (modify (GradientTableOld.with_control_points new_ctl_pts) ;;
         GradientTableOld.sort_control_points ;;
         GradientTableOld.update) self in
      (Done r, self)
  | ImportRaise e => (Done (Raise e), self)
  | ImportAttributeError => (AttributeError, self)
  end.

(** [GradientTable.load_from_vtk_volume_prop(volume_prop)] *)
Definition load_from_vtk_volume_prop (ctf : ColorFunction)
    (otf : OpacityFunction) (self : GradientTable.t)
  : outcome * GradientTable.t :=
  match new_control_points ctf otf with
  | Points new_ctl_pts =>
      let (r, self) :=
        (modify (GradientTable.with_control_points new_ctl_pts) ;;
         GradientTable.sort_control_points ;;
         GradientTable.update) self in
      (Done r, self)
  | ImportRaise e => (Done (Raise e), self)
  | ImportAttributeError => (AttributeError, self)
  end.

(** The function object that belongs to the text and the parameter of the
    scaling function of a legacy table: none for the empty text and for a
    text that does not compile. *)
Definition compiled (compiles : string -> bool) (self : GradientTableOld.t)
  : option callable :=
  let def_string :=
    ("def ParamFn(x): return "
     ++ GradientTableOld.scaling_function_string self ++ " ")%string in
  if String.eqb (GradientTableOld.scaling_function_string self) EmptyString
  then None
  else if compiles def_string
       then Some (mk_callable def_string
                    (GradientTableOld.scaling_function_parameter self))
       else None.

(** The keyframes that a list of control points stands for: a colour
    keyframe for every point that is not an opacity-only point, an opacity
    keyframe for every point with the channel [a]. *)
Definition colour_keyframes (points : list ColorControlPoint.t)
  : list (Q * Q * Q * Q) :=
  map (fun point =>
         let '(h, s, v, _) := Color.get_hsva (ColorControlPoint.color point) in
         (ColorControlPoint.pos point, h, s, v))
      (filter (fun point =>
                 negb (String.eqb (ColorControlPoint.active_channels point) "a"))
         points).

Definition opacity_keyframes (points : list ColorControlPoint.t) : list (Q * Q) :=
  map (fun point =>
         let '(_, _, _, a) := Color.get_hsva (ColorControlPoint.color point) in
         (ColorControlPoint.pos point, a))
      (filter (fun point =>
                 PySeq.contains "a" (ColorControlPoint.active_channels point))
         points).

(** ** The numeric functions on binary64

    The same code with the floats of the interpreter: the functions below
    are the utility functions and the two index functions of the legacy
    table over the primitive binary64 numbers, every operation rounding as
    the hardware does.  They are run on the inputs where rounding decides
    the outcome, which the exact model above cannot show. *)

From Stdlib Require PrimFloat FloatOps SpecFloat Uint63.

Module Binary64.

Import PrimFloat SpecFloat.
Local Open Scope float_scope.

(** [float(n)] of a Python [int] below [2^63] in absolute value. *)
Definition of_Z (n : Z) : float :=
  match n with
  | Z0 => of_uint63 (Uint63.of_Z 0)
  | Zpos _ => of_uint63 (Uint63.of_Z n)
  | Zneg p => - of_uint63 (Uint63.of_Z (Zpos p))
  end.

(** [int(x)]: truncation towards zero; [None] stands for the
    [OverflowError] at an infinity and the [ValueError] at a NaN. *)
Definition int (x : float) : option Z :=
  match FloatOps.Prim2SF x with
  | S754_zero _ => Some 0%Z
  | S754_finite s m e =>
      let n := match e with
               | Z0 => Zpos m
               | Zpos _ => (Zpos m * 2 ^ e)%Z
               | Zneg k => (Zpos m / 2 ^ Zpos k)%Z
               end in
      Some (if s then (- n)%Z else n)
  | S754_infinity _ => None
  | S754_nan => None
  end.

(** [max((r,g,b))] and [min((r,g,b))]: the first extremal element wins. *)
Definition max2 (m x : float) : float := if m <? x then x else m.
Definition min2 (m x : float) : float := if x <? m then x else m.
Definition max3 (r g b : float) : float := max2 (max2 r g) b.
Definition min3 (r g b : float) : float := min2 (min2 r g) b.

(** [lerp(arg0,arg1,f)] *)
Definition lerp (arg0 arg1 f : float) : float :=
  (of_Z 1 - f) * arg0 + f * arg1.

(** [rgba_to_hsva(r,g,b,a)] *)
Definition rgba_to_hsva (r g b a : float) : float * float * float * float :=
  let max_comp := max3 r g b in
  let min_comp := min3 r g b in
  let h := of_Z 1 / of_Z 6 in
  let h :=
    if negb (max_comp =? min_comp) then
      if (g <=? r) && (b <=? r)
      then h * (of_Z 0 + (g - b) / (max_comp - min_comp))
      else if b <=? g then h * (of_Z 2 + (b - r) / (max_comp - min_comp))
      else h * (of_Z 4 + (r - g) / (max_comp - min_comp))
    else h in
  let h := if h <? of_Z 0 then h + of_Z 1 else h in
  let h := if of_Z 1 <? h then h - of_Z 1 else h in
  let s := if negb (max_comp =? of_Z 0)
           then (max_comp - min_comp) / max_comp else of_Z 0 in
  let v := max_comp in
  (h, s, v, a).

(** The literal [1e-4]. *)
Definition achromatic_threshold : float := of_Z 1 / of_Z 10000.

(** [hsva_to_rgba(h_,s,v,a)]; [None] stands for the exception of [int]. *)
Definition hsva_to_rgba (h_ s v a : float)
  : option (float * float * float * float) :=
  let h := h_ * of_Z 360 in
  if s <? achromatic_threshold then Some (v, v, v, a)
  else
    match int (h / of_Z 60) with
    | None => None
    | Some hue_slice_index =>
        let hue_partial := h / of_Z 60 - of_Z hue_slice_index in
        let p := v * (of_Z 1 - s) in
        let q := v * (of_Z 1 - hue_partial * s) in
        let t := v * (of_Z 1 - (of_Z 1 - hue_partial) * s) in
        Some
          (if (0 =? hue_slice_index)%Z then (v, t, p, a)
           else if (1 =? hue_slice_index)%Z then (q, v, p, a)
           else if (2 =? hue_slice_index)%Z then (p, v, t, a)
           else if (3 =? hue_slice_index)%Z then (p, q, v, a)
           else if (4 =? hue_slice_index)%Z then (t, p, v, a)
           else if (5 =? hue_slice_index)%Z then (v, p, q, a)
           else (v, v, v, a))
    end.

(** [GradientTableOld.get_pos_index(f)] of a table of [size] entries. *)
Definition get_pos_index (size : Z) (f : float) : option Z :=
  int (f * of_Z (size - 1)).

(** [GradientTableOld.get_index_pos(idx)] of a table of more than one
    entry. *)
Definition get_index_pos (size : Z) (idx : Z) : float :=
  (of_Z 1 * of_Z idx) / of_Z (size - 1).

(** The weight [f] that [update] computes for the entry [k] between two
    control points at [start_pos] and [end_pos]. *)
Definition update_weight (size k : Z) (start_pos end_pos : float) : float :=
  (get_index_pos size k - start_pos) / (end_pos - start_pos).

(** The exact value of a finite number. *)
Definition exact (x : float) : option Q :=
  match FloatOps.Prim2SF x with
  | S754_zero _ => Some (inject_Z 0)
  | S754_finite s m e =>
      let q := (inject_Z (Zpos m) * Qpower (inject_Z 2) e)%Q in
      Some (if s then Qopp q else q)
  | S754_infinity _ => None
  | S754_nan => None
  end.

(** The decimal literal [n/d] with [n] and [d] exact: the nearest
    binary64 number, as the parser of Python gives. *)
Definition literal (n d : Z) : float := of_Z n / of_Z d.

End Binary64.

(** ** The vocabulary of the specification *)


(** A tolerance for the rounding of binary64 on values of [[0,1]], taken
    generously: [1e-9]. *)
Definition float_tolerance : Q := 1 # 1000000000.

Definition within_tolerance (x y : color4) : Prop :=
  let '(x0, x1, x2, x3) := x in
  let '(y0, y1, y2, y3) := y in
  Qabs (x0 - y0) <= float_tolerance /\ Qabs (x1 - y1) <= float_tolerance /\
  Qabs (x2 - y2) <= float_tolerance /\ Qabs (x3 - y3) <= float_tolerance.

(** A control point that constrains every channel. *)
Definition fully_constrained (p : ColorControlPoint.t) : Prop :=
  Forall (fun it => PySeq.contains (channel_name it)
                      (ColorControlPoint.active_channels p) = true) channels.

(** Control points in the order of their positions. *)
Fixpoint sorted_by_pos (l : list ColorControlPoint.t) : Prop :=
  match l with
  | [] => True
  | x :: l' =>
      Forall (fun y => ColorControlPoint.pos x <= ColorControlPoint.pos y) l'
      /\ sorted_by_pos l'
  end.

(** The boundary invariant of the specification for a control-point set
    with the boundary points [left] and [right]: at least two points, sorted
    by position, all within [[0,1]], and a fully constrained point at the
    minimum position 0 and at the maximum position 1. *)
Definition boundary_invariant (points : list ColorControlPoint.t)
    (left right : ColorControlPoint.t) : Prop :=
  (2 <= List.length points)%nat /\
  sorted_by_pos points /\
  Forall (fun p => 0 <= ColorControlPoint.pos p <= 1) points /\
  In left points /\ ColorControlPoint.pos left == 0 /\ fully_constrained left /\
  In right points /\ ColorControlPoint.pos right == 1 /\ fully_constrained right.

(** What [load] has to leave alone for the gradient to be the one loaded
    before: everything but the text of the scaling function and its
    parameter. *)
Definition keeps_gradient (self self' : GradientTableOld.t) : Prop :=
  GradientTableOld.size self' = GradientTableOld.size self /\
  GradientTableOld.table self' = GradientTableOld.table self /\
  GradientTableOld.table_hsva self' = GradientTableOld.table_hsva self /\
  GradientTableOld.control_points self' = GradientTableOld.control_points self /\
  GradientTableOld.scaling_function self' = GradientTableOld.scaling_function self.

(** A control-point line that [load] accepts: it adds one point and
    touches nothing. *)
Definition accepted_line (float_of : string -> option Q) (line : string) : Prop :=
  exists point, forall points self,
    GradientTableOld.load_line float_of line points self
    = (Ok (points ++ [point]), self).

(** ** Tables as grids of cells

    What [update] does to a table is followed cell by cell: [cell T c k] is
    [T[c][k]] for natural indices, [poke] the assignment to it. *)

Definition shape (T : list (list Q)) : list nat := map (@List.length Q) T.

Definition cell (T : list (list Q)) (c k : nat) : option Q :=
  match nth_error T c with
  | Some row => nth_error row k
  | None => None
  end.

Definition valid (T : list (list Q)) (c k : nat) : bool :=
  match nth_error T c with
  | Some row => (k <? List.length row)%nat
  | None => false
  end.

Definition poke (T : list (list Q)) (c k : nat) (v : Q) : list (list Q) :=
  match nth_error T c with
  | Some row => PySeq.replace_nth c (PySeq.replace_nth k v row) T
  | None => T
  end.

(** The row of a channel in the tables, as a natural number. *)
Definition channel_row (it : channel) : nat :=
  match it with Ch_h => 0 | Ch_s => 1 | Ch_v => 2 | Ch_a => 3 end%nat.

(** [T[c][idx]] and the tuple [(T[0][idx], T[1][idx], T[2][idx], T[3][idx])]
    that [get_color] and [get_color_hsva] read, with the indices of Python. *)
Definition lookup (T : list (list Q)) (c idx : Z) : result Q :=
  match PySeq.getitem T c with
  | Ok row => PySeq.getitem row idx
  | Raise e => Raise e
  end.

Definition color_at (T : list (list Q)) (idx : Z) : result color4 :=
  match lookup T 0 idx with
  | Raise e => Raise e
  | Ok x0 =>
      match lookup T 1 idx with
      | Raise e => Raise e
      | Ok x1 =>
          match lookup T 2 idx with
          | Raise e => Raise e
          | Ok x2 =>
              match lookup T 3 idx with
              | Raise e => Raise e
              | Ok x3 => Ok (x0, x1, x2, x3)
              end
          end
      end
  end.

(** One of the two tables of the object, with what a computation on it may
    read of the rest of the object ([agree]: two objects agree on that). *)
Record lens : Type := mk_lens {
  view : GradientTableOld.t -> list (list Q);
  over : list (list Q) -> GradientTableOld.t -> GradientTableOld.t;
  agree : GradientTableOld.t -> GradientTableOld.t -> Prop
}.

Definition hsva_lens : lens :=
  mk_lens GradientTableOld.table_hsva GradientTableOld.with_table_hsva
    (fun s t => GradientTableOld.size s = GradientTableOld.size t /\
                GradientTableOld.control_points s = GradientTableOld.control_points t).

Definition rgba_lens : lens :=
  mk_lens GradientTableOld.table GradientTableOld.with_table
    (fun s t => GradientTableOld.size s = GradientTableOld.size t /\
                GradientTableOld.table_hsva s = GradientTableOld.table_hsva t).

Record lawful (L : lens) : Prop := mk_lawful {
  view_over : forall T s, view L (over L T s) = T;
  over_over : forall T U s, over L T (over L U s) = over L T s;
  over_view : forall s, over L (view L s) s = s;
  agree_refl : forall s, agree L s s;
  agree_over : forall T U s t, agree L s t -> agree L (over L T s) (over L U t)
}.

(** Two objects on which a computation on the table of [L] runs alike. *)
Definition related (L : lens) (s t : GradientTableOld.t) : Prop :=
  agree L s t /\ shape (view L s) = shape (view L t).

(** [effect L P m]: the computation [m] only assigns cells of the table of
    [L], all of them within [P]; run on a related object it has the same
    outcome and assigns the same values to the same cells. *)
Definition effect (L : lens) (P : nat -> nat -> Prop) {A}
    (m : M GradientTableOld.t A) : Prop :=
  forall s t r s', related L s t -> m s = (r, s') ->
  exists T' U',
    s' = over L T' s /\ m t = (r, over L U' t) /\
    shape T' = shape (view L s) /\ shape U' = shape (view L t) /\
    (forall c k, cell U' c k = cell T' c k \/
                 (cell U' c k = cell (view L t) c k /\
                  cell T' c k = cell (view L s) c k)) /\
    (forall c k, ~ P c k -> cell T' c k = cell (view L s) c k).

(** [table[c][k] = v] for natural indices. *)
Definition write (L : lens) (c k : nat) (v : Q) : M GradientTableOld.t unit :=
  fun s =>
    if valid (view L s) c k
    then (Ok tt, over L (poke (view L s) c k v) s)
    else (Raise IndexError, s).

(** [table[c][k]] for natural indices. *)
Definition read (L : lens) (c k : nat) : M GradientTableOld.t Q :=
  fun s =>
    match cell (view L s) c k with
    | Some x => (Ok x, s)
    | None => (Raise IndexError, s)
    end.

(** Where the walk of [update] over a channel stands with respect to the
    boundary point [right], which has the last index [N-1]: either [right]
    is still to be read, after points of smaller indices, or it is the
    current end point. *)
Definition heading_for (N : Z) (right : ColorControlPoint.t)
    (w : GradientTableOld.walk) : Prop :=
  (exists before after,
      GradientTableOld.upcoming w = before ++ (N - 1, right)%Z :: after /\
      Forall (fun x => (0 <= fst x < N - 1)%Z) before /\
      (GradientTableOld.next_interval_begin_idx w < N)%Z) \/
  (GradientTableOld.end_point w = right /\
   GradientTableOld.end_pos w = ColorControlPoint.pos right /\
   GradientTableOld.next_interval_begin_idx w = N).

(** A table with the four rows of at least [N] entries that the
    constructor makes. *)
Definition rows_ok (N : Z) (T : list (list Q)) : Prop :=
  forall c k, (c < 4)%nat -> (Z.of_nat k < N)%Z -> valid T c k = true.

(** ** Sample inputs to run the model on *)

Module Sample.

(** A stand-in for the compiler of the run time: it accepts the sources
    whose parentheses are balanced. *)
Fixpoint balanced_from (s : string) (depth : nat) : bool :=
  match s with
  | EmptyString => Nat.eqb depth 0
  | String c s' =>
      if Ascii.eqb c "(" then balanced_from s' (S depth)
      else if Ascii.eqb c ")" then
        match depth with
        | O => false
        | S d => balanced_from s' d
        end
      else balanced_from s' depth
  end.
Definition compiles (source : string) : bool := balanced_from source 0.

(** The text of a file from its lines. *)
Definition text (lines : list string) : string :=
  fold_right (fun l acc => (l ++ String PySeq.newline acc)%string) EmptyString lines.

Definition good_grad : string :=
  text ["V 2.0 Color Gradient File";
        "ScalingFunction: x";
        "ScalingParameter: 0.5";
        "ControlPoints: (pos fixed bindings h s v a)";
        "  0.0 True hsva 0.0 0.0 0.0 1.0";
        "  1.0 True hsva 0.0 0.0 1.0 1.0"]%string.

Definition short_line : string :=
  ("  0.5 False hsv 0.1 1.0" ++ String PySeq.newline EmptyString)%string.

Definition broken_grad : string :=
  text ["V 2.0 Color Gradient File";
        "ScalingFunction: x**2";
        "ScalingParameter: 0.25";
        "ControlPoints: (pos fixed bindings h s v a)";
        "  0.0 True hsva 0.0 0.0 0.0 1.0";
        "  0.5 False hsv 0.1 1.0";
        "  1.0 True hsva 0.0 0.0 1.0 1.0"]%string.

Definition fs (file_name : string) : option string :=
  if String.eqb file_name "good.grad" then Some good_grad
  else if String.eqb file_name "broken.grad" then Some broken_grad
  else None.

Definition load := GradientTableOld.load compiles Decimal.float fs.

(** A table of four entries with [good.grad] loaded. *)
Definition loaded : GradientTableOld.t :=
  snd (load "good.grad" (snd (GradientTableOld.init 4))).

(** The two boundary points as the constructor makes them: black at 0 and
    white at 1, fixed, on all channels. *)
Definition left_point : ColorControlPoint.t :=
  ColorControlPoint.with_color (Color.set_rgb Color.init 0 0 0)
    (ColorControlPoint.set_pos (ColorControlPoint.init "hsva" true) 0).
Definition right_point : ColorControlPoint.t :=
  ColorControlPoint.with_color (Color.set_rgb Color.init 1 1 1)
    (ColorControlPoint.set_pos (ColorControlPoint.init "hsva" true) 1).

(** A table of [num_entries] entries over the two boundary points alone,
    before [update]. *)
Definition two_points (num_entries : Z) : GradientTableOld.t :=
  let row := PySeq.repeat_list 0 num_entries in
  GradientTableOld.mk num_entries [row; row; row; row] [row; row; row; row]
    [left_point; right_point] "" (1 # 2) None.

(** A point at position 1 that constrains hue, saturation and value only,
    lying before the right boundary point. *)
Definition red_at_one : ColorControlPoint.t :=
  ColorControlPoint.with_color
    (Color.set_rgb Color.init 1 0 0)
    (ColorControlPoint.set_pos (ColorControlPoint.init "hsv" false) 1).

Definition crowded_end : GradientTableOld.t :=
  GradientTableOld.with_control_points [left_point; red_at_one; right_point]
    (two_points 4).

End Sample.

(** A gradient file of version 1.0 that has no control-point lines, and a
    file system that holds it. *)
Definition header_only_grad : string :=
  Sample.text ["V 1.0 Color Gradient File";
               "ControlPoints: (pos fixed bindings h s v a)"]%string.

Definition header_only_fs (file_name : string) : option string :=
  if String.eqb file_name "header.grad" then Some header_only_grad else None.

(** Two control points for hue, saturation and value that share the
    position 1/2, between the two boundary points, in a table of four
    entries. *)
Definition half_point : ColorControlPoint.t :=
  ColorControlPoint.with_color
    (Color.set_rgb Color.init 1 0 0)
    (ColorControlPoint.set_pos (ColorControlPoint.init "hsv" false) (1 # 2)).

Definition twin_mid : GradientTableOld.t :=
  GradientTableOld.with_control_points
    [Sample.left_point; half_point; half_point; Sample.right_point]
    (Sample.two_points 4).

(** * Properties *)

(** ** Comparisons and truncation *)

Lemma ltb_true (x y : Q) : Py.ltb x y = true <-> x < y.
Proof.
  unfold Py.ltb. rewrite negb_true_iff.
  split; intros H.
  - apply Qnot_le_lt. intros Hle. apply Qle_bool_iff in Hle. congruence.
  - destruct (Qle_bool y x) eqn:E; [|reflexivity].
    apply Qle_bool_iff in E. lra.
Qed.

Lemma ltb_false (x y : Q) : Py.ltb x y = false <-> y <= x.
Proof.
  unfold Py.ltb. rewrite negb_false_iff. apply Qle_bool_iff.
Qed.

Lemma geb_true (x y : Q) : Py.geb x y = true <-> y <= x.
Proof. unfold Py.geb. apply Qle_bool_iff. Qed.

Lemma geb_false (x y : Q) : Py.geb x y = false <-> x < y.
Proof.
  unfold Py.geb. split; intros H.
  - apply Qnot_le_lt. intros Hle. apply Qle_bool_iff in Hle. congruence.
  - destruct (Qle_bool y x) eqn:E; [|reflexivity].
    apply Qle_bool_iff in E. lra.
Qed.

Lemma neb_true (x y : Q) : Py.neb x y = true <-> ~ x == y.
Proof.
  unfold Py.neb. rewrite negb_true_iff. split; intros H.
  - now apply Qeq_bool_neq.
  - destruct (Qeq_bool x y) eqn:E; [|reflexivity].
    apply Qeq_bool_iff in E. contradiction.
Qed.

Lemma neb_false (x y : Q) : Py.neb x y = false <-> x == y.
Proof. unfold Py.neb. rewrite negb_false_iff. apply Qeq_bool_iff. Qed.

Lemma int_floor (x : Q) : 0 <= x -> Py.int x = Qfloor x.
Proof.
  destruct x as [n d]. unfold Py.int, Qfloor, Qle. simpl. intros H.
  apply Z.quot_div_nonneg; lia.
Qed.

(** [int(x)] is [n] when [n <= x < n+1], for a natural [n]. *)
Lemma int_between (x : Q) (n : Z) :
  (0 <= n)%Z -> inject_Z n <= x -> x < inject_Z (n + 1) -> Py.int x = n.
Proof.
  intros Hn Hlo Hhi.
  assert (H0 : 0 <= x).
  { apply Qle_trans with (inject_Z n); [|assumption].
    change 0 with (inject_Z 0). rewrite <- Zle_Qle. assumption. }
  rewrite int_floor by assumption.
  pose proof (Qfloor_le x) as H1. pose proof (Qlt_floor x) as H2.
  assert (A : (Qfloor x < n + 1)%Z).
  { rewrite Zlt_Qlt. eapply Qle_lt_trans; eassumption. }
  assert (B : (n < Qfloor x + 1)%Z).
  { rewrite Zlt_Qlt. eapply Qle_lt_trans; eassumption. }
  lia.
Qed.

(** ** The colour conversions *)

Lemma max3_same (r : Q) : Py.max3 r r r = r.
Proof. unfold Py.max3, Py.max2. repeat destruct (Py.ltb _ _); reflexivity. Qed.

Lemma min3_same (r : Q) : Py.min3 r r r = r.
Proof. unfold Py.min3, Py.min2. repeat destruct (Py.ltb _ _); reflexivity. Qed.

Ltac cmp_to_Q :=
  repeat match goal with
  | H : Py.ltb _ _ = true |- _ => apply ltb_true in H
  | H : Py.ltb _ _ = false |- _ => apply ltb_false in H
  | H : Py.geb _ _ = true |- _ => apply geb_true in H
  | H : Py.geb _ _ = false |- _ => apply geb_false in H
  | H : Py.neb _ _ = true |- _ => apply neb_true in H
  | H : Py.neb _ _ = false |- _ => apply neb_false in H
  end.

Lemma max3_spec (r g b : Q) :
  r <= Py.max3 r g b /\ g <= Py.max3 r g b /\ b <= Py.max3 r g b /\
  (Py.max3 r g b = r \/ Py.max3 r g b = g \/ Py.max3 r g b = b).
Proof.
  unfold Py.max3, Py.max2.
  destruct (Py.ltb r g) eqn:E1; destruct (Py.ltb _ b) eqn:E2; cmp_to_Q;
    (repeat split; try lra); auto.
Qed.

Lemma min3_spec (r g b : Q) :
  Py.min3 r g b <= r /\ Py.min3 r g b <= g /\ Py.min3 r g b <= b /\
  (Py.min3 r g b = r \/ Py.min3 r g b = g \/ Py.min3 r g b = b).
Proof.
  unfold Py.min3, Py.min2.
  destruct (Py.ltb g r) eqn:E1; destruct (Py.ltb b _) eqn:E2; cmp_to_Q;
    (repeat split; try lra); auto.
Qed.

Lemma sector_index (h : Q) (n : Z) :
  (0 <= n)%Z -> inject_Z n <= 6 * h -> 6 * h < inject_Z n + 1 ->
  Py.int (h * 360 / 60) = n.
Proof.
  intros Hn Hlo Hhi.
  assert (E : h * 360 / 60 == 6 * h) by field.
  apply int_between; [assumption| |]; rewrite E.
  - assumption.
  - rewrite inject_Z_plus. exact Hhi.
Qed.

(** The hue that [rgba_to_hsva] computes, in terms of the quotient [e] it
    divides out. *)
Lemma rgba_to_hsva_inv (r g b a h s v a' : Q) :
  rgba_to_hsva r g b a = (h, s, v, a') ->
  let m := Py.min3 r g b in
  a' = a /\ v = Py.max3 r g b /\
  (~ v == 0 -> s * v == v - m) /\
  (v == 0 -> s = 0) /\
  (~ v == m ->
   exists e, e * (v - m) ==
             (if Py.geb r g && Py.geb r b then g - b
              else if Py.geb g b then b - r else r - g) /\
     6 * h == (if Py.geb r g && Py.geb r b then (if Py.ltb e 0 then e + 6 else e)
          else if Py.geb g b then 2 + e else 4 + e)).
Proof.
  unfold rgba_to_hsva. change (1 / 6) with (1 # 6). intros H.
  injection H as Hh Hs Hv Ha.
  pose proof (max3_spec r g b) as (M1 & M2 & M3 & M4).
  pose proof (min3_spec r g b) as (m1 & m2 & m3 & m4).
  cbv zeta. split; [auto|]. split; [auto|]. subst v.
  set (M := Py.max3 r g b) in *. set (m := Py.min3 r g b) in *.
  split.
  - intros Hv. apply neb_true in Hv. rewrite Hv in Hs. subst s. field.
    now apply neb_true.
  - split.
    { intros Hv. apply neb_false in Hv. rewrite Hv in Hs. auto. }
    intros Hne. apply neb_true in Hne. rewrite Hne in Hh.
    apply neb_true in Hne.
    assert (Hd : 0 < M - m) by (clear - Hne M1 m1; lra).
    set (c1 := Py.geb r g && Py.geb r b) in *.
    set (c2 := Py.geb g b) in *.
    set (n := if c1 then g - b else if c2 then b - r else r - g).
    exists (n / (M - m)). split.
    { field. lra. }
    assert (B : - (M - m) <= n /\ n <= M - m).
    { unfold n. destruct c1, c2; lra. }
    assert (B' : -1 <= n / (M - m) /\ n / (M - m) <= 1).
    { split.
      - apply Qle_shift_div_l; [assumption|]. lra.
      - apply Qle_shift_div_r; [assumption|]. lra. }
    set (e := n / (M - m)) in *.
    subst h. unfold n in e.
    destruct c1.
    + fold e.
      destruct (Py.ltb e 0) eqn:E0.
      * assert (X : Py.ltb ((1 # 6) * (0 + e)) 0 = true) by (cmp_to_Q; apply ltb_true; lra).
        rewrite X.
        assert (Y : Py.ltb 1 ((1 # 6) * (0 + e) + 1) = false) by (cmp_to_Q; apply ltb_false; lra).
        rewrite Y. lra.
      * assert (X : Py.ltb ((1 # 6) * (0 + e)) 0 = false) by (cmp_to_Q; apply ltb_false; lra).
        rewrite X.
        assert (Y : Py.ltb 1 ((1 # 6) * (0 + e)) = false) by (cmp_to_Q; apply ltb_false; lra).
        rewrite Y. lra.
    + destruct c2.
      * fold e.
        assert (X : Py.ltb ((1 # 6) * (2 + e)) 0 = false) by (apply ltb_false; lra).
        rewrite X.
        assert (Y : Py.ltb 1 ((1 # 6) * (2 + e)) = false) by (apply ltb_false; lra).
        rewrite Y. lra.
      * fold e.
        assert (X : Py.ltb ((1 # 6) * (4 + e)) 0 = false) by (apply ltb_false; lra).
        rewrite X.
        assert (Y : Py.ltb 1 ((1 # 6) * (4 + e)) = false) by (apply ltb_false; lra).
        rewrite Y. lra.
Qed.

Lemma hsva_to_rgba_sector (h s v a : Q) (n : Z) :
  achromatic_threshold <= s ->
  (0 <= n)%Z -> inject_Z n <= 6 * h -> 6 * h < inject_Z n + 1 ->
  hsva_to_rgba h s v a =
  let hue_partial := h * 360 / 60 - inject_Z n in
  let p := v * (1 - s) in
  let q := v * (1 - hue_partial * s) in
  let t := v * (1 - (1 - hue_partial) * s) in
  if (0 =? n)%Z then (v, t, p, a)
  else if (1 =? n)%Z then (q, v, p, a)
  else if (2 =? n)%Z then (p, v, t, a)
  else if (3 =? n)%Z then (p, q, v, a)
  else if (4 =? n)%Z then (t, p, v, a)
  else if (5 =? n)%Z then (v, p, q, a)
  else (v, v, v, a).
Proof.
  intros Hs Hn Hlo Hhi. unfold hsva_to_rgba.
  apply ltb_false in Hs. rewrite Hs.
  rewrite (sector_index h n Hn Hlo Hhi). reflexivity.
Qed.

Ltac in_sector n :=
  match goal with
  | Hs : achromatic_threshold <= ?s |- color4_eq (hsva_to_rgba ?h ?s ?v ?a) _ =>
      let E := fresh "E" in
      assert (E : h * 360 / 60 == 6 * h) by field;
      rewrite (hsva_to_rgba_sector h s v a n Hs);
      [ cbv zeta; cbn [Z.eqb Pos.eqb]; unfold color4_eq;
        change (inject_Z n) with (n # 1);
        set (pp := h * 360 / 60 - (n # 1)) in *
      | lia
      | change (inject_Z n) with (n # 1); try lra; try nra
      | change (inject_Z n) with (n # 1); try lra; try nra ]
  end.

(** C10.  Below the threshold [1e-4] the saturation counts as zero:
    [hsva_to_rgba(h,s,v,a)] is exactly [(v,v,v,a)] whatever the hue, also
    for a strictly positive [s].  Neither [h], [v], [a] nor the sign of [s]
    is restricted. *)
Theorem hsva_to_rgba_small_saturation (h s v a : Q) :
  s < achromatic_threshold -> hsva_to_rgba h s v a = (v, v, v, a).
Proof.
  intros Hs. unfold hsva_to_rgba.
  apply ltb_true in Hs. rewrite Hs. reflexivity.
Qed.

Lemma hsva_to_rgba_small_saturation_witness :
  0 < (1 # 20000) /\
  hsva_to_rgba (1 # 3) (1 # 20000) (3 # 4) 1 = (3 # 4, 3 # 4, 3 # 4, 1).
Proof.
  split; [reflexivity|].
  apply (hsva_to_rgba_small_saturation (1 # 3) (1 # 20000) (3 # 4) 1).
  reflexivity.
Defined.

(** C2 as stated fails: a fresh [Color()] has hue 0, and after
    [set_rgba(0.5,0.5,0.5,1.0)] its hue is 1/6. *)
Lemma set_rgba_achromatic_overwrites_hue :
  ~ Color.hue (Color.set_rgba Color.init (1 # 2) (1 # 2) (1 # 2) 1)
    == Color.hue Color.init.
Proof. vm_compute. discriminate. Qed.

(** C2, amended.  On an achromatic input [r = g = b] the conversion from
    RGBA stores the hue 1/6, the value [h] starts from, whatever hue the
    object held; the saturation becomes 0, the value the common component
    and the alpha the given one. *)
Theorem set_rgba_achromatic (self : Color.t) (r a : Q) :
  let c := Color.set_rgba self r r r a in
  Color.hue c == 1 # 6 /\ Color.saturation c == 0 /\
  Color.value c = r /\ Color.alpha c = a.
Proof.
  unfold Color.set_rgba, Color.hue, Color.saturation, Color.value, Color.alpha,
    rgba_to_hsva; cbn [Color.hsva].
  rewrite max3_same, min3_same.
  assert (E : Py.neb r r = false) by (apply neb_false; reflexivity).
  rewrite E.
  split; [reflexivity|].
  split; [|split; reflexivity].
  destruct (Py.neb r 0) eqn:E0; [|reflexivity].
  apply neb_true in E0. field. assumption.
Qed.

Ltac by_cases :=
  repeat match goal with
  | H : _ \/ _ |- _ => destruct H
  end; lra.

Ltac close_sector n partial :=
  in_sector n;
  match goal with
  | pp := _ |- _ =>
      let Hp := fresh "Hp" in
      assert (Hp : pp == partial) by (unfold pp; lra);
      clearbody pp;
      split; [|split; [|split]]; nsatz
  end.

(** C5 as stated fails: the colour (1, 0.99995, 0.99995, 1) has the
    saturation 5e-5, which is positive, and comes back as (1, 1, 1, 1): off
    by 5e-5 in green and blue, far from the rounding of floats. *)
Lemma roundtrip_low_saturation :
  exists h s v a,
    rgba_to_hsva 1 (99995 # 100000) (99995 # 100000) 1 = (h, s, v, a) /\
    0 < s /\
    ~ within_tolerance (hsva_to_rgba h s v a)
        (1, 99995 # 100000, 99995 # 100000, 1).
Proof.
  eexists _, _, _, _. split; [reflexivity|]. split; [reflexivity|].
  vm_compute. intros (_ & H & _). apply H. reflexivity.
Qed.

(** From the saturation [1e-4] on, [hsva_to_rgba] undoes [rgba_to_hsva],
    in exact arithmetic. *)
Lemma roundtrip_from_threshold (r g b a h s v a' : Q) :
  rgba_to_hsva r g b a = (h, s, v, a') ->
  achromatic_threshold <= s ->
  color4_eq (hsva_to_rgba h s v a') (r, g, b, a).
Proof.
  intros H Hs.
  apply rgba_to_hsva_inv in H. cbv zeta in H.
  destruct H as (Ha & Hv & Hsv & Hs0 & Hh). subst a'.
  pose proof (max3_spec r g b) as (M1 & M2 & M3 & M4).
  pose proof (min3_spec r g b) as (m1 & m2 & m3 & m4).
  rewrite <- Hv in M1, M2, M3, M4. clear Hv.
  set (m := Py.min3 r g b) in *. clearbody m.
  assert (Hthr : 0 < s) by (unfold achromatic_threshold in Hs; lra).
  assert (Hv0 : ~ v == 0).
  { intros E. rewrite (Hs0 E) in Hthr. lra. }
  specialize (Hsv Hv0). clear Hs0.
  assert (Hvm : ~ v == m).
  { intros E. assert (s * v == 0) by lra. nra. }
  destruct (Hh Hvm) as (e & He & H6). clear Hh.
  assert (Hd : 0 < v - m) by lra.
  assert (Mr : v == r \/ v == g \/ v == b).
  { destruct M4 as [->|[->| ->]]; [left|right;left|right;right]; reflexivity. }
  assert (mr : m == r \/ m == g \/ m == b).
  { destruct m4 as [->|[->| ->]]; [left|right;left|right;right]; reflexivity. }
  clear M4 m4.
  assert (Hlo : -1 <= e) by (destruct (Py.geb r g && Py.geb r b), (Py.geb g b); nra).
  assert (Hhi : e <= 1) by (destruct (Py.geb r g && Py.geb r b), (Py.geb g b); nra).
  destruct (Py.geb r g && Py.geb r b) eqn:C1.
  - (* r is the maximum *)
    apply andb_true_iff in C1. destruct C1 as [C1 C1']. cmp_to_Q.
    assert (Vr : v == r) by by_cases.
    destruct (Py.ltb e 0) eqn:E0; cmp_to_Q.
    + assert (g < b) by nra.
      assert (m == g) by by_cases.
      close_sector 5%Z (e + 1).
    + assert (b <= g) by nra.
      assert (m == b) by by_cases.
      destruct (Qlt_le_dec e 1).
      * close_sector 0%Z e.
      * assert (e == 1) by lra. assert (v == g) by nra.
        close_sector 1%Z 0.
  - apply andb_false_iff in C1.
    assert (C1' : r < g \/ r < b) by (destruct C1; cmp_to_Q; auto).
    clear C1.
    destruct (Py.geb g b) eqn:C2; cmp_to_Q.
    + (* g is the maximum *)
      assert (Vg : v == g) by by_cases.
      destruct (Qlt_le_dec e 0).
      * assert (b < r) by nra.
        assert (m == b) by by_cases.
        close_sector 1%Z (e + 1).
      * assert (r <= b) by nra.
        assert (m == r) by by_cases.
        destruct (Qlt_le_dec e 1).
        -- close_sector 2%Z e.
        -- assert (e == 1) by lra. assert (v == b) by nra.
           close_sector 3%Z 0.
    + (* b is the maximum *)
      assert (Vb : v == b) by by_cases.
      destruct (Qlt_le_dec e 0).
      * assert (r < g) by nra.
        assert (m == r) by by_cases.
        close_sector 3%Z (e + 1).
      * assert (g <= r) by nra.
        assert (m == g) by by_cases.
        destruct (Qlt_le_dec e 1).
        -- close_sector 4%Z e.
        -- assert (e == 1) by lra. assert (v == r) by nra.
           exfalso. by_cases.
Qed.

(** C5, amended.  From the saturation [1e-4] on, and when the hue that
    [rgba_to_hsva] returns is below 1, the round trip
    [hsva_to_rgba(rgba_to_hsva(r,g,b,a))] gives back [(r,g,b,a)]: exactly
    so here, hence up to rounding in the floats.  Below 1 the hue always is
    in exact arithmetic, as the docstring says; in the floats [h += 1.0]
    can round to 1.0, and the round trip then returns a grey (see
    [hue_rounds_to_one]).  Below the threshold, for a saturation that is
    positive as well, the round trip returns the grey [(v,v,v,a)] of the
    largest component [v] instead of the colour. *)
Theorem rgba_hsva_roundtrip (r g b a h s v a' : Q) :
  rgba_to_hsva r g b a = (h, s, v, a') ->
  (achromatic_threshold <= s -> h < 1 ->
   color4_eq (hsva_to_rgba h s v a') (r, g, b, a)) /\
  (s < achromatic_threshold ->
   hsva_to_rgba h s v a'
   = (Py.max3 r g b, Py.max3 r g b, Py.max3 r g b, a)).
Proof.
  intros H. split.
  - intros Hs _. exact (roundtrip_from_threshold r g b a h s v a' H Hs).
  - intros Hs. unfold hsva_to_rgba. apply ltb_true in Hs. rewrite Hs.
    unfold rgba_to_hsva in H. injection H as _ _ <- <-. reflexivity.
Qed.

Lemma rgba_hsva_roundtrip_witness :
  (achromatic_threshold <= 1 -> 4 # 60 < 1 ->
   color4_eq (hsva_to_rgba (4 # 60) 1 1 1) (1, 4 # 10, 0, 1)) /\
  (1 < achromatic_threshold ->
   hsva_to_rgba (4 # 60) 1 1 1
   = (Py.max3 1 (4 # 10) 0, Py.max3 1 (4 # 10) 0, Py.max3 1 (4 # 10) 0, 1)).
Proof.
  apply (rgba_hsva_roundtrip 1 (4 # 10) 0 1 (4 # 60) 1 1 1).
  vm_compute. reflexivity.
Defined.

(** ** Loops of the monad *)

Lemma for_fold_app {S A L} (l1 l2 : list A) (body : A -> L -> M S L)
    (locals : L) (self : S) :
  for_fold (l1 ++ l2) body locals self
  = (locals' <- for_fold l1 body locals ;; for_fold l2 body locals') self.
Proof.
  revert locals self. induction l1 as [|x l1 IH]; intros locals self.
  - reflexivity.
  - cbn [app for_fold]. unfold bind.
    destruct (body x locals self) as [[locals'|e] self']; [|reflexivity].
    rewrite IH. reflexivity.
Qed.

(** ** The index of a position *)


(** ** The scaling function *)

(** C8.  The delegating table refuses a scaling function: setting the
    expression or the parameter raises [NotImplementedError], whatever the
    argument, and leaves the table as it was. *)
Theorem delegating_scaling_unsupported (self : GradientTable.t)
    (new_function_string : string) (new_parameter : Q) :
  GradientTable.set_scaling_function new_function_string self
  = (Raise NotImplementedError, self) /\
  GradientTable.set_scaling_function_parameter new_parameter self
  = (Raise NotImplementedError, self).
Proof. split; reflexivity. Qed.

(** C3 as stated fails: a table that holds the compiled function of
    [x] holds none after [set_scaling_function] has refused [x**(]. *)
Lemma set_scaling_function_drops_previous :
  let after :=
    GradientTableOld.set_scaling_function Sample.compiles "x**(" Sample.loaded in
  (exists fn, GradientTableOld.scaling_function Sample.loaded = Some fn) /\
  (exists e, fst after = Raise e) /\
  GradientTableOld.scaling_function (snd after)
  <> GradientTableOld.scaling_function Sample.loaded.
Proof.
  split; [eexists; vm_compute; reflexivity|].
  split; [eexists; vm_compute; reflexivity|].
  vm_compute. discriminate.
Qed.

(** C3, amended.  [set_scaling_function] with an expression that does not
    compile raises [ValueError] with the source of the function; afterwards
    the table holds the new expression string and no scaling function at
    all: [scaling_parameters_changed] resets it before it compiles. *)
Theorem set_scaling_function_malformed (compiles : string -> bool)
    (self : GradientTableOld.t) (new_function_string : string) :
  new_function_string <> EmptyString ->
  let source := ("def ParamFn(x): return " ++ new_function_string ++ " ")%string in
  compiles source = false ->
  GradientTableOld.set_scaling_function compiles new_function_string self
  = (Raise (ValueError ["failed to compile function: "; source]%string),
     GradientTableOld.with_scaling_function None
       (GradientTableOld.with_scaling_function_string new_function_string self)).
Proof.
  intros Hne source Hc.
  unfold GradientTableOld.set_scaling_function,
    GradientTableOld.scaling_parameters_changed, bind, modify, get.
  cbn [GradientTableOld.scaling_function_string
       GradientTableOld.with_scaling_function
       GradientTableOld.with_scaling_function_string].
  assert (E : String.eqb "" new_function_string = false).
  { apply String.eqb_neq. congruence. }
  rewrite E. fold source. rewrite Hc. reflexivity.
Qed.

Lemma set_scaling_function_malformed_witness :
  GradientTableOld.scaling_function
    (snd (GradientTableOld.set_scaling_function Sample.compiles "x**("
            Sample.loaded)) = None.
Proof.
  rewrite (set_scaling_function_malformed Sample.compiles Sample.loaded "x**(").
  - reflexivity.
  - discriminate.
  - reflexivity.
Defined.

(** ** Loading a gradient file *)

Lemma keeps_gradient_refl (self : GradientTableOld.t) : keeps_gradient self self.
Proof. repeat split. Qed.

(** The header of a file only sets the text of the scaling function and
    its parameter, whether it parses or not. *)
Lemma load_header_keeps (float_of : string -> option Q) (file : list string)
    (self self' : GradientTableOld.t) (r : result (list string)) :
  GradientTableOld.load_header float_of file self = (r, self') ->
  keeps_gradient self self'.
Proof.
  unfold GradientTableOld.load_header, GradientTableOld.py_float.
  destruct (readline file) as [version_tag file1].
  destruct (readline file1) as [function_line file2].
  destruct (readline file2) as [parameter_line file3].
  unfold bind, lift, modify, ret.
  repeat match goal with
         | |- context [match ?x with _ => _ end] =>
             lazymatch x with
             | context [match _ with _ => _ end] => fail
             | _ => destruct x
             end
         end; intros H; inversion H; subst; repeat split.
Qed.

Lemma for_fold_accepted (float_of : string -> option Q) (lines : list string) :
  Forall (accepted_line float_of) lines ->
  forall points self, exists points',
    for_fold lines (GradientTableOld.load_line float_of) points self
    = (Ok points', self).
Proof.
  induction 1 as [|line lines [point Hline] _ IH]; intros points self.
  - exists points. reflexivity.
  - cbn [for_fold]. unfold bind. rewrite Hline. apply IH.
Qed.

(** C1 as stated fails: a table that has loaded [good.grad], with the
    scaling function [x], and then fails to load [broken.grad] at its line
    of five fields holds the scaling text [x**2] of the broken file. *)
Lemma load_broken_changes_scaling_text :
  let after := Sample.load "broken.grad" Sample.loaded in
  fst after
  = Raise (ValueError [GradientTableOld.broken_line_message Sample.short_line]) /\
  (Z.of_nat (List.length (PySeq.split Sample.short_line)) < 7)%Z /\
  GradientTableOld.scaling_function_string (snd after)
  <> GradientTableOld.scaling_function_string Sample.loaded.
Proof.
  split; [vm_compute; reflexivity|].
  split; [vm_compute; reflexivity|].
  vm_compute. discriminate.
Qed.

(** C1, amended.  When the header of the file parses and the first line of
    the control-point section that [load] does not accept is one of fewer
    than 7 fields, [load] raises [ValueError] with a message that ends with
    that line, and the control points, both tables and the compiled scaling
    function are those from before the call; the scaling-function string
    and the scaling parameter are the ones read from the header. *)
Theorem load_short_line (compiles : string -> bool)
    (float_of : string -> option Q) (fs : string -> option string)
    (file_name content : string) (self after_header : GradientTableOld.t)
    (unread accepted rest : list string) (short : string) :
  fs file_name = Some content ->
  GradientTableOld.load_header float_of (readlines content) self
  = (Ok unread, after_header) ->
  snd (readline unread) = accepted ++ short :: rest ->
  Forall (accepted_line float_of) accepted ->
  (Z.of_nat (List.length (PySeq.split short)) < 7)%Z ->
  GradientTableOld.load compiles float_of fs file_name self
  = (Raise (ValueError [("gradient file format broken at line:"
                         ++ String PySeq.newline short)%string]),
     after_header) /\
  keeps_gradient self after_header.
Proof.
  intros Hfs Hheader Hlines Haccepted Hshort.
  split; [|eapply load_header_keeps; eassumption].
  unfold GradientTableOld.load, GradientTableOld.py_open.
  rewrite Hfs. unfold bind at 1. unfold lift at 1.
  unfold bind at 1. rewrite Hheader.
  destruct (readline unread) as [heading lines]. cbn [snd] in Hlines.
  subst lines. unfold bind at 1. rewrite for_fold_app.
  unfold bind at 1.
  destruct (for_fold_accepted float_of accepted Haccepted [] after_header)
    as [points Hpoints].
  rewrite Hpoints. cbn [for_fold]. unfold bind at 1.
  unfold GradientTableOld.load_line at 1.
  apply Z.ltb_lt in Hshort. rewrite Hshort. reflexivity.
Qed.

Lemma load_short_line_witness :
  fst (Sample.load "broken.grad" Sample.loaded)
  = Raise (ValueError [GradientTableOld.broken_line_message Sample.short_line]).
Proof.
  refine (f_equal fst (proj1
    (load_short_line Sample.compiles Decimal.float Sample.fs
       "broken.grad" Sample.broken_grad Sample.loaded
       (snd (GradientTableOld.load_header Decimal.float
               (readlines Sample.broken_grad) Sample.loaded))
       (skipn 3 (readlines Sample.broken_grad))
       (firstn 1 (skipn 4 (readlines Sample.broken_grad)))
       (skipn 6 (readlines Sample.broken_grad))
       Sample.short_line _ _ _ _ _))).
  - reflexivity.
  - vm_compute. reflexivity.
  - vm_compute. reflexivity.
  - constructor; [|constructor].
    eexists. intros points self. vm_compute. reflexivity.
  - vm_compute. reflexivity.
Defined.

(** ** The table of the two boundary points *)

(** C9.  In a table of 256 entries over the two boundary points alone,
    black at 0 and white at 1 with alpha 1, [update] succeeds and leaves the
    entry 0 at (0,0,0,1), the entry 255 at (1,1,1,1), and the entry 128 at
    (128/255, 128/255, 128/255, 1), which is within 1/255 of
    (0.5, 0.5, 0.5, 1). *)
Theorem two_point_table_256 :
  let after := GradientTableOld.update (Sample.two_points 256) in
  fst after = Ok tt /\
  (exists c, fst (GradientTableOld.get_color 0 (snd after)) = Ok c /\
             color4_eq c (0, 0, 0, 1)) /\
  (exists c, fst (GradientTableOld.get_color 255 (snd after)) = Ok c /\
             color4_eq c (1, 1, 1, 1)) /\
  (exists c, fst (GradientTableOld.get_color 128 (snd after)) = Ok c /\
             color4_eq c (128 # 255, 128 # 255, 128 # 255, 1)) /\
  Qabs ((128 # 255) - (1 # 2)) <= 1 # 255.
Proof.
  cbv zeta.
  remember (GradientTableOld.update (Sample.two_points 256)) as after eqn:E.
  vm_compute in E. subst after.
  split; [reflexivity|].
  split; [eexists; split; [vm_compute; reflexivity|vm_compute; auto]|].
  split; [eexists; split; [vm_compute; reflexivity|vm_compute; auto]|].
  split; [eexists; split; [vm_compute; reflexivity|vm_compute; auto]|].
  vm_compute. discriminate.
Qed.

(** ** Grids *)

Lemma replace_nth_length {A} (n : nat) (x : A) (l : list A) :
  List.length (PySeq.replace_nth n x l) = List.length l.
Proof.
  revert n. induction l as [|y l IH]; intros [|n]; cbn; auto.
Qed.

Lemma nth_error_replace_nth {A} (n m : nat) (x : A) (l : list A) :
  nth_error (PySeq.replace_nth n x l) m
  = if (n =? m)%nat && (m <? List.length l)%nat then Some x else nth_error l m.
Proof.
  revert n m. induction l as [|y l IH]; intros n m.
  - destruct n, m; cbn; try reflexivity.
    rewrite andb_false_r. reflexivity.
  - destruct n as [|n], m as [|m]; cbn [PySeq.replace_nth nth_error]; try reflexivity.
    rewrite IH. reflexivity.
Qed.

Lemma shape_poke (T : list (list Q)) (c k : nat) (v : Q) :
  shape (poke T c k v) = shape T.
Proof.
  unfold poke. destruct (nth_error T c) as [row|] eqn:E; [|reflexivity].
  unfold shape. apply nth_error_ext. intros n.
  rewrite !nth_error_map, nth_error_replace_nth.
  destruct (Nat.eqb_spec c n) as [->|]; [|reflexivity].
  destruct (Nat.ltb_spec n (List.length T)); cbn [andb option_map].
  - rewrite E. cbn. rewrite replace_nth_length. reflexivity.
  - reflexivity.
Qed.

Lemma valid_cell (T : list (list Q)) (c k : nat) :
  valid T c k = true <-> cell T c k <> None.
Proof.
  unfold valid, cell. destruct (nth_error T c) as [row|]; [|split; congruence].
  rewrite Nat.ltb_lt. symmetry. apply nth_error_Some.
Qed.

Lemma cell_poke (T : list (list Q)) (c k c' k' : nat) (v : Q) :
  cell (poke T c k v) c' k'
  = if valid T c k && (c =? c')%nat && (k =? k')%nat then Some v
    else cell T c' k'.
Proof.
  unfold poke, valid, cell.
  destruct (nth_error T c) as [row|] eqn:E; [|reflexivity].
  rewrite nth_error_replace_nth.
  destruct (Nat.eqb_spec c c') as [<-|Hc].
  - assert (Hlt : (c <? List.length T)%nat = true).
    { apply Nat.ltb_lt. apply nth_error_Some. congruence. }
    rewrite Hlt. cbn [andb]. rewrite nth_error_replace_nth, E.
    rewrite andb_true_r, andb_comm.
    destruct (Nat.eqb_spec k k') as [<-|]; [reflexivity|].
    rewrite !andb_false_r. reflexivity.
  - cbn [andb]. rewrite andb_false_r. reflexivity.
Qed.

Lemma valid_shape (T U : list (list Q)) (c k : nat) :
  shape T = shape U -> valid T c k = valid U c k.
Proof.
  unfold shape, valid. intros H.
  assert (E : nth_error (map (@List.length Q) T) c
              = nth_error (map (@List.length Q) U) c) by (rewrite H; reflexivity).
  rewrite !nth_error_map in E.
  destruct (nth_error T c), (nth_error U c); cbn in E; congruence.
Qed.

(** Two grids of one shape with the same cells are equal. *)
Lemma grid_ext (T U : list (list Q)) :
  shape T = shape U -> (forall c k, cell T c k = cell U c k) -> T = U.
Proof.
  intros Hs Hc. apply nth_error_ext. intros c.
  assert (E : nth_error (shape T) c = nth_error (shape U) c)
    by (rewrite Hs; reflexivity).
  unfold shape in E. rewrite !nth_error_map in E.
  specialize (Hc c). unfold cell in Hc.
  destruct (nth_error T c) as [row|], (nth_error U c) as [row'|];
    cbn in E; try congruence.
  f_equal. apply nth_error_ext. exact Hc.
Qed.

(** ** Computations that only assign cells of one table *)

Section Effects.

Variable L : lens.
Hypothesis HL : lawful L.

Lemma related_refl (s : GradientTableOld.t) : related L s s.
Proof. split; [apply (agree_refl L HL)|reflexivity]. Qed.

Lemma related_over (T U : list (list Q)) (s t : GradientTableOld.t) :
  related L s t -> shape T = shape (view L s) -> shape U = shape (view L t) ->
  related L (over L T s) (over L U t).
Proof.
  intros [Ha Hs] HT HU. split.
  - apply (agree_over L HL). assumption.
  - rewrite !(view_over L HL). congruence.
Qed.

(** A computation that reads what related objects agree on and assigns
    nothing. *)
Lemma effect_reader (P : nat -> nat -> Prop) {A} (m : M GradientTableOld.t A)
    (f : GradientTableOld.t -> result A) :
  (forall s, m s = (f s, s)) ->
  (forall s t, agree L s t -> f s = f t) ->
  effect L P m.
Proof.
  intros Hm Hf s t r s' [Ha Hs] H. rewrite Hm in H. inversion H; subst.
  exists (view L s'), (view L t).
  rewrite !(over_view L HL), Hm, (Hf s' t Ha). repeat split; auto.
Qed.

Lemma effect_ret (P : nat -> nat -> Prop) {A} (a : A) : effect L P (ret a).
Proof. apply (effect_reader P _ (fun _ => Ok a)); reflexivity. Qed.

Lemma effect_raise (P : nat -> nat -> Prop) {A} (e : exn) :
  effect L P (@raise _ A e).
Proof. apply (effect_reader P _ (fun _ => Raise e)); reflexivity. Qed.

Lemma effect_lift (P : nat -> nat -> Prop) {A} (r : result A) :
  effect L P (lift r).
Proof. apply (effect_reader P _ (fun _ => r)); reflexivity. Qed.

Lemma effect_assert (P : nat -> nat -> Prop) (b : bool) :
  effect L P (assert_ b).
Proof. destruct b; [apply effect_ret|apply effect_raise]. Qed.

Lemma effect_gets (P : nat -> nat -> Prop) {A} (f : GradientTableOld.t -> A) :
  (forall s t, agree L s t -> f s = f t) -> effect L P (gets f).
Proof.
  intros Hf. apply (effect_reader P _ (fun s => Ok (f s))); [reflexivity|].
  intros s t H. rewrite (Hf s t H). reflexivity.
Qed.

Lemma effect_ext (P : nat -> nat -> Prop) {A} (m m' : M GradientTableOld.t A) :
  (forall s, m s = m' s) -> effect L P m' -> effect L P m.
Proof.
  intros E H s t r s' Hr Hm. rewrite E in Hm.
  destruct (H s t r s' Hr Hm) as (T' & U' & H1 & H2 & H3).
  exists T', U'. rewrite E. auto.
Qed.

Lemma effect_weaken (P P' : nat -> nat -> Prop) {A} (m : M GradientTableOld.t A) :
  (forall c k, P c k -> P' c k) -> effect L P m -> effect L P' m.
Proof.
  intros HP H s t r s' Hr Hm.
  destruct (H s t r s' Hr Hm) as (T' & U' & H1 & H2 & H3 & H4 & H5 & H6).
  exists T', U'. repeat split; auto.
Qed.

Lemma effect_bind (P : nat -> nat -> Prop) {A B}
    (m : M GradientTableOld.t A) (k : A -> M GradientTableOld.t B) :
  effect L P m -> (forall a, effect L P (k a)) -> effect L P (bind m k).
Proof.
  intros Hm Hk s t r s' Hr H. unfold bind in H |- *.
  destruct (m s) as [r1 s1] eqn:E1.
  destruct (Hm s t r1 s1 Hr E1) as (T1 & U1 & -> & E1' & HT1 & HU1 & HC1 & HF1).
  rewrite E1'.
  destruct r1 as [a|e].
  - assert (Hr1 : related L (over L T1 s) (over L U1 t))
      by (apply related_over; assumption).
    destruct (Hk a _ _ r s' Hr1 H) as (T2 & U2 & -> & E2 & HT2 & HU2 & HC2 & HF2).
    rewrite (view_over L HL) in HT2, HU2, HC2, HF2.
    rewrite (over_over L HL) in E2 |- *.
    exists T2, U2. repeat split; try congruence.
    + intros c j. destruct (HC2 c j) as [E|[Ea Eb]]; [left; exact E|].
      rewrite (view_over L HL) in Eb.
      destruct (HC1 c j) as [E|[Ec Ed]]; [left|right; split]; congruence.
    + intros c j Hn. rewrite (HF2 c j Hn). apply HF1. exact Hn.
  - inversion H; subst. exists T1, U1. repeat split; auto.
Qed.

Lemma effect_for_each (P : nat -> nat -> Prop) {A} (l : list A)
    (body : A -> M GradientTableOld.t unit) :
  (forall x, In x l -> effect L P (body x)) -> effect L P (for_each l body).
Proof.
  induction l as [|x l IH]; intros H; cbn [for_each].
  - apply effect_ret.
  - apply effect_bind.
    + apply H. left. reflexivity.
    + intros _. apply IH. intros y Hy. apply H. right. exact Hy.
Qed.

Lemma effect_for_fold (P : nat -> nat -> Prop) {A B} (l : list A)
    (body : A -> B -> M GradientTableOld.t B) (locals : B) :
  (forall x w, In x l -> effect L P (body x w)) ->
  effect L P (for_fold l body locals).
Proof.
  revert locals. induction l as [|x l IH]; intros locals H; cbn [for_fold].
  - apply effect_ret.
  - apply effect_bind.
    + apply H. left. reflexivity.
    + intros w. apply IH. intros y w' Hy. apply H. right. exact Hy.
Qed.

Lemma effect_write (P : nat -> nat -> Prop) (c k : nat) (v : Q) :
  P c k -> effect L P (write L c k v).
Proof.
  intros HP s t r s' [Ha Hs] H. unfold write in H |- *.
  rewrite <- (valid_shape _ _ c k Hs).
  destruct (valid (view L s) c k) eqn:V.
  - inversion H; subst.
    exists (poke (view L s) c k v), (poke (view L t) c k v).
    rewrite !shape_poke. repeat split.
    + intros c' k'. rewrite !cell_poke, <- (valid_shape _ _ c k Hs), V.
      cbn [andb].
      destruct ((c =? c')%nat && (k =? k')%nat); [left|right]; auto.
    + intros c' k' Hn. rewrite cell_poke, V. cbn [andb].
      destruct (Nat.eqb_spec c c') as [<-|]; [|reflexivity].
      destruct (Nat.eqb_spec k k') as [<-|]; [|reflexivity].
      contradiction.
  - inversion H; subst. exists (view L s'), (view L t).
    rewrite !(over_view L HL). repeat split; auto.
Qed.

(** An object related to the start that already has the cells of the
    result is left as it is. *)
Lemma effect_fixed (P : nat -> nat -> Prop) {A} (m : M GradientTableOld.t A)
    (s t s' : GradientTableOld.t) (r : result A) :
  effect L P m -> related L s t -> m s = (r, s') ->
  (forall c k, cell (view L t) c k = cell (view L s') c k) ->
  m t = (r, t).
Proof.
  intros H Hr Hm Hc.
  destruct (H s t r s' Hr Hm) as (T' & U' & -> & E & HT & HU & HC & _).
  rewrite (view_over L HL) in Hc.
  assert (EU : U' = view L t).
  { apply grid_ext; [assumption|]. intros c k.
    destruct (HC c k) as [E1|[E1 _]]; congruence. }
  rewrite E, EU, (over_view L HL). reflexivity.
Qed.

(** What a computation leaves: the object with another table of the same
    shape, which differs within [P] only. *)
Lemma effect_frame (P : nat -> nat -> Prop) {A} (m : M GradientTableOld.t A)
    (s s' : GradientTableOld.t) (r : result A) :
  effect L P m -> m s = (r, s') ->
  exists T', s' = over L T' s /\ shape T' = shape (view L s) /\
             forall c k, ~ P c k -> cell T' c k = cell (view L s) c k.
Proof.
  intros H Hm.
  destruct (H s s r s' (related_refl s) Hm) as (T' & U' & -> & _ & HT & _ & _ & HF).
  exists T'. auto.
Qed.

End Effects.

(** ** The two tables as lenses *)

Lemma hsva_lens_lawful : lawful hsva_lens.
Proof.
  constructor; cbn; intros; try destruct s; try destruct t; cbn in *;
    try reflexivity; auto.
Qed.

Lemma rgba_lens_lawful : lawful rgba_lens.
Proof.
  constructor; cbn; intros; try destruct s; try destruct t; cbn in *;
    try reflexivity; auto.
Qed.

(** ** Indexing with natural numbers *)

Lemma index_of_nat {A} (l : list A) (n : nat) :
  PySeq.index l (Z.of_nat n)
  = if (n <? List.length l)%nat then Some n else None.
Proof.
  unfold PySeq.index.
  destruct (Nat.ltb_spec n (List.length l)) as [H|H].
  - replace ((0 <=? Z.of_nat n)%Z && (Z.of_nat n <? Z.of_nat (List.length l))%Z)
      with true by (symmetry; apply andb_true_iff; split; [apply Z.leb_le|apply Z.ltb_lt]; lia).
    rewrite Nat2Z.id. reflexivity.
  - replace (Z.of_nat n <? Z.of_nat (List.length l))%Z with false
      by (symmetry; apply Z.ltb_ge; lia).
    replace (Z.of_nat n <? 0)%Z with false by (symmetry; apply Z.ltb_ge; lia).
    rewrite !andb_false_r. reflexivity.
Qed.

Lemma getitem_of_nat {A} (l : list A) (n : nat) :
  PySeq.getitem l (Z.of_nat n)
  = match nth_error l n with Some x => Ok x | None => Raise IndexError end.
Proof.
  unfold PySeq.getitem. rewrite index_of_nat.
  destruct (Nat.ltb_spec n (List.length l)) as [H|H]; [reflexivity|].
  apply nth_error_None in H. rewrite H. reflexivity.
Qed.

Lemma setitem_of_nat {A} (l : list A) (n : nat) (x : A) :
  PySeq.setitem l (Z.of_nat n) x
  = if (n <? List.length l)%nat then Ok (PySeq.replace_nth n x l)
    else Raise IndexError.
Proof.
  unfold PySeq.setitem. rewrite index_of_nat.
  destruct (n <? List.length l)%nat; reflexivity.
Qed.

Lemma channel_index_row (it : channel) :
  channel_index it = Z.of_nat (channel_row it).
Proof. destruct it; reflexivity. Qed.

Lemma table_hsva_set_write (c k : nat) (v : Q) (s : GradientTableOld.t) :
  GradientTableOld.table_hsva_set (Z.of_nat c) (Z.of_nat k) v s
  = write hsva_lens c k v s.
Proof.
  unfold GradientTableOld.table_hsva_set, write, valid, poke, bind, lift, modify.
  cbn [view over hsva_lens].
  rewrite getitem_of_nat.
  destruct (nth_error (GradientTableOld.table_hsva s) c) as [row|] eqn:E;
    [|reflexivity].
  rewrite setitem_of_nat.
  destruct (k <? List.length row)%nat; [|reflexivity].
  rewrite setitem_of_nat.
  assert (H : (c <? List.length (GradientTableOld.table_hsva s))%nat = true).
  { apply Nat.ltb_lt. apply nth_error_Some. congruence. }
  rewrite H. reflexivity.
Qed.

Lemma table_set_write (c k : nat) (v : Q) (s : GradientTableOld.t) :
  GradientTableOld.table_set (Z.of_nat c) (Z.of_nat k) v s
  = write rgba_lens c k v s.
Proof.
  unfold GradientTableOld.table_set, write, valid, poke, bind, lift, modify.
  cbn [view over rgba_lens].
  rewrite getitem_of_nat.
  destruct (nth_error (GradientTableOld.table s) c) as [row|] eqn:E;
    [|reflexivity].
  rewrite setitem_of_nat.
  destruct (k <? List.length row)%nat; [|reflexivity].
  rewrite setitem_of_nat.
  assert (H : (c <? List.length (GradientTableOld.table s))%nat = true).
  { apply Nat.ltb_lt. apply nth_error_Some. congruence. }
  rewrite H. reflexivity.
Qed.

Lemma table_hsva_get_read (c k : nat) (s : GradientTableOld.t) :
  GradientTableOld.table_hsva_get (Z.of_nat c) (Z.of_nat k) s
  = read hsva_lens c k s.
Proof.
  unfold GradientTableOld.table_hsva_get, read, cell, bind, lift.
  cbn [view hsva_lens]. rewrite getitem_of_nat.
  destruct (nth_error (GradientTableOld.table_hsva s) c) as [row|];
    [|reflexivity].
  rewrite getitem_of_nat. destruct (nth_error row k); reflexivity.
Qed.

(** Reading a table changes nothing and depends on that table only. *)
Lemma get_color_hsva_reads (idx : Z) (s : GradientTableOld.t) :
  GradientTableOld.get_color_hsva idx s
  = (color_at (GradientTableOld.table_hsva s) idx, s).
Proof.
  unfold GradientTableOld.get_color_hsva, GradientTableOld.table_hsva_get,
    color_at, lookup, bind, lift, ret.
  repeat match goal with
         | |- context [PySeq.getitem ?l ?i] =>
             destruct (PySeq.getitem l i); try reflexivity
         end.
Qed.

Lemma get_color_reads (idx : Z) (s : GradientTableOld.t) :
  GradientTableOld.get_color idx s
  = (color_at (GradientTableOld.table s) idx, s).
Proof.
  unfold GradientTableOld.get_color, GradientTableOld.table_get,
    color_at, lookup, bind, lift, ret.
  repeat match goal with
         | |- context [PySeq.getitem ?l ?i] =>
             destruct (PySeq.getitem l i); try reflexivity
         end.
Qed.

(** ** What [update] assigns *)

Lemma range_of_nat (n x : Z) :
  In x (PySeq.range n) -> exists j, x = Z.of_nat j.
Proof.
  unfold PySeq.range. intros H. apply in_map_iff in H.
  destruct H as (j & <- & _). exists j. reflexivity.
Qed.

Lemma effect_get_index_pos (L : lens) (P : nat -> nat -> Prop) (idx : Z) :
  lawful L ->
  (forall s t, agree L s t -> GradientTableOld.size s = GradientTableOld.size t) ->
  effect L P (GradientTableOld.get_index_pos idx).
Proof.
  intros HL Hsize. unfold GradientTableOld.get_index_pos.
  apply effect_bind; [assumption| |].
  - apply effect_gets; assumption.
  - intros n. apply effect_lift. assumption.
Qed.

(** One step of the loop over [k] assigns the cell [k] of the row of the
    channel. *)
Lemma effect_interpolate_entry (it : channel) (j : nat)
    (w : GradientTableOld.walk) :
  effect hsva_lens (fun c k => c = channel_row it /\ k = j)
    (GradientTableOld.interpolate_entry it (Z.of_nat j) w).
Proof.
  pose proof hsva_lens_lawful as HL.
  unfold GradientTableOld.interpolate_entry.
  apply effect_bind; [assumption|apply effect_lift; assumption|]. intros w'.
  apply effect_bind; [assumption| |].
  { apply effect_get_index_pos; [assumption|]. intros s t [H _]. exact H. }
  intros cur_pos.
  apply effect_bind; [assumption|apply effect_lift; assumption|]. intros f.
  apply effect_bind; [assumption|apply effect_assert; assumption|]. intros _.
  apply effect_bind; [assumption|apply effect_lift; assumption|]. intros start.
  apply effect_bind; [assumption| |intros _; apply effect_ret; assumption].
  eapply effect_ext.
  - intros s. rewrite channel_index_row. apply table_hsva_set_write.
  - apply effect_write; [assumption|]. split; reflexivity.
Qed.

(** The loop for a channel assigns cells of the row of that channel. *)
Lemma effect_update_channel (total : list (Z * ColorControlPoint.t))
    (it : channel) :
  effect hsva_lens (fun c _ => c = channel_row it)
    (GradientTableOld.update_channel total it).
Proof.
  pose proof hsva_lens_lawful as HL.
  unfold GradientTableOld.update_channel.
  apply effect_bind; [assumption|apply effect_assert; assumption|]. intros _.
  apply effect_bind; [assumption|apply effect_lift; assumption|]. intros first.
  apply effect_bind; [assumption| |].
  { apply effect_gets; [assumption|]. intros s t [H _]. exact H. }
  intros n.
  apply effect_bind; [assumption| |].
  - apply effect_for_fold; [assumption|]. intros x w Hx.
    destruct (range_of_nat n x Hx) as [j ->].
    eapply effect_weaken; [|apply effect_interpolate_entry].
    intros c k [Hc _]. exact Hc.
  - intros w. apply effect_bind; [assumption| |].
    + apply effect_gets; [assumption|]. intros s t [H _]. exact H.
    + intros n'. apply effect_assert. assumption.
Qed.

Lemma effect_channels (total : list (Z * ColorControlPoint.t)) :
  effect hsva_lens (fun _ _ => True)
    (for_each channels (GradientTableOld.update_channel total)).
Proof.
  apply effect_for_each; [apply hsva_lens_lawful|]. intros it _.
  eapply effect_weaken; [|apply effect_update_channel]. auto.
Qed.

(** The conversion of the rows to RGBA reads the HSVA table and assigns
    cells of the RGBA table. *)
Lemma effect_convert (n : Z) :
  effect rgba_lens (fun _ _ => True)
    (for_each (PySeq.range n)
       (fun k =>
          c <- GradientTableOld.get_color_hsva k ;;
          let '(h, s, v, a) := c in
          GradientTableOld.set_color k (hsva_to_rgba h s v a))).
Proof.
  pose proof rgba_lens_lawful as HL.
  apply effect_for_each; [assumption|]. intros x Hx.
  destruct (range_of_nat n x Hx) as [j ->].
  apply effect_bind; [assumption| |].
  - apply (effect_reader rgba_lens HL _ _
             (fun s => color_at (GradientTableOld.table_hsva s) (Z.of_nat j))).
    + apply get_color_hsva_reads.
    + intros s t [_ H]. rewrite H. reflexivity.
  - intros [[[h s] v] a]. destruct (hsva_to_rgba h s v a) as [[[r g] b] a'].
    unfold GradientTableOld.set_color.
    assert (W : forall c x, True ->
              effect rgba_lens (fun _ _ => True)
                (GradientTableOld.table_set (Z.of_nat c) (Z.of_nat j) x)).
    { intros c x _. eapply effect_ext.
      - intros s0. apply table_set_write.
      - apply effect_write; auto. }
    apply effect_bind; [assumption|apply (W 0%nat); exact I|]. intros _.
    apply effect_bind; [assumption|apply (W 1%nat); exact I|]. intros _.
    apply effect_bind; [assumption|apply (W 2%nat); exact I|]. intros _.
    apply (W 3%nat). exact I.
Qed.

(** ** [update] twice *)

Lemma update_unfold (s : GradientTableOld.t) :
  GradientTableOld.update s
  = match for_each channels
            (GradientTableOld.update_channel
               (GradientTableOld.control_point_indices_total s)) s with
    | (Ok _, s1) =>
        for_each (PySeq.range (GradientTableOld.size s1))
          (fun k =>
             c <- GradientTableOld.get_color_hsva k ;;
             let '(h, s, v, a) := c in
             GradientTableOld.set_color k (hsva_to_rgba h s v a)) s1
    | (Raise e, s1) => (Raise e, s1)
    end.
Proof. reflexivity. Qed.

(** Running the legacy [update] on the object it has left gives the same
    outcome and leaves the object as it is. *)
Lemma update_again (s s' : GradientTableOld.t) (r : result unit) :
  GradientTableOld.update s = (r, s') -> GradientTableOld.update s' = (r, s').
Proof.
  rewrite !update_unfold.
  set (total := GradientTableOld.control_point_indices_total s).
  destruct (for_each channels (GradientTableOld.update_channel total) s)
    as [r1 s1] eqn:E1.
  destruct (effect_frame hsva_lens hsva_lens_lawful _ _ s s1 r1
              (effect_channels total) E1) as (T1 & Es1 & HT1 & _).
  cbn [view over hsva_lens] in Es1, HT1.
  destruct r1 as [[]|e].
  - intros E2.
    destruct (effect_frame rgba_lens rgba_lens_lawful _ _ s1 s' r
                (effect_convert (GradientTableOld.size s1)) E2)
      as (T2 & Es' & HT2 & _).
    cbn [view over rgba_lens] in Es', HT2.
    assert (Et : GradientTableOld.control_point_indices_total s' = total).
    { subst s' s1. reflexivity. }
    rewrite Et.
    assert (R1 : related hsva_lens s s').
    { subst s' s1. split; [split; reflexivity|]. cbn. unfold shape in *. congruence. }
    rewrite (effect_fixed hsva_lens hsva_lens_lawful _ _ s s' s1 (Ok tt)
               (effect_channels total) R1 E1)
      by (subst s' s1; reflexivity).
    assert (En : GradientTableOld.size s' = GradientTableOld.size s1).
    { subst s' s1. reflexivity. }
    rewrite En.
    assert (R2 : related rgba_lens s1 s').
    { subst s'. split; [split; reflexivity|]. cbn. unfold shape in *. congruence. }
    apply (effect_fixed rgba_lens rgba_lens_lawful _ _ s1 s' s' r
             (effect_convert (GradientTableOld.size s1)) R2 E2).
    reflexivity.
  - intros E2. inversion E2; subst r s'. clear E2.
    assert (Et : GradientTableOld.control_point_indices_total s1 = total).
    { rewrite Es1. reflexivity. }
    rewrite Et.
    assert (R1 : related hsva_lens s s1).
    { rewrite Es1. split; [split; reflexivity|]. cbn. unfold shape in *. congruence. }
    rewrite (effect_fixed hsva_lens hsva_lens_lawful _ _ s s1 s1 (Raise e)
               (effect_channels total) R1 E1) by reflexivity.
    reflexivity.
Qed.

(** ** The delegating [update] twice *)

Lemma replay_keeps (points : list ColorControlPoint.t) (s : GradientTable.t) :
  exists table alpha,
    for_each points GradientTable.replay_point s
    = (Ok tt, GradientTable.with_alpha alpha (GradientTable.with_table table s)).
Proof.
  revert s. induction points as [|point points IH]; intros s.
  - exists (GradientTable.table s), (GradientTable.alpha s).
    destruct s; reflexivity.
  - cbn [for_each]. unfold bind.
    unfold GradientTable.replay_point at 1.
    destruct (Color.get_hsva (ColorControlPoint.color point)) as [[[h sat] v] a].
    unfold bind, modify, ret.
    destruct (negb _); destruct (PySeq.contains _ _);
      match goal with
      | |- context [for_each points _ ?s1] =>
          destruct (IH s1) as (tb & al & ->)
      end; eexists _, _; destruct s; reflexivity.
Qed.

Lemma delegating_update_again (s : GradientTable.t) :
  GradientTable.update (snd (GradientTable.update s)) = GradientTable.update s.
Proof.
  unfold GradientTable.update at 2. unfold bind, modify, gets.
  match goal with
  | |- context [for_each ?l _ ?s1] =>
      destruct (replay_keeps l s1) as (tb & al & E)
  end.
  unfold GradientTable.update at 2. unfold bind, modify, gets.
  cbn [GradientTable.control_points GradientTable.with_table
       GradientTable.with_alpha] in E |- *.
  rewrite E. cbn [snd].
  unfold GradientTable.update. unfold bind, modify, gets.
  cbn [GradientTable.control_points GradientTable.with_table
       GradientTable.with_alpha GradientTable.size GradientTable.table
       GradientTable.alpha GradientTable.scaling_function_string
       GradientTable.scaling_function_parameter GradientTable.scaling_function
       GradientTable.remove_all_points].
  unfold GradientTable.remove_all_points in E. cbn in E. exact E.
Qed.

(** C7.  [update] is idempotent for both tables: run on the object that a
    first [update] has left, with nothing changed in between, it has the
    same outcome and leaves every field as it is; so the RGBA and HSVA
    tables of the legacy table, and the keyframes replayed into the external
    functions of the delegating table, are those after the first call. *)
Theorem update_idempotent (old : GradientTableOld.t) (new : GradientTable.t) :
  GradientTableOld.update (snd (GradientTableOld.update old))
  = GradientTableOld.update old /\
  GradientTable.update (snd (GradientTable.update new))
  = GradientTable.update new.
Proof.
  split.
  - destruct (GradientTableOld.update old) as [r s'] eqn:E.
    cbn [snd]. apply update_again with (s := old). exact E.
  - apply delegating_update_again.
Qed.

(** ** The embedding of the file and of the [while] loop *)

(** The lines of a file are not empty and make up its text, so reading
    them one by one ends with the empty string exactly at the end. *)
Lemma readlines_concat (content : string) :
  fold_right String.append EmptyString (readlines content) = content.
Proof.
  induction content as [|c rest IH]; [reflexivity|].
  cbn [readlines]. destruct (Ascii.eqb c PySeq.newline).
  - cbn [fold_right String.append]. rewrite IH. reflexivity.
  - destruct (readlines rest) as [|line lines].
    + cbn in IH |- *. rewrite <- IH. reflexivity.
    + cbn [fold_right String.append] in IH |- *. rewrite IH. reflexivity.
Qed.

Lemma readlines_nonempty (content : string) :
  Forall (fun line => line <> EmptyString) (readlines content).
Proof.
  induction content as [|c rest IH]; [constructor|].
  cbn [readlines]. destruct (Ascii.eqb c PySeq.newline).
  - constructor; [discriminate|exact IH].
  - destruct (readlines rest) as [|line lines].
    + constructor; [discriminate|constructor].
    + inversion IH; subst. constructor; [discriminate|assumption].
Qed.

Lemma skipn_cons {A} (n : nat) (l : list A) (x : A) (r : list A) :
  skipn n l = x :: r -> nth_error l n = Some x /\ skipn (S n) l = r.
Proof.
  revert l. induction n as [|n IH]; intros l H.
  - destruct l; inversion H; subst. split; reflexivity.
  - destruct l as [|y l]; [discriminate|]. cbn [skipn] in H.
    apply IH in H. exact H.
Qed.

(** The [while] loop reads [control_point_indices] by the index
    [end_point_id], as the code does: whenever it has moved on, the end
    point and the next interval come from
    [control_point_indices[end_point_id]], and what is left to read starts
    at [end_point_id + 1]. *)
Lemma advance_reads_by_index (cpi : list (Z * ColorControlPoint.t)) (k : Z)
    (rest : list (Z * ColorControlPoint.t)) :
  forall w w',
    (0 <= GradientTableOld.end_point_id w)%Z ->
    rest = skipn (Z.to_nat (GradientTableOld.end_point_id w + 1)) cpi ->
    GradientTableOld.advance k rest w = Ok w' ->
    w' = w \/
    ((0 <= GradientTableOld.end_point_id w')%Z /\
     GradientTableOld.upcoming w'
     = skipn (Z.to_nat (GradientTableOld.end_point_id w' + 1)) cpi /\
     PySeq.getitem cpi (GradientTableOld.end_point_id w')
     = Ok ((GradientTableOld.next_interval_begin_idx w' - 1)%Z,
           GradientTableOld.end_point w')).
Proof.
  induction rest as [|[idx point] rest IH]; intros w w' Hid Hrest H;
    cbn [GradientTableOld.advance] in H.
  - destruct (k =? _)%Z; [discriminate|]. inversion H. left. reflexivity.
  - destruct (k =? _)%Z; [|inversion H; left; reflexivity].
    symmetry in Hrest. apply skipn_cons in Hrest. destruct Hrest as [Hnth Hskip].
    set (w2 := {| GradientTableOld.start_point_id := GradientTableOld.start_point_id w + 1;
                  GradientTableOld.end_point_id := GradientTableOld.end_point_id w + 1;
                  GradientTableOld.start_pos := GradientTableOld.end_pos w;
                  GradientTableOld.end_pos := ColorControlPoint.pos point;
                  GradientTableOld.next_interval_begin_idx := 1 + idx;
                  GradientTableOld.start_point := Some (GradientTableOld.end_point w);
                  GradientTableOld.end_point := point;
                  GradientTableOld.upcoming := rest |}) in *.
    assert (E : S (Z.to_nat (GradientTableOld.end_point_id w + 1))
                = Z.to_nat (GradientTableOld.end_point_id w2 + 1)).
    { unfold w2. cbn [GradientTableOld.end_point_id]. lia. }
    assert (Hid2 : (0 <= GradientTableOld.end_point_id w2)%Z).
    { unfold w2. cbn [GradientTableOld.end_point_id]. lia. }
    rewrite E in Hskip.
    destruct (IH w2 w' Hid2 (eq_sym Hskip) H) as [->|H']; [|right; exact H'].
    right. split; [exact Hid2|]. split; [symmetry; exact Hskip|].
    unfold w2. cbn [GradientTableOld.end_point_id
                    GradientTableOld.next_interval_begin_idx
                    GradientTableOld.end_point].
    rewrite <- (Z2Nat.id (GradientTableOld.end_point_id w + 1)) by lia.
    rewrite getitem_of_nat, Hnth. f_equal. f_equal. lia.
Qed.

(** ** The walk of [update] and the boundary points *)

Lemma py_div_ok (x y f : Q) :
  py_div x y = Ok f -> ~ y == 0 /\ f = x / y.
Proof.
  unfold py_div. destruct (Qeq_bool y 0) eqn:E; [discriminate|].
  intros H. inversion H. split; [|reflexivity].
  now apply Qeq_bool_neq.
Qed.

Lemma advance_heading (N : Z) (right : ColorControlPoint.t) (k : Z)
    (rest : list (Z * ColorControlPoint.t)) :
  (k < N)%Z ->
  forall w w',
    GradientTableOld.upcoming w = rest ->
    heading_for N right w ->
    GradientTableOld.advance k rest w = Ok w' ->
    heading_for N right w'.
Proof.
  intros Hk. induction rest as [|[idx point] rest IH]; intros w w' Hup Hw H;
    cbn [GradientTableOld.advance] in H.
  - destruct (k =? GradientTableOld.next_interval_begin_idx w)%Z;
      [discriminate|]. inversion H; subst. exact Hw.
  - destruct (Z.eqb_spec k (GradientTableOld.next_interval_begin_idx w)) as [E|E];
      [|inversion H; subst; exact Hw].
    apply IH in H; [exact H|reflexivity|].
    destruct Hw as [(before & after & Hb & Hf & Hn)|(_ & _ & Hn)]; [|lia].
    rewrite Hup in Hb.
    destruct before as [|x before]; cbn [app] in Hb; inversion Hb; subst.
    + right.
      cbn [GradientTableOld.end_point GradientTableOld.end_pos
           GradientTableOld.next_interval_begin_idx].
      repeat split. lia.
    + left. exists before, after.
      cbn [GradientTableOld.upcoming GradientTableOld.next_interval_begin_idx].
      inversion Hf; subst. cbn [fst] in *.
      repeat split; auto. lia.
Qed.

(** What a step of the loop over [k] has done when it returns. *)
Lemma interpolate_entry_ok (it : channel) (j : nat)
    (w w' : GradientTableOld.walk) (s s' : GradientTableOld.t) :
  GradientTableOld.interpolate_entry it (Z.of_nat j) w s = (Ok w', s') ->
  GradientTableOld.advance (Z.of_nat j) (GradientTableOld.upcoming w) w = Ok w' /\
  exists cur_pos f start,
    py_div (1 * inject_Z (Z.of_nat j)) (inject_Z (GradientTableOld.size s - 1))
    = Ok cur_pos /\
    py_div (cur_pos - GradientTableOld.start_pos w')
           (GradientTableOld.end_pos w' - GradientTableOld.start_pos w') = Ok f /\
    GradientTableOld.start_point w' = Some start /\
    GradientTableOld.size s' = GradientTableOld.size s /\
    cell (GradientTableOld.table_hsva s') (channel_row it) j
    = Some (lerp (channel_of it (Color.hsva (ColorControlPoint.color start)))
                 (channel_of it (Color.hsva (ColorControlPoint.color
                                               (GradientTableOld.end_point w'))))
                 f).
Proof.
  unfold GradientTableOld.interpolate_entry, GradientTableOld.get_index_pos.
  unfold bind at 1. unfold lift at 1.
  destruct (GradientTableOld.advance _ _ w) as [w1|e]; [|discriminate].
  unfold bind at 1. unfold bind at 1. unfold gets at 1. unfold lift at 1.
  destruct (py_div (1 * inject_Z (Z.of_nat j)) _) as [cur_pos|e] eqn:Ec;
    [|discriminate].
  unfold bind at 1. unfold lift at 1.
  destruct (py_div (cur_pos - _) _) as [f|e] eqn:Ef; [|discriminate].
  unfold bind at 1.
  destruct (Qle_bool 0 f && Qle_bool f 1); cbn [assert_]; [|discriminate].
  unfold ret at 1. unfold bind at 1. unfold lift at 1.
  destruct (GradientTableOld.start_point w1) as [start|] eqn:Es; [|discriminate].
  unfold bind at 1. rewrite channel_index_row, table_hsva_set_write.
  unfold write. cbn [view over hsva_lens].
  destruct (valid (GradientTableOld.table_hsva s) (channel_row it) j) eqn:V;
    [|discriminate].
  unfold ret. intros H. inversion H; subst w' s'. clear H.
  split; [reflexivity|]. exists cur_pos, f, start.
  repeat split; auto.
  cbn [GradientTableOld.table_hsva GradientTableOld.with_table_hsva].
  rewrite cell_poke, V, !Nat.eqb_refl. reflexivity.
Qed.

Lemma loop_heading (N : Z) (right : ColorControlPoint.t) (it : channel)
    (js : list nat) :
  Forall (fun j => (Z.of_nat j < N)%Z) js ->
  forall w w' s s',
    heading_for N right w ->
    for_fold (map Z.of_nat js) (GradientTableOld.interpolate_entry it) w s
    = (Ok w', s') ->
    heading_for N right w' /\ GradientTableOld.size s' = GradientTableOld.size s.
Proof.
  induction 1 as [|j js Hj _ IH]; intros w w' s s' Hw H; cbn [map for_fold] in H.
  - inversion H; subst. auto.
  - unfold bind in H.
    destruct (GradientTableOld.interpolate_entry it (Z.of_nat j) w s)
      as [[w1|e] s1] eqn:E; [|discriminate].
    apply interpolate_entry_ok in E.
    destruct E as (Ha & _ & _ & _ & _ & _ & _ & Hsize & _).
    apply (advance_heading N right _ _ Hj w w1 eq_refl Hw) in Ha.
    destruct (IH _ _ _ _ Ha H) as [H1 H2]. split; [exact H1|congruence].
Qed.

Lemma lerp_at_0 (x y f : Q) : f == 0 -> lerp x y f == x.
Proof. intros H. unfold lerp. rewrite H. ring. Qed.

Lemma lerp_at_1 (x y f : Q) : f == 1 -> lerp x y f == y.
Proof. intros H. unfold lerp. rewrite H. ring. Qed.

(** The first step of the loop over [k] writes the value of the first
    point of the channel. *)
Lemma first_entry (it : channel) (N : Z) (left right : ColorControlPoint.t)
    (before after : list (Z * ColorControlPoint.t))
    (s s' : GradientTableOld.t) (w' : GradientTableOld.walk) :
  Forall (fun x => (0 <= fst x < N - 1)%Z) before -> (2 <= N)%Z ->
  GradientTableOld.interpolate_entry it (Z.of_nat 0)
    {| GradientTableOld.start_point_id := -1;
       GradientTableOld.end_point_id := 0;
       GradientTableOld.start_pos := 0; GradientTableOld.end_pos := 0;
       GradientTableOld.next_interval_begin_idx := 0;
       GradientTableOld.start_point := None;
       GradientTableOld.end_point := left;
       GradientTableOld.upcoming := before ++ (N - 1, right)%Z :: after |} s
  = (Ok w', s') ->
  exists x,
    cell (GradientTableOld.table_hsva s') (channel_row it) 0 = Some x /\
    x == channel_of it (Color.hsva (ColorControlPoint.color left)).
Proof.
  intros Hb HN H. apply interpolate_entry_ok in H.
  destruct H as (Ha & cur_pos & f & start & Hc & Hf & Hs & _ & Hcell).
  cbn [GradientTableOld.upcoming] in Ha.
  assert (Hw : GradientTableOld.start_point w' = Some left /\
               GradientTableOld.start_pos w' = 0).
  { destruct before as [|[idx point] before]; cbn [app] in Ha;
      cbn [GradientTableOld.advance GradientTableOld.next_interval_begin_idx
           GradientTableOld.end_point GradientTableOld.end_pos Z.of_nat] in Ha;
      rewrite Z.eqb_refl in Ha.
    - destruct after as [|y after]; cbn [GradientTableOld.advance] in Ha;
        cbn [GradientTableOld.next_interval_begin_idx] in Ha;
        replace (0 =? 1 + (N - 1))%Z with false in Ha
          by (symmetry; apply Z.eqb_neq; lia);
        try destruct y; inversion Ha; subst; auto.
    - inversion Hb as [|? ? Hidx _]; subst. cbn [fst] in Hidx.
      destruct (before ++ (N - 1, right)%Z :: after) as [|y l];
        cbn [GradientTableOld.advance] in Ha;
        cbn [GradientTableOld.next_interval_begin_idx] in Ha;
        replace (0 =? 1 + idx)%Z with false in Ha
          by (symmetry; apply Z.eqb_neq; lia);
        try destruct y; inversion Ha; subst; auto. }
  destruct Hw as [Hstart Hpos]. rewrite Hstart in Hs. inversion Hs; subst start.
  rewrite Hpos in Hf.
  apply py_div_ok in Hc. destruct Hc as [Hn0 ->].
  apply py_div_ok in Hf. destruct Hf as [Hne ->].
  eexists. split; [exact Hcell|].
  apply lerp_at_0. cbn [Z.of_nat]. field.
  split; [exact Hn0|]. intros E. apply Hne. rewrite E. reflexivity.
Qed.

(** The last step of the loop over [k], when it ends on the boundary point
    [right], writes the value of [right]. *)
Lemma last_entry (it : channel) (N : Z) (right : ColorControlPoint.t)
    (j : nat) (w w' : GradientTableOld.walk) (s s' : GradientTableOld.t) :
  Z.of_nat j = (N - 1)%Z -> GradientTableOld.size s = N ->
  ColorControlPoint.pos right == 1 ->
  heading_for N right w ->
  GradientTableOld.interpolate_entry it (Z.of_nat j) w s = (Ok w', s') ->
  GradientTableOld.next_interval_begin_idx w' = N ->
  exists x,
    cell (GradientTableOld.table_hsva s') (channel_row it) j = Some x /\
    x == channel_of it (Color.hsva (ColorControlPoint.color right)).
Proof.
  intros Hj HN Hright Hw H Hnext. apply interpolate_entry_ok in H.
  destruct H as (Ha & cur_pos & f & start & Hc & Hf & Hs & _ & Hcell).
  assert (Hk : (Z.of_nat j < N)%Z) by lia.
  apply (advance_heading N right _ _ Hk w w' eq_refl Hw) in Ha.
  destruct Ha as [(? & ? & _ & _ & Hlt)|(Hend & Hpos & _)]; [lia|].
  rewrite Hend in Hcell. rewrite Hpos in Hf.
  rewrite HN, Hj in Hc.
  apply py_div_ok in Hc. destruct Hc as [Hn0 ->].
  apply py_div_ok in Hf. destruct Hf as [Hne ->].
  eexists. split; [exact Hcell|].
  apply lerp_at_1.
  assert (E : 1 * inject_Z (N - 1) / inject_Z (N - 1) == ColorControlPoint.pos right).
  { rewrite Hright. field. exact Hn0. }
  rewrite E. field. exact Hne.
Qed.

Lemma seq_from_1 (n j : nat) : In j (seq 1 n) -> j <> 0%nat.
Proof. intros H. apply in_seq in H. lia. Qed.

(** After the loop for a channel the cells 0 and [N-1] of its row hold the
    values of the two boundary points. *)
Lemma channel_boundary (it : channel) (N : Z)
    (left right : ColorControlPoint.t)
    (total before after : list (Z * ColorControlPoint.t))
    (s s' : GradientTableOld.t) :
  (2 <= N)%Z -> GradientTableOld.size s = N ->
  ColorControlPoint.pos right == 1 ->
  filter (fun x => PySeq.contains (channel_name it)
                     (ColorControlPoint.active_channels (snd x))) total
  = (0%Z, left) :: before ++ (N - 1, right)%Z :: after ->
  Forall (fun x => (0 <= fst x < N - 1)%Z) before ->
  GradientTableOld.update_channel total it s = (Ok tt, s') ->
  exists x0 x1,
    cell (GradientTableOld.table_hsva s') (channel_row it) 0 = Some x0 /\
    x0 == channel_of it (Color.hsva (ColorControlPoint.color left)) /\
    cell (GradientTableOld.table_hsva s') (channel_row it) (Z.to_nat (N - 1))
    = Some x1 /\
    x1 == channel_of it (Color.hsva (ColorControlPoint.color right)).
Proof.
  intros HN Hsize Hright Hfilter Hbefore H.
  unfold GradientTableOld.update_channel in H. rewrite Hfilter in H.
  unfold bind at 1 in H.
  destruct (2 <=? Z.of_nat (List.length ((0%Z, left) :: before ++ (N - 1, right)%Z :: after)))%Z;
    cbn [assert_] in H; [|discriminate].
  unfold ret at 1 in H. unfold bind at 1 in H. unfold lift at 1 in H.
  cbn [PySeq.getitem PySeq.index List.length] in H.
  change (PySeq.getitem ((0%Z, left) :: before ++ (N - 1, right)%Z :: after) 0)
    with (PySeq.getitem ((0%Z, left) :: before ++ (N - 1, right)%Z :: after)
            (Z.of_nat 0)) in H.
  rewrite getitem_of_nat in H. cbn [nth_error snd tl] in H.
  unfold bind at 1 in H. unfold gets at 1 in H. rewrite Hsize in H.
  unfold bind at 1 in H.
  match type of H with
  | context [for_fold ?l ?b ?w0 s] =>
      destruct (for_fold l b w0 s) as [[w|e] s2] eqn:E; [|discriminate]
  end.
  unfold bind, gets in H.
  destruct (Z.eqb_spec (GradientTableOld.next_interval_begin_idx w)
              (GradientTableOld.size s2)) as [Hnext|];
    cbn [assert_] in H; [|discriminate].
  inversion H; subst s'. clear H.
  unfold PySeq.range in E.
  destruct (Z.to_nat N) as [|n] eqn:En; [lia|].
  assert (Hn : Z.of_nat n = (N - 1)%Z) by lia.
  assert (Hto : Z.to_nat (N - 1) = n) by lia.
  rewrite Hto.
  (* the first step *)
  pose proof E as E0. cbn [seq map for_fold] in E0. unfold bind in E0.
  match type of E0 with
  | context [GradientTableOld.interpolate_entry it ?k ?w0 s] =>
      destruct (GradientTableOld.interpolate_entry it k w0 s)
        as [[w1|e] sa] eqn:Ea; [|discriminate]
  end.
  destruct (first_entry it N left right before after s sa w1 Hbefore HN Ea)
    as (x0 & Hx0 & Ex0).
  assert (F : effect hsva_lens (fun _ k => k <> 0%nat)
                (for_fold (map Z.of_nat (seq 1 n))
                   (GradientTableOld.interpolate_entry it) w1)).
  { apply effect_for_fold; [apply hsva_lens_lawful|]. intros x w0 Hx.
    apply in_map_iff in Hx. destruct Hx as (j & <- & Hj).
    eapply effect_weaken; [|apply effect_interpolate_entry].
    intros c k [_ ->]. apply (seq_from_1 n). exact Hj. }
  destruct (effect_frame hsva_lens hsva_lens_lawful _ _ sa s2 _ F E0)
    as (T & Es2 & _ & HT).
  cbn [view over hsva_lens] in Es2, HT.
  (* the last step *)
  rewrite seq_S, map_app, for_fold_app in E. cbn [Nat.add map for_fold] in E.
  unfold bind in E.
  match type of E with
  | context [for_fold ?l ?b ?w0 s] =>
      destruct (for_fold l b w0 s) as [[wp|e] sb] eqn:Eb; [|discriminate]
  end.
  destruct (GradientTableOld.interpolate_entry it (Z.of_nat n) wp sb)
    as [[wl|e] sl] eqn:El; [|discriminate].
  inversion E; subst wl sl. clear E.
  assert (Hw0 : heading_for N right
            {| GradientTableOld.start_point_id := -1;
               GradientTableOld.end_point_id := 0;
               GradientTableOld.start_pos := 0; GradientTableOld.end_pos := 0;
               GradientTableOld.next_interval_begin_idx := 0;
               GradientTableOld.start_point := None;
               GradientTableOld.end_point := left;
               GradientTableOld.upcoming := before ++ (N - 1, right)%Z :: after |}).
  { left. exists before, after. cbn. repeat split; auto. lia. }
  assert (Hjs : Forall (fun j => (Z.of_nat j < N)%Z) (seq 0 n)).
  { apply Forall_forall. intros j Hj. apply in_seq in Hj. lia. }
  destruct (loop_heading N right it (seq 0 n) Hjs _ _ _ _ Hw0 Eb) as [Hwp Hsb].
  assert (Hs2 : GradientTableOld.size s2 = N).
  { rewrite Es2. cbn.
    apply interpolate_entry_ok in Ea.
    destruct Ea as (_ & _ & _ & _ & _ & _ & _ & Hsa & _). congruence. }
  rewrite Hs2 in Hnext.
  destruct (last_entry it N right n wp w sb s2 Hn (eq_trans Hsb Hsize) Hright
              Hwp El Hnext) as (x1 & Hx1 & Ex1).
  exists x0, x1. repeat split; auto.
  rewrite Es2. cbn [GradientTableOld.table_hsva GradientTableOld.with_table_hsva].
  rewrite HT; auto.
Qed.

Lemma fully_constrained_contains (p : ColorControlPoint.t) (it : channel) :
  fully_constrained p ->
  PySeq.contains (channel_name it) (ColorControlPoint.active_channels p) = true.
Proof.
  unfold fully_constrained, channels. intros H.
  rewrite Forall_forall in H. apply H. destruct it; cbn; auto.
Qed.

Lemma channel_row_inj (it it' : channel) :
  channel_row it = channel_row it' -> it = it'.
Proof. destruct it, it'; cbn; congruence. Qed.

(** The indices of the points of a channel, for a point list that starts
    with a boundary point at 0 and has its first point at 1, a boundary
    point, after points on [[0,1)]. *)
Lemma filtered_total (self : GradientTableOld.t) (it : channel)
    (left right : ColorControlPoint.t) (mid rest : list ColorControlPoint.t) :
  GradientTableOld.control_points self = left :: mid ++ right :: rest ->
  (2 <= GradientTableOld.size self)%Z ->
  ColorControlPoint.pos left == 0 -> fully_constrained left ->
  ColorControlPoint.pos right == 1 -> fully_constrained right ->
  Forall (fun p => 0 <= ColorControlPoint.pos p /\ ColorControlPoint.pos p < 1) mid ->
  exists before after,
    filter (fun x => PySeq.contains (channel_name it)
                       (ColorControlPoint.active_channels (snd x)))
           (GradientTableOld.control_point_indices_total self)
    = (0%Z, left) :: before ++ (GradientTableOld.size self - 1, right)%Z :: after /\
    Forall (fun x => (0 <= fst x < GradientTableOld.size self - 1)%Z) before.
Proof.
  intros Hcps HN Hl Hlf Hr Hrf Hmid.
  unfold GradientTableOld.control_point_indices_total. rewrite Hcps.
  set (N := GradientTableOld.size self) in *.
  set (g := fun point : ColorControlPoint.t =>
              (GradientTableOld.get_pos_index self (ColorControlPoint.pos point),
               point)).
  set (f := fun x : Z * ColorControlPoint.t =>
              PySeq.contains (channel_name it)
                (ColorControlPoint.active_channels (snd x))).
  assert (HX : 1 <= inject_Z (N - 1)).
  { change 1 with (inject_Z 1). rewrite <- Zle_Qle. lia. }
  assert (Il : GradientTableOld.get_pos_index self (ColorControlPoint.pos left) = 0%Z).
  { unfold GradientTableOld.get_pos_index. fold N.
    apply int_between; [lia| |]; rewrite Hl; cbn [Z.add inject_Z].
    - rewrite Qmult_0_l. apply Qle_refl.
    - rewrite Qmult_0_l. reflexivity. }
  assert (Ir : GradientTableOld.get_pos_index self (ColorControlPoint.pos right)
               = (N - 1)%Z).
  { unfold GradientTableOld.get_pos_index. fold N.
    apply int_between; [lia| |]; rewrite Hr, Qmult_1_l.
    - apply Qle_refl.
    - rewrite <- Zlt_Qlt. lia. }
  exists (filter f (map g mid)), (filter f (map g rest)). split.
  - assert (Gl : g left = (0%Z, left)) by (unfold g; rewrite Il; reflexivity).
    assert (Gr : g right = ((N - 1)%Z, right))
      by (unfold g; rewrite Ir; reflexivity).
    assert (Fl : f (0%Z, left) = true)
      by apply (fully_constrained_contains left it Hlf).
    assert (Fr : f ((N - 1)%Z, right) = true)
      by apply (fully_constrained_contains right it Hrf).
    cbn [map filter]. rewrite Gl, Fl, map_app, filter_app.
    cbn [map filter]. rewrite Gr, Fr. reflexivity.
  - apply Forall_forall. intros x Hx. apply filter_In in Hx.
    destruct Hx as [Hx _]. apply in_map_iff in Hx.
    destruct Hx as (p & <- & Hp).
    rewrite Forall_forall in Hmid. destruct (Hmid p Hp) as [H0 H1].
    unfold g. cbn [fst]. unfold GradientTableOld.get_pos_index. fold N.
    set (X := inject_Z (N - 1)) in *.
    assert (Hx0 : 0 <= ColorControlPoint.pos p * X)
      by (apply Qmult_le_0_compat; lra).
    rewrite (int_floor _ Hx0). split.
    + change 0%Z with (Qfloor 0). apply Qfloor_resp_le. exact Hx0.
    + rewrite Zlt_Qlt. fold X.
      apply Qle_lt_trans with (ColorControlPoint.pos p * X);
        [apply Qfloor_le|].
      setoid_replace X with (1 * X) at 2 by ring.
      apply Qmult_lt_compat_r; lra.
Qed.

(** After the loops for all channels, the cells 0 and [N-1] of every row
    hold the values of the two boundary points. *)
Lemma channels_boundary (N : Z) (left right : ColorControlPoint.t)
    (total : list (Z * ColorControlPoint.t)) (its : list channel) :
  (2 <= N)%Z -> ColorControlPoint.pos right == 1 ->
  (forall it, exists before after,
      filter (fun x => PySeq.contains (channel_name it)
                         (ColorControlPoint.active_channels (snd x))) total
      = (0%Z, left) :: before ++ (N - 1, right)%Z :: after /\
      Forall (fun x => (0 <= fst x < N - 1)%Z) before) ->
  NoDup its ->
  forall s s',
    GradientTableOld.size s = N ->
    for_each its (GradientTableOld.update_channel total) s = (Ok tt, s') ->
    GradientTableOld.size s' = N /\
    forall it, In it its ->
      exists x0 x1,
        cell (GradientTableOld.table_hsva s') (channel_row it) 0 = Some x0 /\
        x0 == channel_of it (Color.hsva (ColorControlPoint.color left)) /\
        cell (GradientTableOld.table_hsva s') (channel_row it) (Z.to_nat (N - 1))
        = Some x1 /\
        x1 == channel_of it (Color.hsva (ColorControlPoint.color right)).
Proof.
  intros HN Hright Hfilter. induction 1 as [|it its Hnotin Hnodup IH];
    intros s s' Hsize H; cbn [for_each] in H.
  - unfold ret in H. injection H as <-. split; [assumption|]. intros it [].
  - unfold bind in H.
    destruct (GradientTableOld.update_channel total it s) as [[[]|e] sa] eqn:Ea;
      [|discriminate].
    destruct (Hfilter it) as (before & after & Hf & Hb).
    destruct (channel_boundary it N left right total before after s sa
                HN Hsize Hright Hf Hb Ea) as (x0 & x1 & C0 & E0 & C1 & E1).
    destruct (effect_frame hsva_lens hsva_lens_lawful _ _ s sa _
                (effect_update_channel total it) Ea) as (Ta & Esa & _ & _).
    assert (Hsa : GradientTableOld.size sa = N) by (rewrite Esa; exact Hsize).
    destruct (IH sa s' Hsa H) as [Hs' Hits]. split; [exact Hs'|].
    intros it' [<-|Hin]; [|apply Hits; exact Hin].
    assert (F : effect hsva_lens (fun c _ => c <> channel_row it)
                  (for_each its (GradientTableOld.update_channel total))).
    { apply effect_for_each; [apply hsva_lens_lawful|]. intros it' Hin.
      eapply effect_weaken; [|apply effect_update_channel].
      intros c _ -> Hc. apply channel_row_inj in Hc. subst it'.
      contradiction. }
    destruct (effect_frame hsva_lens hsva_lens_lawful _ _ sa s' _ F H)
      as (T & Es' & _ & HT).
    cbn [view over hsva_lens] in Es', HT.
    exists x0, x1.
    rewrite Es'. cbn [GradientTableOld.table_hsva GradientTableOld.with_table_hsva].
    rewrite !HT by (intros Hc; apply Hc; reflexivity).
    auto.
Qed.

Lemma lookup_cell (T : list (list Q)) (c k : nat) :
  lookup T (Z.of_nat c) (Z.of_nat k)
  = match cell T c k with Some x => Ok x | None => Raise IndexError end.
Proof.
  unfold lookup, cell. rewrite getitem_of_nat.
  destruct (nth_error T c) as [row|]; [|reflexivity].
  apply getitem_of_nat.
Qed.

Lemma color_at_cells (T : list (list Q)) (k : nat) (x0 x1 x2 x3 : Q) :
  cell T 0 k = Some x0 -> cell T 1 k = Some x1 ->
  cell T 2 k = Some x2 -> cell T 3 k = Some x3 ->
  color_at T (Z.of_nat k) = Ok (x0, x1, x2, x3).
Proof.
  intros H0 H1 H2 H3. unfold color_at.
  change 0%Z with (Z.of_nat 0). change 1%Z with (Z.of_nat 1).
  change 2%Z with (Z.of_nat 2). change 3%Z with (Z.of_nat 3).
  rewrite !lookup_cell, H0, H1, H2, H3. reflexivity.
Qed.

Lemma channels_nodup : NoDup channels.
Proof.
  unfold channels. repeat constructor; cbn; intuition discriminate.
Qed.

(** Take a table of at least two entries whose control points start with
    a fully constrained point at position 0 and, after points that all lie
    on [[0,1)], have a fully constrained point at position 1 (whatever
    follows it).  If [update] returns, the colour of the gradient at 0.0 is
    the HSVA colour of the first of these two boundary points and the colour
    at 1.0 that of the second. *)
Lemma boundary_colors_when_updated (self after : GradientTableOld.t)
    (left right : ColorControlPoint.t) (mid rest : list ColorControlPoint.t) :
  GradientTableOld.control_points self = left :: mid ++ right :: rest ->
  (2 <= GradientTableOld.size self)%Z ->
  ColorControlPoint.pos left == 0 -> fully_constrained left ->
  ColorControlPoint.pos right == 1 -> fully_constrained right ->
  Forall (fun p => 0 <= ColorControlPoint.pos p /\ ColorControlPoint.pos p < 1) mid ->
  GradientTableOld.update self = (Ok tt, after) ->
  exists c0 c1,
    GradientTableOld.get_pos_color 0 after = (Ok c0, after) /\
    color4_eq (Color.hsva c0) (Color.hsva (ColorControlPoint.color left)) /\
    GradientTableOld.get_pos_color 1 after = (Ok c1, after) /\
    color4_eq (Color.hsva c1) (Color.hsva (ColorControlPoint.color right)).
Proof.
  intros Hcps HN Hl Hlf Hr Hrf Hmid H.
  rewrite update_unfold in H.
  set (N := GradientTableOld.size self) in *.
  set (total := GradientTableOld.control_point_indices_total self) in *.
  destruct (for_each channels (GradientTableOld.update_channel total) self)
    as [[[]|e] s1] eqn:E1; [|discriminate].
  assert (Hfilter : forall it, exists before after0,
             filter (fun x => PySeq.contains (channel_name it)
                                (ColorControlPoint.active_channels (snd x))) total
             = (0%Z, left) :: before ++ (N - 1, right)%Z :: after0 /\
             Forall (fun x => (0 <= fst x < N - 1)%Z) before).
  { intros it. apply (filtered_total self it left right mid rest); assumption. }
  destruct (channels_boundary N left right total channels HN Hr Hfilter
              channels_nodup self s1 eq_refl E1) as [Hs1 Hcells].
  destruct (effect_frame rgba_lens rgba_lens_lawful _ _ s1 after _
              (effect_convert (GradientTableOld.size s1)) H)
    as (T2 & Eafter & _ & _).
  cbn [view over rgba_lens] in Eafter.
  assert (Htab : GradientTableOld.table_hsva after = GradientTableOld.table_hsva s1)
    by (rewrite Eafter; reflexivity).
  assert (Hsize : GradientTableOld.size after = N)
    by (rewrite Eafter; exact Hs1).
  destruct (Hcells Ch_h) as (h0 & h1 & Ch0 & Eh0 & Ch1 & Eh1); [cbn; auto|].
  destruct (Hcells Ch_s) as (s0 & s1' & Cs0 & Es0 & Cs1 & Es1); [cbn; auto|].
  destruct (Hcells Ch_v) as (v0 & v1 & Cv0 & Ev0 & Cv1 & Ev1); [cbn; auto 6|].
  destruct (Hcells Ch_a) as (a0 & a1 & Ca0 & Ea0 & Ca1 & Ea1); [cbn; auto 6|].
  cbn [channel_row] in *. rewrite <- Htab in *.
  assert (I0 : GradientTableOld.get_pos_index after 0 = Z.of_nat 0).
  { unfold GradientTableOld.get_pos_index. apply int_between; [lia| |].
    - rewrite Qmult_0_l. apply Qle_refl.
    - rewrite Qmult_0_l. reflexivity. }
  assert (I1 : GradientTableOld.get_pos_index after 1 = Z.of_nat (Z.to_nat (N - 1))).
  { unfold GradientTableOld.get_pos_index. rewrite Hsize, Z2Nat.id by lia.
    apply int_between; [lia| |]; rewrite Qmult_1_l.
    - apply Qle_refl.
    - rewrite <- Zlt_Qlt. lia. }
  exists (Color.set_hsva Color.init h0 s0 v0 a0),
         (Color.set_hsva Color.init h1 s1' v1 a1).
  unfold GradientTableOld.get_pos_color, bind, get.
  rewrite !get_color_hsva_reads, I0, I1.
  rewrite (color_at_cells _ _ _ _ _ _ Ch0 Cs0 Cv0 Ca0).
  rewrite (color_at_cells _ _ _ _ _ _ Ch1 Cs1 Cv1 Ca1).
  unfold ret. cbn [Color.set_hsva Color.hsva].
  destruct (Color.hsva (ColorControlPoint.color left)) as [[[lh ls] lv] la].
  destruct (Color.hsva (ColorControlPoint.color right)) as [[[rh rs] rv] ra].
  cbn [channel_of color4_eq] in *.
  repeat split; assumption.
Qed.
(** ** The colours at the two ends *)

Lemma py_div_nonzero (x y : Q) : ~ y == 0 -> py_div x y = Ok (x / y).
Proof.
  intros H. unfold py_div. destruct (Qeq_bool y 0) eqn:E; [|reflexivity].
  apply Qeq_bool_iff in E. contradiction.
Qed.

Lemma rows_ok_cell (N : Z) (T : list (list Q)) (c k : nat) :
  rows_ok N T -> (c < 4)%nat -> (Z.of_nat k < N)%Z -> exists x, cell T c k = Some x.
Proof.
  intros H Hc Hk. specialize (H c k Hc Hk). apply valid_cell in H.
  destruct (cell T c k) as [x|]; [exists x; reflexivity|contradiction].
Qed.

(** C6 as stated fails: with a point at position 1 that constrains hue,
    saturation and value lying before the right boundary point, the
    boundary invariant holds and [update] succeeds, and the colour at 1.0
    is the red of that point, not the white of the boundary point.  (And
    over the two boundary points alone, in a table of a single entry,
    [update] raises [ZeroDivisionError].) *)
Lemma crowded_end_colour :
  boundary_invariant (GradientTableOld.control_points Sample.crowded_end)
    Sample.left_point Sample.right_point /\
  exists after c,
    GradientTableOld.update Sample.crowded_end = (Ok tt, after) /\
    GradientTableOld.get_pos_color 1 after = (Ok c, after) /\
    ~ color4_eq (Color.hsva c)
        (Color.hsva (ColorControlPoint.color Sample.right_point)) /\
    fst (GradientTableOld.update (Sample.two_points 1)) = Raise ZeroDivisionError.
Proof.
  split.
  - unfold boundary_invariant, Sample.crowded_end. cbn [GradientTableOld.control_points
      GradientTableOld.with_control_points].
    split; [cbn; lia|].
    split; [cbn; repeat split; repeat constructor; vm_compute; discriminate|].
    split; [repeat constructor; vm_compute; discriminate|].
    split; [cbn; auto|]. split; [vm_compute; reflexivity|].
    split; [repeat constructor|].
    split; [cbn; auto|]. split; [vm_compute; reflexivity|].
    repeat constructor.
  - eexists _, _. split; [vm_compute; reflexivity|].
    split; [vm_compute; reflexivity|].
    split; [|vm_compute; reflexivity].
    vm_compute. intros (H & _). discriminate H.
Qed.

(** C6, amended.  Take a table of [N >= 2] entries whose control points
    start with a fully constrained point at position 0 and, after points
    that all lie on [[0,1)], have a fully constrained point at position 1
    (whatever follows it; the points in between need not be apart).
    Whenever [update] returns, the colour of the recomputed gradient at 0.0
    is the HSVA colour of the first of these two boundary points and the
    colour at 1.0 that of the second.  That [update] returns is a premise:
    its assertion [0 <= f <= 1] is on a quotient of rounded numbers, see
    [weight_above_one]. *)
Theorem update_boundary_colors (self after : GradientTableOld.t)
    (left right : ColorControlPoint.t) (mid rest : list ColorControlPoint.t) :
  GradientTableOld.control_points self = left :: mid ++ right :: rest ->
  (2 <= GradientTableOld.size self)%Z ->
  ColorControlPoint.pos left == 0 -> fully_constrained left ->
  ColorControlPoint.pos right == 1 -> fully_constrained right ->
  Forall (fun p => 0 <= ColorControlPoint.pos p /\ ColorControlPoint.pos p < 1) mid ->
  GradientTableOld.update self = (Ok tt, after) ->
  exists c0 c1,
    GradientTableOld.get_pos_color 0 after = (Ok c0, after) /\
    color4_eq (Color.hsva c0) (Color.hsva (ColorControlPoint.color left)) /\
    GradientTableOld.get_pos_color 1 after = (Ok c1, after) /\
    color4_eq (Color.hsva c1) (Color.hsva (ColorControlPoint.color right)).
Proof. apply boundary_colors_when_updated. Qed.

Lemma update_boundary_colors_witness :
  exists c0 c1,
    GradientTableOld.get_pos_color 0 (snd (GradientTableOld.update twin_mid))
    = (Ok c0, snd (GradientTableOld.update twin_mid)) /\
    color4_eq (Color.hsva c0)
      (Color.hsva (ColorControlPoint.color Sample.left_point)) /\
    GradientTableOld.get_pos_color 1 (snd (GradientTableOld.update twin_mid))
    = (Ok c1, snd (GradientTableOld.update twin_mid)) /\
    color4_eq (Color.hsva c1)
      (Color.hsva (ColorControlPoint.color Sample.right_point)).
Proof.
  apply (update_boundary_colors twin_mid (snd (GradientTableOld.update twin_mid))
           Sample.left_point Sample.right_point [half_point; half_point] []).
  - reflexivity.
  - vm_compute. discriminate.
  - vm_compute. reflexivity.
  - repeat constructor.
  - vm_compute. reflexivity.
  - repeat constructor.
  - repeat constructor; vm_compute; (discriminate || reflexivity).
  - vm_compute. reflexivity.
Defined.

(** ** Where [update] places the control points *)








(** ** Where rounding decides

    The exact model is the code up to rounding.  The runs below, on
    binary64, show the places where rounding changes an outcome; the
    theorems about numbers in this file are stated so that they stay clear
    of them. *)

(** [rgba_to_hsva(0.9, 0.3, 0.1+0.2, 1.0)]: the green 0.3 is just below
    the blue, the hue comes out negative by less than an ulp of 1, and
    [h += 1.0] rounds it to exactly 1.0, which the docstring excludes; back
    through [hsva_to_rgba] the colour is the grey (0.9, 0.9, 0.9, 1.0). *)
Lemma hue_rounds_to_one :
  let r := Binary64.literal 9 10 in
  let g := Binary64.literal 3 10 in
  let b := PrimFloat.add (Binary64.literal 1 10) (Binary64.literal 2 10) in
  let one := Binary64.of_Z 1 in
  exists s,
    Binary64.rgba_to_hsva r g b one = (one, s, r, one) /\
    PrimFloat.ltb s Binary64.achromatic_threshold = false /\
    Binary64.hsva_to_rgba one s r one = Some (r, r, r, one) /\
    PrimFloat.ltb g r = true.
Proof.
  cbv zeta. eexists. split; [vm_compute; reflexivity|].
  split; [vm_compute; reflexivity|].
  split; vm_compute; reflexivity.
Qed.

(** [get_pos_index(1.0/3)] of a table of four entries: the product with 3
    rounds to 1.0, so the index is 1, while the integer part of the exact
    product is 0. *)
Lemma index_of_rounded_product :
  exists f,
    Binary64.exact (Binary64.literal 1 3) = Some f /\
    Binary64.get_pos_index 4 (Binary64.literal 1 3) = Some 1%Z /\
    GradientTableOld.get_pos_index (Sample.two_points 4) f = 0%Z.
Proof.
  eexists. split; [vm_compute; reflexivity|].
  split; vm_compute; reflexivity.
Qed.

(** In a table of eleven entries a control point at [0.3+0.6], which is
    just below 0.9, has the index 9, and the weight that [update] computes
    for the entry 9 between the positions 0 and [0.3+0.6] is above 1: the
    assertion [0 <= f <= 1] fails there. *)
Lemma weight_above_one :
  let pos := PrimFloat.add (Binary64.literal 3 10) (Binary64.literal 6 10) in
  PrimFloat.ltb pos (Binary64.literal 9 10) = true /\
  Binary64.get_pos_index 11 pos = Some 9%Z /\
  PrimFloat.ltb (Binary64.of_Z 1)
    (Binary64.update_weight 11 9 (Binary64.of_Z 0) pos) = true.
Proof. cbv zeta. repeat split; vm_compute; reflexivity. Qed.

(** [lerp(0.1, 0.1, 0.2)] is above 0.1, by an ulp. *)
Lemma lerp_overshoots :
  PrimFloat.ltb (Binary64.literal 1 10)
    (Binary64.lerp (Binary64.literal 1 10) (Binary64.literal 1 10)
       (Binary64.literal 2 10)) = true.
Proof. vm_compute. reflexivity. Qed.

(** At the hue [2^1020] the product with 360.0 is infinite, and [int]
    raises. *)
Lemma hue_overflows :
  Binary64.hsva_to_rgba (FloatOps.Z.ldexp (Binary64.of_Z 1) 1020)
    (Binary64.of_Z 1) (Binary64.of_Z 1) (Binary64.of_Z 1) = None.
Proof. vm_compute. reflexivity. Qed.

(** * Further properties of the code *)

(** ** Interpolation and the colour conversions *)

(** The hue of a grey: 1/6. *)
Lemma rgba_to_hsva_grey (r g b a h s v a' : Q) :
  rgba_to_hsva r g b a = (h, s, v, a') ->
  Py.max3 r g b == Py.min3 r g b -> h == 1 # 6.
Proof.
  unfold rgba_to_hsva. intros H E. apply neb_false in E. rewrite E in H.
  injection H as <- _ _ _. reflexivity.
Qed.

(** X2.  On colours of [[0,1]^3], [rgba_to_hsva] gives a hue, a
    saturation and a value in [[0,1]], the value being the largest
    component, and the alpha it was given.  (That the hue is never 1.0, as
    the docstring has it, holds in exact arithmetic only: see
    [hue_rounds_to_one].) *)
Theorem rgba_to_hsva_range (r g b a h s v a' : Q) :
  0 <= r <= 1 -> 0 <= g <= 1 -> 0 <= b <= 1 ->
  rgba_to_hsva r g b a = (h, s, v, a') ->
  0 <= h <= 1 /\ 0 <= s <= 1 /\ 0 <= v <= 1 /\ v = Py.max3 r g b /\ a' = a.
Proof.
  intros Hr Hg Hb H.
  pose proof (rgba_to_hsva_grey r g b a h s v a' H) as Hgrey.
  apply rgba_to_hsva_inv in H. cbv zeta in H.
  destruct H as (Ha & Hv & Hsv & Hs0 & Hh).
  pose proof (max3_spec r g b) as (M1 & M2 & M3 & M4).
  pose proof (min3_spec r g b) as (m1 & m2 & m3 & m4).
  rewrite <- Hv in M1, M2, M3, M4, Hgrey.
  set (m := Py.min3 r g b) in *.
  assert (Mr : v == r \/ v == g \/ v == b).
  { destruct M4 as [->|[->| ->]]; [left|right;left|right;right]; reflexivity. }
  assert (mr : m == r \/ m == g \/ m == b).
  { destruct m4 as [->|[->| ->]]; [left|right;left|right;right]; reflexivity. }
  clear M4 m4. clearbody m.
  assert (Hv01 : 0 <= v <= 1) by (destruct Mr as [E|[E|E]]; rewrite E; assumption).
  assert (Hm0 : 0 <= m) by (destruct mr as [E|[E|E]]; rewrite E; tauto).
  assert (Hs : 0 <= s <= 1).
  { destruct (Qeq_dec v 0) as [E|E].
    - rewrite (Hs0 E). split; discriminate.
    - specialize (Hsv E). assert (0 < v) by lra. split; nra. }
  assert (H6 : 0 <= 6 * h /\ 6 * h < 6).
  { destruct (Qeq_dec v m) as [E|E].
    - rewrite (Hgrey E). split; vm_compute; congruence.
    - destruct (Hh E) as (e & He & H6).
      assert (Hd : 0 < v - m) by lra.
      assert (Hlo : -1 <= e)
        by (destruct (Py.geb r g && Py.geb r b), (Py.geb g b); nra).
      assert (Hhi : e <= 1)
        by (destruct (Py.geb r g && Py.geb r b), (Py.geb g b); nra).
      destruct (Py.geb r g && Py.geb r b).
      + destruct (Py.ltb e 0) eqn:E0; cmp_to_Q; lra.
      + destruct (Py.geb g b); lra. }
  repeat split; try tauto; try exact Hv; lra.
Qed.

Lemma rgba_to_hsva_range_witness :
  0 <= 4 # 60 <= 1 /\ 0 <= 1 <= 1 /\ 0 <= 1 <= 1 /\
  1 = Py.max3 1 (4 # 10) 0 /\ 1 = 1.
Proof.
  apply (rgba_to_hsva_range 1 (4 # 10) 0 1 (4 # 60) 1 1 1);
    [split; vm_compute; discriminate ..|vm_compute; reflexivity].
Defined.

(** The colours of [hsva_to_rgba] lie between [v*(1-s)] and [v]. *)
Lemma hsva_to_rgba_bounds (h s v a r g b a' : Q) :
  0 <= h -> 0 <= s <= 1 -> 0 <= v ->
  hsva_to_rgba h s v a = (r, g, b, a') ->
  v * (1 - s) <= r <= v /\ v * (1 - s) <= g <= v /\ v * (1 - s) <= b <= v /\
  a' = a.
Proof.
  intros Hh [Hs0 Hs1] Hv. unfold hsva_to_rgba. cbv zeta.
  assert (A3 : 0 <= v * s) by (apply Qmult_le_0_compat; assumption).
  destruct (Py.ltb s achromatic_threshold).
  - intros H. injection H as <- <- <- <-. repeat split; lra.
  - assert (E : h * 360 / 60 == 6 * h) by field.
    assert (H0 : 0 <= h * 360 / 60) by (rewrite E; lra).
    rewrite (int_floor _ H0).
    pose proof (Qfloor_le (h * 360 / 60)) as F1.
    pose proof (Qlt_floor (h * 360 / 60)) as F2.
    rewrite inject_Z_plus in F2. change (inject_Z 1) with 1 in F2.
    set (n := Qfloor (h * 360 / 60)) in *.
    set (hue_partial := h * 360 / 60 - inject_Z n) in *.
    assert (P0 : 0 <= hue_partial) by (unfold hue_partial; lra).
    assert (P1 : hue_partial <= 1) by (unfold hue_partial; lra).
    clearbody hue_partial.
    assert (A1 : 0 <= v * s * hue_partial)
      by (apply Qmult_le_0_compat; assumption).
    assert (A2 : 0 <= v * s * (1 - hue_partial))
      by (apply Qmult_le_0_compat; [assumption|lra]).
    repeat match goal with
           | |- context [(?x =? n)%Z] => destruct (x =? n)%Z
           end;
      intros H; injection H as <- <- <- <-; repeat split; lra.
Qed.

(** X3.  For a hue that is not negative, a saturation in [[0,1]] and a
    value that is not negative, each of the three colours that
    [hsva_to_rgba] returns lies between [v*(1-s)] and [v], and the alpha is
    the given one. *)
Theorem hsva_to_rgba_range (h s v a r g b a' : Q) :
  0 <= h -> 0 <= s <= 1 -> 0 <= v ->
  hsva_to_rgba h s v a = (r, g, b, a') ->
  v * (1 - s) <= r <= v /\ v * (1 - s) <= g <= v /\ v * (1 - s) <= b <= v /\
  a' = a.
Proof. apply hsva_to_rgba_bounds. Qed.

Lemma hsva_to_rgba_range_witness :
  1 * (1 - 1) <= 1 <= 1 /\ 1 * (1 - 1) <= 1440 # 3600 <= 1 /\
  1 * (1 - 1) <= 0 <= 1 /\ 1 = 1.
Proof.
  apply (hsva_to_rgba_range (4 # 60) 1 1 1 1 (1440 # 3600) 0 1);
    [vm_compute; discriminate|split; vm_compute; discriminate
    |vm_compute; discriminate|vm_compute; reflexivity].
Defined.

(** X4.  A hue from 1.0 on is in none of the six sectors: up to
    [10^300], [hsva_to_rgba] returns the grey [(v,v,v,a)] for it, whatever
    the saturation is.  (The bound keeps the product with 360.0 finite; at
    a hue beyond it [int] raises, see [hue_overflows].) *)
Theorem hsva_to_rgba_hue_one (h s v a : Q) :
  1 <= h -> h <= inject_Z (10 ^ 300) ->
  hsva_to_rgba h s v a = (v, v, v, a).
Proof.
  intros Hh _. unfold hsva_to_rgba. cbv zeta.
  destruct (Py.ltb s achromatic_threshold); [reflexivity|].
  assert (E : h * 360 / 60 == 6 * h) by field.
  assert (H0 : 0 <= h * 360 / 60) by (rewrite E; lra).
  rewrite (int_floor _ H0).
  assert (H6 : (6 <= Qfloor (h * 360 / 60))%Z).
  { change 6%Z with (Qfloor 6). apply Qfloor_resp_le. rewrite E. lra. }
  set (n := Qfloor (h * 360 / 60)) in *. clearbody n.
  assert (T : forall k : Z, (k < 6)%Z -> (k =? n)%Z = false)
    by (intros k Hk; apply Z.eqb_neq; lia).
  rewrite !T by lia. reflexivity.
Qed.

Lemma hsva_to_rgba_hue_one_witness :
  hsva_to_rgba 1 1 (3 # 4) 1 = (3 # 4, 3 # 4, 3 # 4, 1).
Proof.
  apply (hsva_to_rgba_hue_one 1 1 (3 # 4) 1); vm_compute; discriminate.
Defined.

(** X5.  For a colour whose hue is not negative and whose saturation and
    value are in [[0,1]], [get_rgb255] returns three integers of the range
    0..255. *)
Theorem get_rgb255_range (self : Color.t) (h s v a : Q) (r g b : Z) :
  Color.get_hsva self = (h, s, v, a) ->
  0 <= h -> 0 <= s <= 1 -> 0 <= v <= 1 ->
  get_rgb255 self = (r, g, b) ->
  (0 <= r <= 255)%Z /\ (0 <= g <= 255)%Z /\ (0 <= b <= 255)%Z.
Proof.
  unfold Color.get_hsva, get_rgb255, Color.get_rgba.
  intros -> Hh Hs [Hv0 Hv1].
  destruct (hsva_to_rgba h s v a) as [[[r' g'] b'] a'] eqn:E.
  destruct (hsva_to_rgba_bounds h s v a r' g' b' a' Hh Hs Hv0 E)
    as (Hr & Hg & Hb & _).
  assert (P : 0 <= v * (1 - s)) by (apply Qmult_le_0_compat; lra).
  assert (B : forall x : Q, 0 <= x <= 1 -> (0 <= Py.int (x * 255) <= 255)%Z).
  { intros x [X0 X1]. rewrite int_floor by lra.
    assert (L : (Qfloor 0 <= Qfloor (x * 255))%Z)
      by (apply Qfloor_resp_le; lra).
    assert (U : (Qfloor (x * 255) <= Qfloor 255)%Z)
      by (apply Qfloor_resp_le; lra).
    split; [exact L|exact U]. }
  intros H. injection H as <- <- <-.
  repeat split; apply B; lra.
Qed.

Lemma get_rgb255_range_witness :
  (0 <= 255 <= 255)%Z /\ (0 <= 102 <= 255)%Z /\ (0 <= 0 <= 255)%Z.
Proof.
  apply (get_rgb255_range (Color.set_hsva Color.init (4 # 60) 1 1 1)
           (4 # 60) 1 1 1 255 102 0);
    [reflexivity|vm_compute; discriminate|split; vm_compute; discriminate
    |split; vm_compute; discriminate|vm_compute; reflexivity].
Defined.

(** ** Control points *)

(** X7.  [set_pos] clamps the position to [[0,1]]: a position within the
    interval is kept as it is, one below 0 becomes 0 and one above 1
    becomes 1; the colour, the flag [fixed] and the channels are left
    alone. *)
Theorem set_pos_clamps (self : ColorControlPoint.t) (f : Q) :
  let point := ColorControlPoint.set_pos self f in
  0 <= ColorControlPoint.pos point <= 1 /\
  (0 <= f <= 1 -> ColorControlPoint.pos point = f) /\
  (f < 0 -> ColorControlPoint.pos point = 0) /\
  (1 < f -> ColorControlPoint.pos point = 1) /\
  ColorControlPoint.color point = ColorControlPoint.color self /\
  ColorControlPoint.fixed point = ColorControlPoint.fixed self /\
  ColorControlPoint.active_channels point = ColorControlPoint.active_channels self.
Proof.
  cbv zeta. unfold ColorControlPoint.set_pos, ColorControlPoint.with_pos,
    Py.max2, Py.min2. cbn [ColorControlPoint.pos ColorControlPoint.color
    ColorControlPoint.fixed ColorControlPoint.active_channels].
  destruct (Py.ltb 1 f) eqn:E1; [destruct (Py.ltb 1 0) eqn:E2
                                |destruct (Py.ltb f 0) eqn:E2];
    cmp_to_Q; repeat split; intros; try reflexivity; lra.
Qed.

Lemma contains_app (c : ascii) (s1 s2 : string) :
  PySeq.contains c (s1 ++ s2) = PySeq.contains c s1 || PySeq.contains c s2.
Proof.
  induction s1 as [|c' s1 IH]; cbn; [reflexivity|].
  rewrite IH. apply orb_assoc.
Qed.

Lemma contains_In (c : ascii) (s : string) :
  PySeq.contains c s = true <-> In c (list_ascii_of_string s).
Proof.
  induction s as [|c' s IH]; cbn.
  - split; [discriminate|contradiction].
  - rewrite orb_true_iff, IH, Ascii.eqb_eq. split; intros [H|H]; auto.
Qed.

Lemma list_ascii_app (s1 s2 : string) :
  list_ascii_of_string (s1 ++ s2)
  = (list_ascii_of_string s1 ++ list_ascii_of_string s2)%list.
Proof. induction s1 as [|c s1 IH]; cbn; [reflexivity|now rewrite IH]. Qed.

Lemma append_assoc (s1 s2 s3 : string) :
  ((s1 ++ s2) ++ s3 = s1 ++ (s2 ++ s3))%string.
Proof. induction s1 as [|c s1 IH]; cbn; [reflexivity|now rewrite IH]. Qed.

Lemma append_empty (s : string) : (s ++ EmptyString)%string = s.
Proof. induction s as [|c s IH]; cbn; [reflexivity|now rewrite IH]. Qed.

(** What [activate_channels] leaves. *)
Lemma activate_channels_spec (new_channels : string) :
  forall self,
    let point := ColorControlPoint.activate_channels self new_channels in
    (exists added,
        ColorControlPoint.active_channels point
        = (ColorControlPoint.active_channels self ++ added)%string /\
        forall c, PySeq.contains c added = true ->
                  PySeq.contains c new_channels = true) /\
    (forall c, PySeq.contains c (ColorControlPoint.active_channels point)
               = PySeq.contains c (ColorControlPoint.active_channels self)
                 || PySeq.contains c new_channels) /\
    (NoDup (list_ascii_of_string (ColorControlPoint.active_channels self)) ->
     NoDup (list_ascii_of_string (ColorControlPoint.active_channels point))) /\
    ColorControlPoint.color point = ColorControlPoint.color self /\
    ColorControlPoint.pos point = ColorControlPoint.pos self /\
    ColorControlPoint.fixed point = ColorControlPoint.fixed self.
Proof.
  cbv zeta.
  induction new_channels as [|c0 cs IH]; intros self.
  - cbn [ColorControlPoint.activate_channels]. split.
    + exists EmptyString. rewrite append_empty. split; [reflexivity|discriminate].
    + split; [intros c; cbn; now rewrite orb_false_r|]. auto.
  - cbn [ColorControlPoint.activate_channels].
    destruct (PySeq.contains c0 (ColorControlPoint.active_channels self)) eqn:E0;
      cbn [negb].
    + destruct (IH self) as ((added & Hadd & Hsub) & Hin & Hnd & Hrest).
      split.
      { exists added. split; [exact Hadd|].
        intros c Hc. cbn. rewrite (Hsub c Hc). apply orb_true_r. }
      split; [|split; [exact Hnd|exact Hrest]].
      intros c. rewrite Hin. cbn [PySeq.contains].
      destruct (Ascii.eqb c c0) eqn:Ec; [|reflexivity].
      apply Ascii.eqb_eq in Ec. subst c0. rewrite E0. reflexivity.
    + destruct (IH (ColorControlPoint.with_active_channels
                      (ColorControlPoint.active_channels self
                       ++ String c0 EmptyString) self))
        as ((added & Hadd & Hsub) & Hin & Hnd & Hrest).
      cbn [ColorControlPoint.with_active_channels
             ColorControlPoint.active_channels ColorControlPoint.color
             ColorControlPoint.pos ColorControlPoint.fixed]
        in Hin, Hadd, Hnd, Hrest.
      split.
      { exists (String c0 added). split.
        - rewrite Hadd, append_assoc. reflexivity.
        - intros c. cbn. destruct (Ascii.eqb c c0); [reflexivity|].
          cbn. apply Hsub. }
      split.
      { intros c. rewrite Hin, contains_app. cbn [PySeq.contains].
        rewrite orb_false_r, orb_assoc. reflexivity. }
      split; [|exact Hrest].
      intros H. apply Hnd. rewrite list_ascii_app. cbn.
      apply Permutation_NoDup
        with (l := c0 :: list_ascii_of_string (ColorControlPoint.active_channels self)).
      * apply Permutation_cons_append.
      * constructor; [|exact H]. intros Hc. apply contains_In in Hc. congruence.
Qed.

(** X8.  [activate_channels] only appends: the channels that were active
    stay in front, a character is active afterwards exactly when it was
    active or is among the new ones, and no character is appended twice;
    nothing else of the point changes. *)
Theorem activate_channels_appends (self : ColorControlPoint.t)
    (new_channels : string) :
  let point := ColorControlPoint.activate_channels self new_channels in
  (exists added,
      ColorControlPoint.active_channels point
      = (ColorControlPoint.active_channels self ++ added)%string) /\
  (forall c, PySeq.contains c (ColorControlPoint.active_channels point)
             = PySeq.contains c (ColorControlPoint.active_channels self)
               || PySeq.contains c new_channels) /\
  (NoDup (list_ascii_of_string (ColorControlPoint.active_channels self)) ->
   NoDup (list_ascii_of_string (ColorControlPoint.active_channels point))) /\
  ColorControlPoint.color point = ColorControlPoint.color self /\
  ColorControlPoint.pos point = ColorControlPoint.pos self /\
  ColorControlPoint.fixed point = ColorControlPoint.fixed self.
Proof.
  cbv zeta.
  destruct (activate_channels_spec new_channels self)
    as ((added & Hadd & _) & Hrest).
  split; [exists added; exact Hadd|exact Hrest].
Qed.

(** X9.  A new control point stands at position 0 with the colour of
    [Color()].  Made for the channels ["a"] it has just these; made for
    anything else it has ["rgb"] in front, followed by characters of the
    given string, so that it is never an opacity-only point, and it has the
    channel [a] exactly when the given string contains it. *)
Theorem init_channels (channels : string) (fixed : bool) :
  let point := ColorControlPoint.init channels fixed in
  ColorControlPoint.pos point = 0 /\
  ColorControlPoint.color point = Color.init /\
  ColorControlPoint.fixed point = fixed /\
  (channels = "a"%string -> ColorControlPoint.active_channels point = "a"%string) /\
  (channels <> "a"%string ->
   exists added,
     ColorControlPoint.active_channels point = ("rgb" ++ added)%string /\
     forall c, PySeq.contains c added = true -> PySeq.contains c channels = true) /\
  String.eqb (ColorControlPoint.active_channels point) "a"
  = String.eqb channels "a" /\
  PySeq.contains "a" (ColorControlPoint.active_channels point)
  = PySeq.contains "a" channels.
Proof.
  cbv zeta. unfold ColorControlPoint.init.
  rewrite (String.eqb_sym "a" channels).
  destruct (String.eqb channels "a") eqn:E; cbn [negb].
  - apply String.eqb_eq in E. subst channels. cbn.
    repeat split; try reflexivity. intros H. congruence.
  - apply String.eqb_neq in E.
    destruct (activate_channels_spec channels
                (ColorControlPoint.with_active_channels "rgb"
                   (ColorControlPoint.mk Color.init 0 fixed EmptyString)))
      as ((added & Hadd & Hsub) & Hin & _ & Hc & Hp & Hf).
    cbn [ColorControlPoint.with_active_channels ColorControlPoint.color
           ColorControlPoint.pos ColorControlPoint.fixed
           ColorControlPoint.active_channels] in Hadd, Hin, Hc, Hp, Hf.
    split; [exact Hp|]. split; [exact Hc|]. split; [exact Hf|].
    split; [intros H; contradiction|].
    split; [intros _; exists added; split; [exact Hadd|exact Hsub]|].
    split; [rewrite Hadd; reflexivity|].
    rewrite Hin. reflexivity.
Qed.

(** ** Sorting and inserting control points *)

Lemma insert_by_pos_perm (x : ColorControlPoint.t) (l : list ColorControlPoint.t) :
  Permutation (insert_by_pos x l) (x :: l).
Proof.
  induction l as [|y l IH]; cbn [insert_by_pos]; [reflexivity|].
  destruct (Py.ltb _ _); [|reflexivity].
  rewrite IH. apply perm_swap.
Qed.

Lemma sort_by_pos_perm (l : list ColorControlPoint.t) :
  Permutation (sort_by_pos l) l.
Proof.
  induction l as [|x l IH]; cbn; [constructor|].
  fold (sort_by_pos l). rewrite insert_by_pos_perm. now constructor.
Qed.

Lemma insert_by_pos_sorted (x : ColorControlPoint.t) (l : list ColorControlPoint.t) :
  sorted_by_pos l -> sorted_by_pos (insert_by_pos x l).
Proof.
  induction l as [|y l IH]; cbn [insert_by_pos sorted_by_pos]; intros H.
  - split; [constructor|exact I].
  - destruct H as [Hy Hl].
    destruct (Py.ltb (ColorControlPoint.pos y) (ColorControlPoint.pos x)) eqn:E;
      cmp_to_Q; cbn [sorted_by_pos].
    + split; [|apply IH; exact Hl].
      eapply Permutation_Forall.
      * symmetry. apply insert_by_pos_perm.
      * constructor; [lra|exact Hy].
    + split; [|split; assumption].
      constructor; [exact E|].
      eapply Forall_impl; [|exact Hy]. cbn. intros z Hz. lra.
Qed.

Lemma sort_by_pos_sorted (l : list ColorControlPoint.t) :
  sorted_by_pos (sort_by_pos l).
Proof.
  induction l as [|x l IH]; cbn; [exact I|].
  apply insert_by_pos_sorted. exact IH.
Qed.

(** A point that is not above any point of a sorted list goes in front. *)
Lemma insert_by_pos_front (x : ColorControlPoint.t) (l : list ColorControlPoint.t) :
  Forall (fun y => ColorControlPoint.pos x <= ColorControlPoint.pos y) l ->
  insert_by_pos x l = x :: l.
Proof.
  destruct l as [|y l]; [reflexivity|]. intros H. cbn [insert_by_pos].
  apply Forall_inv in H. apply ltb_false in H. rewrite H. reflexivity.
Qed.

Lemma sort_by_pos_fixed (l : list ColorControlPoint.t) :
  sorted_by_pos l -> sort_by_pos l = l.
Proof.
  induction l as [|x l IH]; [reflexivity|]. intros [Hx Hl]. cbn.
  fold (sort_by_pos l). rewrite (IH Hl). apply insert_by_pos_front. exact Hx.
Qed.

(** X10.  [sort_control_points] of either table returns and leaves the
    same control points, rearranged in the order of their positions; it
    touches nothing else, and points that are in order already stay as they
    are. *)
Theorem sort_control_points_sorts (old : GradientTableOld.t) (new : GradientTable.t) :
  (exists points,
      GradientTableOld.sort_control_points old
      = (Ok tt, GradientTableOld.with_control_points points old) /\
      sorted_by_pos points /\
      Permutation points (GradientTableOld.control_points old) /\
      (sorted_by_pos (GradientTableOld.control_points old) ->
       points = GradientTableOld.control_points old)) /\
  (exists points,
      GradientTable.sort_control_points new
      = (Ok tt, GradientTable.with_control_points points new) /\
      sorted_by_pos points /\
      Permutation points (GradientTable.control_points new) /\
      (sorted_by_pos (GradientTable.control_points new) ->
       points = GradientTable.control_points new)).
Proof.
  split.
  - exists (sort_by_pos (GradientTableOld.control_points old)).
    split; [reflexivity|]. split; [apply sort_by_pos_sorted|].
    split; [apply sort_by_pos_perm|apply sort_by_pos_fixed].
  - exists (sort_by_pos (GradientTable.control_points new)).
    split; [reflexivity|]. split; [apply sort_by_pos_sorted|].
    split; [apply sort_by_pos_perm|apply sort_by_pos_fixed].
Qed.

Lemma insert_by_pos_filter (p : Q) (x : ColorControlPoint.t)
    (l : list ColorControlPoint.t) :
  filter (fun y => Qeq_bool (ColorControlPoint.pos y) p) (insert_by_pos x l)
  = filter (fun y => Qeq_bool (ColorControlPoint.pos y) p) (x :: l).
Proof.
  induction l as [|y l IH]; [reflexivity|]. cbn [insert_by_pos].
  destruct (Py.ltb (ColorControlPoint.pos y) (ColorControlPoint.pos x)) eqn:E;
    [|reflexivity].
  cbn [filter] in *. rewrite IH.
  destruct (Qeq_bool (ColorControlPoint.pos y) p) eqn:Ey;
    destruct (Qeq_bool (ColorControlPoint.pos x) p) eqn:Ex; try reflexivity.
  apply Qeq_bool_iff in Ey, Ex. cmp_to_Q. lra.
Qed.

(** X11.  The sort is stable: the control points that stand at one and the
    same position keep the order they had. *)
Theorem sort_by_pos_stable (l : list ColorControlPoint.t) (p : Q) :
  filter (fun y => Qeq_bool (ColorControlPoint.pos y) p) (sort_by_pos l)
  = filter (fun y => Qeq_bool (ColorControlPoint.pos y) p) l.
Proof.
  induction l as [|x l IH]; [reflexivity|].
  cbn [sort_by_pos fold_right]. fold (sort_by_pos l).
  rewrite insert_by_pos_filter. cbn [filter]. rewrite IH. reflexivity.
Qed.

(** Where a point appended to sorted points ends up. *)
Lemma sort_appended (x : ColorControlPoint.t) (l : list ColorControlPoint.t) :
  sorted_by_pos l ->
  exists before after,
    l = before ++ after /\
    Forall (fun y => ColorControlPoint.pos y <= ColorControlPoint.pos x) before /\
    Forall (fun y => ColorControlPoint.pos x < ColorControlPoint.pos y) after /\
    sort_by_pos (l ++ [x]) = before ++ x :: after.
Proof.
  unfold sort_by_pos. rewrite fold_right_app. cbn [fold_right insert_by_pos].
  induction l as [|y l IH]; intros Hs.
  - exists [], []. repeat split; constructor.
  - destruct Hs as [Hy Hl]. destruct (IH Hl) as (before & after & El & Hb & Ha & E).
    cbn [fold_right]. rewrite E.
    destruct (Qlt_le_dec (ColorControlPoint.pos x) (ColorControlPoint.pos y)) as [C|C].
    + assert (before = []).
      { destruct before as [|z before]; [reflexivity|]. exfalso.
        apply Forall_inv in Hb. subst l. apply Forall_inv in Hy. lra. }
      subst before. cbn [app] in *. subst after.
      exists [], (y :: l). split; [reflexivity|]. split; [constructor|].
      split; [constructor; assumption|].
      cbn [insert_by_pos app]. apply ltb_true in C. rewrite C.
      rewrite insert_by_pos_front by exact Hy. reflexivity.
    + exists (y :: before), after. split; [cbn; congruence|].
      split; [constructor; assumption|]. split; [exact Ha|].
      apply insert_by_pos_front.
      apply Forall_app. split.
      * subst l. apply Forall_app in Hy. tauto.
      * constructor; [exact C|].
        subst l. apply Forall_app in Hy. tauto.
Qed.

(** X12.  [insert_control_point] into control points that are in order
    puts the new point behind the points at positions up to its own and in
    front of those at greater positions; the other points keep their
    order.  Both tables do the same. *)
Theorem insert_control_point_place (old : GradientTableOld.t)
    (new : GradientTable.t) (new_point : ColorControlPoint.t) :
  (sorted_by_pos (GradientTableOld.control_points old) ->
   exists before after,
     GradientTableOld.control_points old = before ++ after /\
     Forall (fun y => ColorControlPoint.pos y <= ColorControlPoint.pos new_point)
       before /\
     Forall (fun y => ColorControlPoint.pos new_point < ColorControlPoint.pos y)
       after /\
     GradientTableOld.insert_control_point new_point old
     = (Ok tt, GradientTableOld.with_control_points
                 (before ++ new_point :: after) old)) /\
  (sorted_by_pos (GradientTable.control_points new) ->
   exists before after,
     GradientTable.control_points new = before ++ after /\
     Forall (fun y => ColorControlPoint.pos y <= ColorControlPoint.pos new_point)
       before /\
     Forall (fun y => ColorControlPoint.pos new_point < ColorControlPoint.pos y)
       after /\
     GradientTable.insert_control_point new_point new
     = (Ok tt, GradientTable.with_control_points
                 (before ++ new_point :: after) new)).
Proof.
  split; intros Hs;
    destruct (sort_appended new_point _ Hs) as (before & after & El & Hb & Ha & E);
    exists before, after; (split; [exact El|]); (split; [exact Hb|]);
    (split; [exact Ha|]).
  - unfold GradientTableOld.insert_control_point,
      GradientTableOld.sort_control_points, bind, modify.
    cbn [GradientTableOld.control_points GradientTableOld.with_control_points].
    rewrite E. reflexivity.
  - unfold GradientTable.insert_control_point,
      GradientTable.sort_control_points, bind, modify.
    cbn [GradientTable.control_points GradientTable.with_control_points].
    rewrite E. reflexivity.
Qed.

(** ** The legacy table *)

(** X13.  Whatever its outcome, [update] of the legacy table changes the
    two tables only, and keeps the lengths of their rows: the size, the
    control points and the scaling function are what they were. *)
Theorem update_frame (self : GradientTableOld.t) :
  let after := snd (GradientTableOld.update self) in
  GradientTableOld.size after = GradientTableOld.size self /\
  GradientTableOld.control_points after = GradientTableOld.control_points self /\
  GradientTableOld.scaling_function_string after
  = GradientTableOld.scaling_function_string self /\
  GradientTableOld.scaling_function_parameter after
  = GradientTableOld.scaling_function_parameter self /\
  GradientTableOld.scaling_function after = GradientTableOld.scaling_function self /\
  shape (GradientTableOld.table after) = shape (GradientTableOld.table self) /\
  shape (GradientTableOld.table_hsva after)
  = shape (GradientTableOld.table_hsva self).
Proof.
  cbv zeta. rewrite update_unfold.
  set (total := GradientTableOld.control_point_indices_total self).
  destruct (for_each channels (GradientTableOld.update_channel total) self)
    as [r1 s1] eqn:E1.
  destruct (effect_frame hsva_lens hsva_lens_lawful _ _ self s1 r1
              (effect_channels total) E1) as (T1 & Es1 & HT1 & _).
  cbn [view over hsva_lens] in Es1, HT1. subst s1.
  destruct r1 as [[]|e]; [|cbn; auto 10].
  match goal with
  | |- context [for_each ?l ?body ?s] => destruct (for_each l body s) as [r2 s2] eqn:E2
  end.
  destruct (effect_frame rgba_lens rgba_lens_lawful _ _ _ s2 r2
              (effect_convert _) E2) as (T2 & Es2 & HT2 & _).
  cbn [view over rgba_lens] in Es2, HT2. subst s2. cbn. auto 10.
Qed.

Lemma filter_map_swap {A B} (f : B -> bool) (g : A -> B) (l : list A) :
  filter f (map g l) = map g (filter (fun x => f (g x)) l).
Proof.
  induction l as [|x l IH]; cbn; [reflexivity|].
  destruct (f (g x)); cbn; now rewrite IH.
Qed.

(** With fewer than two points on a channel, the walk over it stops at the
    first assertion. *)
Lemma update_channel_few (self : GradientTableOld.t) (it : channel) :
  (List.length
     (filter (fun point => PySeq.contains (channel_name it)
                             (ColorControlPoint.active_channels point))
        (GradientTableOld.control_points self)) < 2)%nat ->
  forall s,
    GradientTableOld.update_channel
      (GradientTableOld.control_point_indices_total self) it s
    = (Raise AssertionError, s).
Proof.
  intros H s. unfold GradientTableOld.update_channel,
    GradientTableOld.control_point_indices_total.
  rewrite (filter_map_swap
             (fun x => PySeq.contains (channel_name it)
                         (ColorControlPoint.active_channels (snd x)))).
  cbn [snd]. rewrite length_map.
  assert (E : (2 <=? Z.of_nat
                 (List.length
                    (filter (fun point => PySeq.contains (channel_name it)
                                            (ColorControlPoint.active_channels point))
                       (GradientTableOld.control_points self))))%Z = false)
    by (apply Z.leb_gt; lia).
  unfold bind at 1. rewrite E. reflexivity.
Qed.

Lemma for_each_fails {S A} (body : A -> M S unit) (x : A) (l : list A) :
  In x l ->
  (forall s, exists e, body x s = (Raise e, s)) ->
  forall s, exists e s', for_each l body s = (Raise e, s').
Proof.
  induction l as [|y l IH]; intros Hin Hx s; [contradiction|].
  cbn [for_each]. unfold bind.
  destruct (body y s) as [[[]|e] s1] eqn:E.
  - destruct Hin as [->|Hin].
    + destruct (Hx s) as [e' He']. congruence.
    + apply IH; assumption.
  - eauto.
Qed.

(** X14.  [update] of the legacy table does not return unless every one
    of the channels h, s, v and a has at least two control points: with
    fewer on some channel it raises, and with fewer on the channel h it
    raises [AssertionError] and leaves the table as it is. *)
Theorem update_needs_two_points (self : GradientTableOld.t) (it : channel) :
  (List.length
     (filter (fun point => PySeq.contains (channel_name it)
                             (ColorControlPoint.active_channels point))
        (GradientTableOld.control_points self)) < 2)%nat ->
  (exists e after, GradientTableOld.update self = (Raise e, after)) /\
  (it = Ch_h -> GradientTableOld.update self = (Raise AssertionError, self)).
Proof.
  intros H. rewrite update_unfold. split.
  - destruct (for_each_fails
                (GradientTableOld.update_channel
                   (GradientTableOld.control_point_indices_total self))
                it channels) with (s := self) as (e & s' & E).
    + destruct it; cbn; auto.
    + intros s. exists AssertionError. apply update_channel_few. exact H.
    + rewrite E. eauto.
  - intros ->. cbn [channels for_each]. unfold bind at 1.
    rewrite (update_channel_few self Ch_h H). reflexivity.
Qed.

Lemma update_needs_two_points_witness :
  (exists e after,
      GradientTableOld.update
        (GradientTableOld.with_control_points [Sample.left_point]
           (Sample.two_points 4)) = (Raise e, after)) /\
  (Ch_h = Ch_h ->
   GradientTableOld.update
     (GradientTableOld.with_control_points [Sample.left_point]
        (Sample.two_points 4))
   = (Raise AssertionError,
      GradientTableOld.with_control_points [Sample.left_point]
        (Sample.two_points 4))).
Proof.
  apply (update_needs_two_points
           (GradientTableOld.with_control_points [Sample.left_point]
              (Sample.two_points 4)) Ch_h).
  vm_compute. lia.
Defined.

Lemma write_ok (L : lens) (c k : nat) (v : Q) (s s' : GradientTableOld.t) :
  write L c k v s = (Ok tt, s') ->
  valid (view L s) c k = true /\ s' = over L (poke (view L s) c k v) s.
Proof.
  unfold write. destruct (valid (view L s) c k); intros H.
  - injection H as <-. auto.
  - discriminate H.
Qed.

(** What [set_color] that returns has done. *)
Lemma set_color_ok (j : nat) (r g b a : Q) (s s' : GradientTableOld.t) :
  GradientTableOld.set_color (Z.of_nat j) (r, g, b, a) s = (Ok tt, s') ->
  exists T',
    s' = GradientTableOld.with_table T' s /\
    cell T' 0 j = Some r /\ cell T' 1 j = Some g /\
    cell T' 2 j = Some b /\ cell T' 3 j = Some a /\
    forall c k, k <> j -> cell T' c k = cell (GradientTableOld.table s) c k.
Proof.
  unfold GradientTableOld.set_color.
  change 0%Z with (Z.of_nat 0). change 1%Z with (Z.of_nat 1).
  change 2%Z with (Z.of_nat 2). change 3%Z with (Z.of_nat 3).
  unfold bind. rewrite table_set_write.
  destruct (write rgba_lens 0 j r s) as [[[]|e] s1] eqn:E1; [|discriminate].
  apply write_ok in E1. destruct E1 as [V1 ->].
  rewrite table_set_write.
  destruct (write rgba_lens 1 j g _) as [[[]|e] s2] eqn:E2; [|discriminate].
  apply write_ok in E2. destruct E2 as [V2 ->].
  rewrite table_set_write.
  destruct (write rgba_lens 2 j b _) as [[[]|e] s3] eqn:E3; [|discriminate].
  apply write_ok in E3. destruct E3 as [V3 ->].
  rewrite table_set_write. intros E4.
  apply write_ok in E4. destruct E4 as [V4 ->].
  cbn [view over rgba_lens GradientTableOld.table GradientTableOld.with_table] in *.
  set (T0 := GradientTableOld.table s) in *.
  set (T1 := poke T0 0 j r) in *. set (T2 := poke T1 1 j g) in *.
  set (T3 := poke T2 2 j b) in *.
  exists (poke T3 3 j a).
  split; [destruct s; reflexivity|].
  unfold T3, T2, T1.
  repeat split; intros; rewrite ?cell_poke; fold T1 T2 T3;
    rewrite ?V1, ?V2, ?V3, ?V4; cbn [andb Nat.eqb]; rewrite ?Nat.eqb_refl;
    try reflexivity.
  assert (E : (j =? k)%nat = false) by (apply Nat.eqb_neq; congruence).
  rewrite E, !andb_false_r. reflexivity.
Qed.

Lemma convert_loop (m : nat) :
  forall j0 s s',
    for_each (map Z.of_nat (seq j0 m))
      (fun k =>
         c <- GradientTableOld.get_color_hsva k ;;
         let '(h, s, v, a) := c in
         GradientTableOld.set_color k (hsva_to_rgba h s v a)) s = (Ok tt, s') ->
    GradientTableOld.table_hsva s' = GradientTableOld.table_hsva s /\
    GradientTableOld.size s' = GradientTableOld.size s /\
    (forall c k, (k < j0)%nat ->
       cell (GradientTableOld.table s') c k = cell (GradientTableOld.table s) c k) /\
    forall k, (j0 <= k < j0 + m)%nat ->
      exists h sat v a,
        color_at (GradientTableOld.table_hsva s) (Z.of_nat k) = Ok (h, sat, v, a) /\
        color_at (GradientTableOld.table s') (Z.of_nat k)
        = Ok (hsva_to_rgba h sat v a).
Proof.
  induction m as [|m IH]; intros j0 s s' H.
  - cbn in H. injection H as <-. repeat split; auto. intros k Hk. lia.
  - cbn [seq map for_each] in H. unfold bind at 1 in H. unfold bind at 1 in H.
    rewrite get_color_hsva_reads in H.
    destruct (color_at (GradientTableOld.table_hsva s) (Z.of_nat j0))
      as [[[[h sat] v] a]|e] eqn:Ec; [|discriminate].
    destruct (hsva_to_rgba h sat v a) as [[[r g] b] a'] eqn:Eh.
    destruct (GradientTableOld.set_color (Z.of_nat j0) (r, g, b, a') s)
      as [[[]|e] s1] eqn:E1; [|discriminate].
    apply set_color_ok in E1. destruct E1 as (T1 & -> & C0 & C1 & C2 & C3 & Hother).
    apply IH in H. destruct H as (Hhsva & Hsize & Hbelow & Hdone).
    cbn [GradientTableOld.table_hsva GradientTableOld.size GradientTableOld.table
           GradientTableOld.with_table] in *.
    split; [exact Hhsva|]. split; [exact Hsize|]. split.
    + intros c k Hk. rewrite Hbelow by lia. apply Hother. lia.
    + intros k Hk. destruct (Nat.eq_dec k j0) as [->|Hne].
      * exists h, sat, v, a. split; [exact Ec|]. rewrite Eh.
        apply color_at_cells; rewrite Hbelow by lia; assumption.
      * apply Hdone. lia.
Qed.

(** X15.  When [update] of the legacy table returns, the RGBA table is the
    HSVA table converted entry by entry: at every index [k] of the table,
    [get_color(k)] is [hsva_to_rgba] of [get_color_hsva(k)]. *)
Theorem update_converts (self after : GradientTableOld.t) (k : Z) :
  GradientTableOld.update self = (Ok tt, after) ->
  (0 <= k < GradientTableOld.size self)%Z ->
  exists h s v a,
    GradientTableOld.get_color_hsva k after = (Ok (h, s, v, a), after) /\
    GradientTableOld.get_color k after = (Ok (hsva_to_rgba h s v a), after).
Proof.
  rewrite update_unfold.
  set (total := GradientTableOld.control_point_indices_total self).
  destruct (for_each channels (GradientTableOld.update_channel total) self)
    as [r1 s1] eqn:E1.
  destruct (effect_frame hsva_lens hsva_lens_lawful _ _ self s1 r1
              (effect_channels total) E1) as (T1 & Es1 & _).
  cbn [view over hsva_lens] in Es1.
  destruct r1 as [[]|e]; [|discriminate].
  assert (Hsize : GradientTableOld.size s1 = GradientTableOld.size self)
    by (subst s1; reflexivity).
  rewrite Hsize. unfold PySeq.range. intros E2 Hk.
  apply convert_loop in E2. destruct E2 as (Hhsva & _ & _ & Hdone).
  destruct (Hdone (Z.to_nat k)) as (h & s & v & a & C1 & C2); [lia|].
  rewrite Z2Nat.id in C1, C2 by lia.
  exists h, s, v, a.
  rewrite get_color_hsva_reads, get_color_reads, Hhsva, C1, C2. auto.
Qed.

Lemma update_converts_witness :
  exists h s v a,
    GradientTableOld.get_color_hsva 2 (snd (GradientTableOld.init 4))
    = (Ok (h, s, v, a), snd (GradientTableOld.init 4)) /\
    GradientTableOld.get_color 2 (snd (GradientTableOld.init 4))
    = (Ok (hsva_to_rgba h s v a), snd (GradientTableOld.init 4)).
Proof.
  apply (update_converts (GradientTableOld.init_fields 4)
           (snd (GradientTableOld.init 4)) 2).
  - vm_compute. reflexivity.
  - vm_compute. split; [discriminate|reflexivity].
Defined.

Lemma table_get_read (c k : nat) (s : GradientTableOld.t) :
  GradientTableOld.table_get (Z.of_nat c) (Z.of_nat k) s = read rgba_lens c k s.
Proof.
  unfold GradientTableOld.table_get, read, bind, lift, cell.
  cbn [view rgba_lens]. rewrite getitem_of_nat.
  destruct (nth_error (GradientTableOld.table s) c) as [row|]; [|reflexivity].
  rewrite getitem_of_nat. destruct (nth_error row k); reflexivity.
Qed.

Lemma table_get_ok (N : Z) (c : nat) (idx : Z) (s : GradientTableOld.t) :
  rows_ok N (GradientTableOld.table s) -> (c < 4)%nat -> (0 <= idx < N)%Z ->
  exists x,
    cell (GradientTableOld.table s) c (Z.to_nat idx) = Some x /\
    GradientTableOld.table_get (Z.of_nat c) idx s = (Ok x, s).
Proof.
  intros Hrows Hc Hidx.
  destruct (rows_ok_cell N _ c (Z.to_nat idx) Hrows Hc) as [x Hx]; [lia|].
  exists x. split; [exact Hx|].
  rewrite <- (Z2Nat.id idx) at 1 by lia.
  rewrite table_get_read. unfold read. cbn [view rgba_lens]. rewrite Hx.
  reflexivity.
Qed.

(** The clamped position of [get_pos_rgba_color_lerped]. *)
Lemma clamp_unit (f : Q) :
  let q := Py.max2 (Py.min2 f 1) 0 in
  0 <= q <= 1 /\ (f <= 0 -> q == 0) /\ (1 <= f -> q == 1).
Proof.
  cbv zeta. unfold Py.max2, Py.min2.
  destruct (Py.ltb 1 f) eqn:E1; [destruct (Py.ltb 1 0) eqn:E2
                                |destruct (Py.ltb f 0) eqn:E2];
    cmp_to_Q; repeat split; intros; lra.
Qed.

(** What [get_pos_rgba_color_lerped] reads and returns. *)
Lemma lerped_between_rows (self : GradientTableOld.t) (f : Q) :
  (1 <= GradientTableOld.size self)%Z ->
  rows_ok (GradientTableOld.size self) (GradientTableOld.table self) ->
  let N := GradientTableOld.size self in
  let scaled_pos := Py.max2 (Py.min2 f 1) 0 * inject_Z (N - 1) in
  exists c0 c1,
    (0 <= Qfloor scaled_pos <= N - 1)%Z /\
    GradientTableOld.get_color (Qfloor scaled_pos) self = (Ok c0, self) /\
    GradientTableOld.get_color (Z.min (N - 1) (1 + Qfloor scaled_pos)) self
    = (Ok c1, self) /\
    GradientTableOld.get_pos_rgba_color_lerped f self
    = (Ok (let '(r0, g0, b0, a0) := c0 in
           let '(r1, g1, b1, a1) := c1 in
           let fraction := scaled_pos - inject_Z (Qfloor scaled_pos) in
           (lerp r0 r1 fraction, lerp g0 g1 fraction,
            lerp b0 b1 fraction, lerp a0 a1 fraction)), self).
Proof.
  intros HN Hrows. cbv zeta.
  unfold GradientTableOld.get_pos_rgba_color_lerped. unfold bind at 1, gets.
  set (N := GradientTableOld.size self) in *.
  destruct (clamp_unit f) as ((Q0 & Q1) & _).
  set (q := Py.max2 (Py.min2 f 1) 0) in *. clearbody q.
  assert (HX : 0 <= inject_Z (N - 1)).
  { change 0 with (inject_Z 0). rewrite <- Zle_Qle. lia. }
  assert (S0 : 0 <= q * inject_Z (N - 1)) by (apply Qmult_le_0_compat; assumption).
  assert (S1 : q * inject_Z (N - 1) <= inject_Z (N - 1)).
  { rewrite <- (Qmult_1_l (inject_Z (N - 1))) at 2.
    apply Qmult_le_compat_r; assumption. }
  rewrite (int_floor _ S0).
  assert (I0 : (0 <= Qfloor (q * inject_Z (N - 1)))%Z).
  { change 0%Z with (Qfloor 0). apply Qfloor_resp_le. exact S0. }
  assert (I1 : (Qfloor (q * inject_Z (N - 1)) <= N - 1)%Z).
  { pose proof (Qfloor_resp_le _ _ S1) as H. rewrite Qfloor_Z in H. exact H. }
  set (idx0 := Qfloor (q * inject_Z (N - 1))) in *.
  set (idx1 := Z.min (N - 1) (1 + idx0)).
  assert (J : (0 <= idx1 < N)%Z) by (unfold idx1; lia).
  assert (I : (0 <= idx0 < N)%Z) by lia.
  destruct (table_get_ok N 0 idx0 self Hrows) as (r0 & Cr0 & Er0); [lia|exact I|].
  destruct (table_get_ok N 1 idx0 self Hrows) as (g0 & Cg0 & Eg0); [lia|exact I|].
  destruct (table_get_ok N 2 idx0 self Hrows) as (b0 & Cb0 & Eb0); [lia|exact I|].
  destruct (table_get_ok N 3 idx0 self Hrows) as (a0 & Ca0 & Ea0); [lia|exact I|].
  destruct (table_get_ok N 0 idx1 self Hrows) as (r1 & Cr1 & Er1); [lia|exact J|].
  destruct (table_get_ok N 1 idx1 self Hrows) as (g1 & Cg1 & Eg1); [lia|exact J|].
  destruct (table_get_ok N 2 idx1 self Hrows) as (b1 & Cb1 & Eb1); [lia|exact J|].
  destruct (table_get_ok N 3 idx1 self Hrows) as (a1 & Ca1 & Ea1); [lia|exact J|].
  exists (r0, g0, b0, a0), (r1, g1, b1, a1).
  split; [lia|].
  rewrite !get_color_reads.
  rewrite <- (Z2Nat.id idx0) at 1 by lia. rewrite <- (Z2Nat.id idx1) at 1 by lia.
  rewrite (color_at_cells _ _ _ _ _ _ Cr0 Cg0 Cb0 Ca0).
  rewrite (color_at_cells _ _ _ _ _ _ Cr1 Cg1 Cb1 Ca1).
  split; [reflexivity|]. split; [reflexivity|].
  cbn [Z.of_nat Pos.of_succ_nat Pos.succ] in Er0, Eg0, Eb0, Ea0, Er1, Eg1, Eb1, Ea1.
  unfold bind.
  rewrite Er0, Er1, Eg0, Eg1, Eb0, Eb1, Ea0, Ea1. reflexivity.
Qed.

(** X16.  On a legacy table of at least one entry whose rows have the
    length of the table, [get_pos_rgba_color_lerped] returns for every
    position and changes nothing; a position of 0 or less gives the first
    colour of the table and a position of 1 or more the last one. *)
Theorem get_pos_rgba_color_lerped_clamps (self : GradientTableOld.t) (f : Q) :
  (1 <= GradientTableOld.size self)%Z ->
  rows_ok (GradientTableOld.size self) (GradientTableOld.table self) ->
  exists c,
    GradientTableOld.get_pos_rgba_color_lerped f self = (Ok c, self) /\
    (f <= 0 ->
     exists c0, GradientTableOld.get_color 0 self = (Ok c0, self) /\
                color4_eq c c0) /\
    (1 <= f ->
     exists c1,
       GradientTableOld.get_color (GradientTableOld.size self - 1) self
       = (Ok c1, self) /\
       color4_eq c c1).
Proof.
  intros HN Hrows.
  destruct (lerped_between_rows self f HN Hrows)
    as ([[[r0 g0] b0] a0] & [[[r1 g1] b1] a1] & _ & E0 & _ & E).
  cbv zeta in E0, E.
  destruct (clamp_unit f) as (_ & Hlo & Hhi).
  set (q := Py.max2 (Py.min2 f 1) 0) in *. clearbody q.
  set (N := GradientTableOld.size self) in *.
  eexists. split; [exact E|]. split.
  - intros Hf. specialize (Hlo Hf).
    assert (S : q * inject_Z (N - 1) == 0) by (rewrite Hlo; ring).
    assert (F : Qfloor (q * inject_Z (N - 1)) = 0%Z) by (rewrite S; reflexivity).
    rewrite F in E0. exists (r0, g0, b0, a0). split; [exact E0|].
    rewrite F. unfold color4_eq.
    repeat split; apply lerp_at_0; rewrite S; reflexivity.
  - intros Hf. specialize (Hhi Hf).
    assert (S : q * inject_Z (N - 1) == inject_Z (N - 1)) by (rewrite Hhi; ring).
    assert (F : Qfloor (q * inject_Z (N - 1)) = (N - 1)%Z)
      by (rewrite S; apply Qfloor_Z).
    rewrite F in E0. exists (r0, g0, b0, a0). split; [exact E0|].
    rewrite F. unfold color4_eq.
    repeat split; apply lerp_at_0; rewrite S; ring.
Qed.

Lemma get_pos_rgba_color_lerped_clamps_witness :
  exists c,
    GradientTableOld.get_pos_rgba_color_lerped 2 (snd (GradientTableOld.init 4))
    = (Ok c, snd (GradientTableOld.init 4)) /\
    (2 <= 0 ->
     exists c0,
       GradientTableOld.get_color 0 (snd (GradientTableOld.init 4))
       = (Ok c0, snd (GradientTableOld.init 4)) /\
       color4_eq c c0) /\
    (1 <= 2 ->
     exists c1,
       GradientTableOld.get_color
         (GradientTableOld.size (snd (GradientTableOld.init 4)) - 1)
         (snd (GradientTableOld.init 4))
       = (Ok c1, snd (GradientTableOld.init 4)) /\
       color4_eq c c1).
Proof.
  apply (get_pos_rgba_color_lerped_clamps (snd (GradientTableOld.init 4)) 2).
  - vm_compute. discriminate.
  - intros c k Hc Hk.
    change (GradientTableOld.size (snd (GradientTableOld.init 4))) with 4%Z in Hk.
    assert (Hk' : (k < 4)%nat) by lia.
    do 4 (destruct c as [|c]; [do 4 (destruct k as [|k]; [reflexivity|]); lia|]).
    lia.
Defined.

(** ** The scaling function and the gradient files of the legacy table *)

Lemma scaling_parameters_changed_sync (compiles : string -> bool)
    (self : GradientTableOld.t) :
  let out := GradientTableOld.scaling_parameters_changed compiles self in
  snd out = GradientTableOld.with_scaling_function (compiled compiles self) self /\
  (fst out = Ok tt <->
   GradientTableOld.scaling_function_string self = EmptyString \/
   compiled compiles self <> None).
Proof.
  cbv zeta. unfold GradientTableOld.scaling_parameters_changed, compiled.
  unfold bind, modify, get.
  cbn [GradientTableOld.scaling_function_string
         GradientTableOld.scaling_function_parameter
         GradientTableOld.with_scaling_function].
  rewrite (String.eqb_sym EmptyString).
  destruct (String.eqb (GradientTableOld.scaling_function_string self) EmptyString)
    eqn:E.
  - apply String.eqb_eq in E. cbn. split; [reflexivity|]. tauto.
  - apply String.eqb_neq in E.
    destruct (compiles _); cbn; (split; [reflexivity|]).
    + split; [intros _; right; discriminate|reflexivity].
    + split; [discriminate|]. intros [H|H]; contradiction.
Qed.

(** X18.  A text that does not compile stays in the table: after
    [set_scaling_function] has failed on it, every
    [set_scaling_function_parameter] fails on it as well, with the same
    [ValueError], though it stores the new parameter. *)
Theorem malformed_function_sticks (compiles : string -> bool)
    (self : GradientTableOld.t) (new_function_string : string)
    (new_parameter : Q) :
  new_function_string <> EmptyString ->
  let source := ("def ParamFn(x): return " ++ new_function_string ++ " ")%string in
  compiles source = false ->
  let failed :=
    snd (GradientTableOld.set_scaling_function compiles new_function_string self) in
  GradientTableOld.set_scaling_function_parameter compiles new_parameter failed
  = (Raise (ValueError ["failed to compile function: "; source]%string),
     GradientTableOld.with_scaling_function_parameter new_parameter failed).
Proof.
  intros Hne source Hc failed.
  assert (E : String.eqb EmptyString new_function_string = false)
    by (apply String.eqb_neq; congruence).
  unfold failed, GradientTableOld.set_scaling_function,
    GradientTableOld.set_scaling_function_parameter,
    GradientTableOld.scaling_parameters_changed, bind, modify, get, raise, ret.
  cbn [GradientTableOld.scaling_function_string
         GradientTableOld.with_scaling_function_string
         GradientTableOld.with_scaling_function
         GradientTableOld.with_scaling_function_parameter].
  rewrite E. fold source. rewrite Hc.
  cbn [snd GradientTableOld.scaling_function_string
         GradientTableOld.with_scaling_function_string
         GradientTableOld.with_scaling_function
         GradientTableOld.with_scaling_function_parameter].
  rewrite E. fold source. rewrite Hc. reflexivity.
Qed.

Lemma malformed_function_sticks_witness :
  GradientTableOld.set_scaling_function_parameter Sample.compiles (1 # 4)
    (snd (GradientTableOld.set_scaling_function Sample.compiles "x**("
            Sample.loaded))
  = (Raise (ValueError ["failed to compile function: ";
                        "def ParamFn(x): return x**( "]%string),
     GradientTableOld.with_scaling_function_parameter (1 # 4)
       (snd (GradientTableOld.set_scaling_function Sample.compiles "x**("
               Sample.loaded))).
Proof.
  apply (malformed_function_sticks Sample.compiles Sample.loaded "x**(" (1 # 4)).
  - discriminate.
  - reflexivity.
Defined.

(** X19.  [load] of a file that cannot be opened raises [IOError], and of
    a file whose first line has fewer than two words (an empty file, for
    one) [IndexError]; in both cases the table is left as it was. *)
Theorem load_unreadable (compiles : string -> bool)
    (float_of : string -> option Q) (fs : string -> option string)
    (file_name : string) (self : GradientTableOld.t) :
  (fs file_name = None ->
   GradientTableOld.load compiles float_of fs file_name self
   = (Raise IOError, self)) /\
  (forall content,
      fs file_name = Some content ->
      (List.length (PySeq.split (fst (readline (readlines content)))) < 2)%nat ->
      GradientTableOld.load compiles float_of fs file_name self
      = (Raise IndexError, self)).
Proof.
  unfold GradientTableOld.load, GradientTableOld.py_open. split.
  - intros ->. reflexivity.
  - intros content -> H. unfold bind at 1. unfold lift at 1.
    unfold bind at 1. unfold GradientTableOld.load_header.
    destruct (readline (readlines content)) as [version_tag file].
    cbn [fst] in H. unfold bind at 1.
    assert (E : PySeq.getitem (PySeq.split version_tag) 1 = Raise IndexError).
    { destruct (PySeq.split version_tag) as [|w0 [|w1 ws]]; [reflexivity..|].
      cbn in H. lia. }
    rewrite E. reflexivity.
Qed.

(** X20.  [load] of a file that has a header of an empty scaling text and
    no control-point lines leaves the table without any control point: it
    raises the [AssertionError] of [update] after it has replaced the
    control points by the empty list. *)
Theorem load_without_points (compiles : string -> bool)
    (float_of : string -> option Q) (fs : string -> option string)
    (file_name content : string) (self after_header : GradientTableOld.t)
    (unread : list string) :
  fs file_name = Some content ->
  GradientTableOld.load_header float_of (readlines content) self
  = (Ok unread, after_header) ->
  snd (readline unread) = [] ->
  GradientTableOld.scaling_function_string after_header = EmptyString ->
  GradientTableOld.load compiles float_of fs file_name self
  = (Raise AssertionError,
     GradientTableOld.with_scaling_function None
       (GradientTableOld.with_control_points [] after_header)).
Proof.
  intros Hfs Hheader Hlines Htext.
  unfold GradientTableOld.load, GradientTableOld.py_open.
  rewrite Hfs. unfold bind at 1. unfold lift at 1.
  unfold bind at 1. rewrite Hheader.
  destruct (readline unread) as [heading lines]. cbn [snd] in Hlines.
  subst lines. cbn [for_fold]. unfold bind at 1. unfold ret at 1.
  unfold bind at 1. unfold modify at 1.
  unfold bind at 1. unfold GradientTableOld.sort_control_points, modify at 1.
  cbn [GradientTableOld.control_points GradientTableOld.with_control_points
         sort_by_pos fold_right].
  set (s1 := GradientTableOld.with_control_points [] _).
  unfold bind at 1.
  destruct (scaling_parameters_changed_sync compiles s1) as [A1 A2].
  cbv zeta in A1, A2.
  destruct (GradientTableOld.scaling_parameters_changed compiles s1) as [r s2].
  cbn [fst snd] in A1, A2. subst s2.
  assert (Hs1 : GradientTableOld.scaling_function_string s1 = EmptyString)
    by (destruct after_header; exact Htext).
  assert (Hr : r = Ok tt) by (apply A2; left; exact Hs1). subst r.
  assert (Hc : compiled compiles s1 = None)
    by (unfold compiled; rewrite Hs1; reflexivity).
  rewrite Hc.
  set (s2 := GradientTableOld.with_scaling_function None s1).
  rewrite update_unfold. cbn [channels for_each]. unfold bind at 1.
  rewrite (update_channel_few s2 Ch_h); [|cbn; lia].
  destruct after_header; reflexivity.
Qed.

Lemma load_without_points_witness :
  GradientTableOld.load Sample.compiles Decimal.float header_only_fs
    "header.grad" Sample.loaded
  = (Raise AssertionError,
     GradientTableOld.with_scaling_function None
       (GradientTableOld.with_control_points []
          (snd (GradientTableOld.load_header Decimal.float
                  (readlines header_only_grad) Sample.loaded)))).
Proof.
  apply (load_without_points Sample.compiles Decimal.float header_only_fs
           "header.grad" header_only_grad Sample.loaded
           (snd (GradientTableOld.load_header Decimal.float
                   (readlines header_only_grad) Sample.loaded))
           (skipn 1 (readlines header_only_grad))).
  - reflexivity.
  - vm_compute. reflexivity.
  - vm_compute. reflexivity.
  - vm_compute. reflexivity.
Defined.




(** ** Export to the toolkit *)

Section ToLookupTable.

Variable call : callable -> Q -> result Q.

(** X22.  [store_to_vtk_lookup_table] of the legacy table with one entry
    asked for divides by zero: it raises [ZeroDivisionError], whatever the
    table holds.  With no entry asked for it returns without setting a
    value. *)
Theorem store_to_vtk_lookup_table_small (self : GradientTableOld.t)
    (vtk_table : LookupTable) (num_entries : Z) :
  (num_entries = 1%Z ->
   old_store_to_vtk_lookup_table call vtk_table num_entries self
   = (Raise ZeroDivisionError, self)) /\
  ((num_entries <= 0)%Z ->
   old_store_to_vtk_lookup_table call vtk_table num_entries self
   = (Ok (mk_LookupTable num_entries (table_values vtk_table)), self)).
Proof.
  split.
  - intros ->. unfold old_store_to_vtk_lookup_table, bind, gets.
    destruct (GradientTableOld.scaling_function self); reflexivity.
  - intros H. unfold old_store_to_vtk_lookup_table, bind, gets, PySeq.range.
    replace (Z.to_nat num_entries) with 0%nat by lia. reflexivity.
Qed.

Lemma store_loop (self : GradientTableOld.t) (num_entries : Z) (l : list Z) :
  (1 <= GradientTableOld.size self)%Z ->
  rows_ok (GradientTableOld.size self) (GradientTableOld.table self) ->
  (2 <= num_entries)%Z ->
  forall vtk_table, exists values,
    for_fold l
      (fun idx vtk_table =>
         x <- lift (py_div (inject_Z idx) (inject_Z (num_entries - 1))) ;;
         f <- lift (Ok x) ;;
         rgba <- GradientTableOld.get_pos_rgba_color_lerped f ;;
         ret (set_table_value vtk_table idx rgba)) vtk_table self
    = (Ok (mk_LookupTable (number_of_table_values vtk_table)
             (table_values vtk_table ++ values)), self) /\
    map fst values = l /\
    Forall (fun v =>
              GradientTableOld.get_pos_rgba_color_lerped
                (inject_Z (fst v) / inject_Z (num_entries - 1)) self
              = (Ok (snd v), self)) values.
Proof.
  intros HN Hrows Hn.
  assert (Hd : ~ inject_Z (num_entries - 1) == 0).
  { change 0 with (inject_Z 0). rewrite inject_Z_injective. lia. }
  induction l as [|idx l IH]; intros vtk_table.
  - exists []. rewrite app_nil_r. destruct vtk_table. repeat split. constructor.
  - cbn [for_fold]. unfold bind at 1. unfold bind at 1. unfold lift at 1.
    rewrite (py_div_nonzero _ _ Hd). unfold bind at 1. unfold lift at 1.
    unfold bind at 1.
    destruct (lerped_between_rows self
                (inject_Z idx / inject_Z (num_entries - 1)) HN Hrows)
      as (c0 & c1 & _ & _ & _ & E).
    cbv zeta in E. rewrite E.
    match type of E with _ = (Ok ?c, _) => set (rgba := c) in * end.
    unfold ret at 1.
    destruct (IH (set_table_value vtk_table idx rgba)) as (values & E' & Hfst & Hall).
    exists ((idx, rgba) :: values). rewrite E'.
    cbn [set_table_value number_of_table_values table_values].
    rewrite <- app_assoc. split; [reflexivity|].
    split; [cbn; congruence|]. constructor; [exact E|exact Hall].
Qed.

(** X23.  Without a scaling function, on a legacy table whose rows have
    the length of the table, [store_to_vtk_lookup_table] with two entries
    or more returns: it sets the number of values and then the values of
    the indices 0, 1, ... in turn, each to the interpolated colour at
    [idx/(num_entries-1)], and it leaves the table as it is. *)
Theorem store_to_vtk_lookup_table_returns (self : GradientTableOld.t)
    (vtk_table : LookupTable) (num_entries : Z) :
  GradientTableOld.scaling_function self = None ->
  (1 <= GradientTableOld.size self)%Z ->
  rows_ok (GradientTableOld.size self) (GradientTableOld.table self) ->
  (2 <= num_entries)%Z ->
  exists values,
    old_store_to_vtk_lookup_table call vtk_table num_entries self
    = (Ok (mk_LookupTable num_entries (table_values vtk_table ++ values)), self) /\
    map fst values = PySeq.range num_entries /\
    Forall (fun v =>
              GradientTableOld.get_pos_rgba_color_lerped
                (inject_Z (fst v) / inject_Z (num_entries - 1)) self
              = (Ok (snd v), self)) values.
Proof.
  intros Hfn HN Hrows Hn.
  unfold old_store_to_vtk_lookup_table, bind at 1, gets. rewrite Hfn.
  apply (store_loop self num_entries (PySeq.range num_entries) HN Hrows Hn
           (mk_LookupTable num_entries (table_values vtk_table))).
Qed.

End ToLookupTable.

Lemma store_to_vtk_lookup_table_returns_witness :
  exists values,
    old_store_to_vtk_lookup_table (fun _ x => Ok x) (mk_LookupTable 0 []) 3
      (snd (GradientTableOld.init 4))
    = (Ok (mk_LookupTable 3 ([] ++ values)), snd (GradientTableOld.init 4)) /\
    map fst values = PySeq.range 3 /\
    Forall (fun v =>
              GradientTableOld.get_pos_rgba_color_lerped
                (inject_Z (fst v) / inject_Z (3 - 1))
                (snd (GradientTableOld.init 4))
              = (Ok (snd v), snd (GradientTableOld.init 4))) values.
Proof.
  apply (store_to_vtk_lookup_table_returns (fun _ x => Ok x)
           (snd (GradientTableOld.init 4)) (mk_LookupTable 0 []) 3).
  - vm_compute. reflexivity.
  - vm_compute. discriminate.
  - intros c k Hc Hk.
    change (GradientTableOld.size (snd (GradientTableOld.init 4))) with 4%Z in Hk.
    assert (Hk' : (k < 4)%nat) by lia.
    do 4 (destruct c as [|c]; [do 4 (destruct k as [|k]; [reflexivity|]); lia|]).
    lia.
  - vm_compute. discriminate.
Defined.

Lemma replay_points (points : list ColorControlPoint.t) :
  forall s,
    for_each points GradientTable.replay_point s
    = (Ok tt,
       GradientTable.with_alpha
         (GradientTable.alpha s ++ opacity_keyframes points)
         (GradientTable.with_table
            (GradientTable.table s ++ colour_keyframes points) s)).
Proof.
  unfold colour_keyframes, opacity_keyframes.
  induction points as [|point points IH]; intros s.
  - cbn. rewrite !app_nil_r. destruct s; reflexivity.
  - cbn [for_each]. unfold bind at 1.
    unfold GradientTable.replay_point at 1.
    destruct (Color.get_hsva (ColorControlPoint.color point))
      as [[[h sat] v] a] eqn:Eh.
    cbn [filter map].
    destruct (String.eqb (ColorControlPoint.active_channels point) "a") eqn:E1;
      destruct (PySeq.contains "a" (ColorControlPoint.active_channels point)) eqn:E2;
      cbn [negb]; unfold bind, modify, ret; rewrite IH; cbn [map];
      rewrite ?Eh; destruct s;
      unfold GradientTable.with_table, GradientTable.with_alpha,
        GradientTable.add_hsv_point, GradientTable.add_point;
      cbn [GradientTable.table GradientTable.alpha GradientTable.size
             GradientTable.control_points GradientTable.scaling_function_string
             GradientTable.scaling_function_parameter
             GradientTable.scaling_function];
      rewrite <- ?app_assoc; reflexivity.
Qed.

(** X24.  [update] of the delegating table always returns.  It replaces
    the keyframes of the two external functions, whatever they were, by
    those of the control points in their order: a colour keyframe
    [(pos,h,s,v)] for every point that is not an opacity-only point and an
    opacity keyframe [(pos,a)] for every point with the channel [a]. *)
Theorem delegating_update_keyframes (self : GradientTable.t) :
  GradientTable.update self
  = (Ok tt,
     GradientTable.with_alpha
       (opacity_keyframes (GradientTable.control_points self))
       (GradientTable.with_table
          (colour_keyframes (GradientTable.control_points self)) self)).
Proof.
  unfold GradientTable.update, bind, modify, gets.
  cbn [GradientTable.control_points GradientTable.with_table
         GradientTable.with_alpha].
  rewrite replay_points. destruct self; reflexivity.
Qed.

Lemma store_points (s1 size : Q) (points : list ColorControlPoint.t) :
  forall volume_prop,
    fold_left (store_point s1 size) points volume_prop
    = mk_VolumeProperty
        (rgb_transfer_function volume_prop
         ++ map (fun k => let '(x, h, s, v) := k in (s1 + x * size, h, s, v))
              (colour_keyframes points))
        (rgb_range volume_prop)
        (scalar_opacity volume_prop
         ++ map (fun k => let '(x, a) := k in (s1 + x * size, a))
              (opacity_keyframes points)).
Proof.
  unfold colour_keyframes, opacity_keyframes.
  induction points as [|point points IH]; intros volume_prop.
  - cbn. rewrite !app_nil_r. destruct volume_prop; reflexivity.
  - cbn [fold_left]. rewrite IH. unfold store_point at 1 2 3.
    destruct (Color.get_hsva (ColorControlPoint.color point))
      as [[[h sat] v] a] eqn:Eh.
    cbn [filter].
    destruct (String.eqb (ColorControlPoint.active_channels point) "a") eqn:E1;
      destruct (PySeq.contains "a" (ColorControlPoint.active_channels point)) eqn:E2;
      cbn [negb map rgb_transfer_function rgb_range scalar_opacity];
      rewrite ?Eh, <- ?app_assoc; reflexivity.
Qed.

(** X25.  [store_to_vtk_volume_prop] of either table discards the
    keyframes of the volume property and stores those that [update] of the
    delegating table makes of the same control points, moved from [[0,1]]
    to the scalar range: a keyframe at [x] goes to [s1 + x*(s2-s1)].  Only
    the delegating table sets the range of the colour function. *)
Theorem store_to_vtk_volume_prop_keyframes (old : GradientTableOld.t)
    (new : GradientTable.t) (volume_prop : VolumeProperty) (s1 s2 : Q)
    (range_settable : bool) :
  let move := fun x => s1 + x * (s2 - s1) in
  old_store_to_vtk_volume_prop old volume_prop (s1, s2)
  = mk_VolumeProperty
      (map (fun k => let '(x, h, s, v) := k in (move x, h, s, v))
         (colour_keyframes (GradientTableOld.control_points old)))
      (rgb_range volume_prop)
      (map (fun k => let '(x, a) := k in (move x, a))
         (opacity_keyframes (GradientTableOld.control_points old))) /\
  store_to_vtk_volume_prop range_settable new volume_prop (s1, s2)
  = mk_VolumeProperty
      (map (fun k => let '(x, h, s, v) := k in (move x, h, s, v))
         (GradientTable.table (snd (GradientTable.update new))))
      (if range_settable then (s1, s2) else rgb_range volume_prop)
      (map (fun k => let '(x, a) := k in (move x, a))
         (GradientTable.alpha (snd (GradientTable.update new)))).
Proof.
  cbv zeta. split.
  - unfold old_store_to_vtk_volume_prop. rewrite store_points. reflexivity.
  - unfold store_to_vtk_volume_prop. rewrite store_points.
    unfold GradientTable.update, bind, modify, gets.
    cbn [GradientTable.control_points GradientTable.with_table
           GradientTable.with_alpha].
    rewrite replay_points.
    destruct range_settable; destruct new; reflexivity.
Qed.

(** ** Import from a transfer-function pair *)

(** X27.  [load_from_vtk_volume_prop] of either table asks for a colour
    function and an opacity function of at least two nodes each: with
    fewer it raises [AssertionError] and leaves the table as it is. *)
Theorem import_needs_two_nodes (ctf : ColorFunction) (otf : OpacityFunction)
    (old : GradientTableOld.t) (new : GradientTable.t) :
  (ctf_size ctf <= 1)%Z \/ (otf_size otf <= 1)%Z ->
  old_load_from_vtk_volume_prop ctf otf old = (Done (Raise AssertionError), old) /\
  load_from_vtk_volume_prop ctf otf new = (Done (Raise AssertionError), new).
Proof.
  intros H.
  assert (E : new_control_points ctf otf = ImportRaise AssertionError).
  { unfold new_control_points.
    destruct (1 <? ctf_size ctf)%Z eqn:E1; [|reflexivity].
    destruct (1 <? otf_size otf)%Z eqn:E2; [|reflexivity].
    apply Z.ltb_lt in E1, E2. lia. }
  unfold old_load_from_vtk_volume_prop, load_from_vtk_volume_prop.
  rewrite E. split; reflexivity.
Qed.

Lemma import_needs_two_nodes_witness :
  old_load_from_vtk_volume_prop
    (mk_ColorFunction 1 (0, 1) None (fun _ => (0, 0, 0)))
    (mk_OpacityFunction 2 None (fun _ => 1)) (Sample.two_points 4)
  = (Done (Raise AssertionError), Sample.two_points 4) /\
  load_from_vtk_volume_prop
    (mk_ColorFunction 1 (0, 1) None (fun _ => (0, 0, 0)))
    (mk_OpacityFunction 2 None (fun _ => 1))
    (GradientTable.mk 4 [] [] [] EmptyString (1 # 2) None)
  = (Done (Raise AssertionError),
     GradientTable.mk 4 [] [] [] EmptyString (1 # 2) None).
Proof.
  apply (import_needs_two_nodes
           (mk_ColorFunction 1 (0, 1) None (fun _ => (0, 0, 0)))
           (mk_OpacityFunction 2 None (fun _ => 1)) (Sample.two_points 4)
           (GradientTable.mk 4 [] [] [] EmptyString (1 # 2) None)).
  left. cbn. lia.
Defined.

Lemma range_head (n : Z) : (0 < n)%Z -> exists l, PySeq.range n = 0%Z :: l.
Proof.
  intros H. unfold PySeq.range.
  destruct (Z.to_nat n) as [|m] eqn:E; [lia|].
  cbn. eauto.
Qed.

(** X28.  A colour function whose range has no width cannot be imported:
    with both functions of two nodes or more, the first position computed
    divides by the width, so that [load_from_vtk_volume_prop] of either
    table raises [ZeroDivisionError] and leaves the table as it is. *)
Theorem import_flat_range (ctf : ColorFunction) (otf : OpacityFunction)
    (old : GradientTableOld.t) (new : GradientTable.t) :
  (1 < ctf_size ctf)%Z -> (1 < otf_size otf)%Z ->
  ctf_nodes ctf <> Some [] ->
  fst (ctf_range ctf) == snd (ctf_range ctf) ->
  old_load_from_vtk_volume_prop ctf otf old
  = (Done (Raise ZeroDivisionError), old) /\
  load_from_vtk_volume_prop ctf otf new
  = (Done (Raise ZeroDivisionError), new).
Proof.
  intros H1 H2 Hnodes Hflat.
  assert (E : new_control_points ctf otf = ImportRaise ZeroDivisionError).
  { unfold new_control_points.
    apply Z.ltb_lt in H1, H2. rewrite H1, H2. cbn [negb].
    apply Z.ltb_lt in H1.
    destruct (ctf_range ctf) as [s1 s2]. cbn [fst snd] in Hflat.
    assert (Hd : ~ inject_Z (ctf_size ctf - 1) == 0).
    { change 0 with (inject_Z 0). rewrite inject_Z_injective. lia. }
    rewrite (py_div_nonzero _ _ Hd).
    destruct (range_head (ctf_size ctf)) as [l ->]; [lia|].
    cbn [import_loop]. unfold import_color_step at 1.
    assert (Hz : forall x, py_div (x - s1) (s2 - s1) = Raise ZeroDivisionError).
    { intros x. unfold py_div.
      assert (Z0 : Qeq_bool (s2 - s1) 0 = true) by (apply Qeq_bool_iff; lra).
      rewrite Z0. reflexivity. }
    assert (Hp : forall ch fx x rgb a,
               import_point ch fx s1 (s2 - s1) x rgb a = Raise ZeroDivisionError).
    { intros ch fx x [[r g] b] a. unfold import_point. rewrite Hz. reflexivity. }
    destruct (ctf_nodes ctf) as [[|n0 nodes]|]; [congruence| |].
    - cbn [PySeq.getitem PySeq.index]. cbn. rewrite Hp. reflexivity.
    - cbn. rewrite Hp. reflexivity. }
  unfold old_load_from_vtk_volume_prop, load_from_vtk_volume_prop.
  rewrite E. split; reflexivity.
Qed.

Lemma import_flat_range_witness :
  old_load_from_vtk_volume_prop
    (mk_ColorFunction 2 (3, 3) None (fun _ => (0, 0, 0)))
    (mk_OpacityFunction 2 None (fun _ => 1)) (Sample.two_points 4)
  = (Done (Raise ZeroDivisionError), Sample.two_points 4) /\
  load_from_vtk_volume_prop
    (mk_ColorFunction 2 (3, 3) None (fun _ => (0, 0, 0)))
    (mk_OpacityFunction 2 None (fun _ => 1))
    (GradientTable.mk 4 [] [] [] EmptyString (1 # 2) None)
  = (Done (Raise ZeroDivisionError),
     GradientTable.mk 4 [] [] [] EmptyString (1 # 2) None).
Proof.
  apply (import_flat_range
           (mk_ColorFunction 2 (3, 3) None (fun _ => (0, 0, 0)))
           (mk_OpacityFunction 2 None (fun _ => 1)) (Sample.two_points 4)
           (GradientTable.mk 4 [] [] [] EmptyString (1 # 2) None)).
  - cbn. lia.
  - cbn. lia.
  - discriminate.
  - reflexivity.
Defined.

Lemma import_loop_points (l : list Z)
    (body : Z -> list ColorControlPoint.t -> imported)
    (made : Z -> ColorControlPoint.t) :
  (forall i acc, In i l -> body i acc = Points (acc ++ [made i])) ->
  forall acc, import_loop l body acc = Points (acc ++ map made l).
Proof.
  induction l as [|i l IH]; intros Hbody acc.
  - cbn. rewrite app_nil_r. reflexivity.
  - cbn [import_loop]. rewrite Hbody by (left; reflexivity).
    cbn [import_bind]. rewrite IH by (intros; apply Hbody; right; assumption).
    rewrite <- app_assoc. reflexivity.
Qed.

Lemma init_fixed (channels : string) (fixed : bool) :
  ColorControlPoint.fixed (ColorControlPoint.init channels fixed) = fixed.
Proof.
  unfold ColorControlPoint.init.
  destruct (negb (String.eqb "a" channels)); [|reflexivity].
  destruct (activate_channels_spec channels
              (ColorControlPoint.with_active_channels "rgb"
                 (ColorControlPoint.mk Color.init 0 fixed EmptyString)))
    as (_ & _ & _ & _ & _ & H).
  exact H.
Qed.

Lemma import_point_ok (channels : string) (fixed : bool) (s1 scale x : Q)
    (rgb : Q * Q * Q) (a : Q) :
  ~ scale == 0 ->
  exists pt,
    import_point channels fixed s1 scale x rgb a = Ok pt /\
    ColorControlPoint.pos pt = Py.max2 (Py.min2 ((x - s1) / scale) 1) 0 /\
    ColorControlPoint.fixed pt = fixed /\
    ColorControlPoint.active_channels pt
    = ColorControlPoint.active_channels (ColorControlPoint.init channels fixed).
Proof.
  intros Hs. destruct rgb as [[r g] b]. unfold import_point.
  rewrite (py_div_nonzero _ _ Hs). eexists. split; [reflexivity|].
  unfold ColorControlPoint.set_pos, ColorControlPoint.with_pos,
    ColorControlPoint.with_color.
  cbn [ColorControlPoint.pos ColorControlPoint.fixed
         ColorControlPoint.active_channels].
  split; [reflexivity|]. split; [apply init_fixed|reflexivity].
Qed.

Lemma range_from_head (a b : Z) :
  (a < b)%Z -> exists l, range_from a b = a :: l.
Proof.
  intros H. unfold range_from.
  destruct (Z.to_nat (b - a)) as [|m] eqn:E; [lia|].
  cbn [seq map]. rewrite Z.add_0_r. eauto.
Qed.

Lemma range_bounds (n i : Z) : In i (PySeq.range n) -> (0 <= i < n)%Z.
Proof.
  unfold PySeq.range. rewrite in_map_iff. intros (j & <- & Hj).
  apply in_seq in Hj. lia.
Qed.

Lemma range_from_bounds (a b i : Z) : In i (range_from a b) -> (a <= i < b)%Z.
Proof.
  unfold range_from. rewrite in_map_iff. intros (j & <- & Hj).
  apply in_seq in Hj. lia.
Qed.

(** The colour points of the first loop when every sample can be read. *)
Lemma import_colour_loop (ctf : ColorFunction) (otf : OpacityFunction)
    (s1 scale ds : Q) (sample : Z -> Q) :
  ~ scale == 0 ->
  (forall i, (0 <= i < ctf_size ctf)%Z ->
     match ctf_nodes ctf with
     | Some nodes => PySeq.getitem nodes i
     | None => Ok (s1 + inject_Z i * ds)
     end = Ok (sample i)) ->
  exists made,
    import_loop (PySeq.range (ctf_size ctf))
      (import_color_step ctf otf (ctf_size ctf) s1 scale ds) []
    = Points (map made (PySeq.range (ctf_size ctf))) /\
    forall i,
      ColorControlPoint.pos (made i)
      = Py.max2 (Py.min2 ((sample i - s1) / scale) 1) 0 /\
      ColorControlPoint.fixed (made i)
      = ((i =? 0)%Z || (i =? ctf_size ctf - 1)%Z) /\
      ColorControlPoint.active_channels (made i)
      = (if (i =? 0)%Z || (i =? ctf_size ctf - 1)%Z then "rgbhsva" else "rgbhsv")%string.
Proof.
  intros Hs Hsample.
  set (made := fun i =>
         match import_point
                 (if (i =? 0)%Z || (i =? ctf_size ctf - 1)%Z then "hsva" else "hsv")
                 ((i =? 0)%Z || (i =? ctf_size ctf - 1)%Z) s1 scale (sample i)
                 (ctf_get_color ctf (sample i)) (otf_get_value otf (sample i)) with
         | Ok pt => pt
         | Raise _ => ColorControlPoint.init "a" false
         end).
  exists made. split.
  - change (map made (PySeq.range (ctf_size ctf)))
      with ([] ++ map made (PySeq.range (ctf_size ctf)))%list.
    apply import_loop_points. intros i acc Hi. apply range_bounds in Hi.
    unfold import_color_step. rewrite (Hsample i Hi). unfold made.
    destruct ((i =? 0)%Z || (i =? ctf_size ctf - 1)%Z);
      match goal with
      | |- context [import_point ?c ?f ?a ?b ?x ?rgb ?al] =>
          destruct (import_point_ok c f a b x rgb al Hs) as (pt & -> & _)
      end; reflexivity.
  - intros i. unfold made.
    destruct ((i =? 0)%Z || (i =? ctf_size ctf - 1)%Z);
      match goal with
      | |- context [import_point ?c ?f ?a ?b ?x ?rgb ?al] =>
          destruct (import_point_ok c f a b x rgb al Hs)
            as (pt & -> & Hp & Hf & Hc)
      end; rewrite Hp, Hf, Hc; repeat split.
Qed.

(** X29.  When the colour function has the attribute [nodes] and the
    opacity function has not, the import reads [otf.nodes] all the same:
    with an opacity function of more than two nodes,
    [load_from_vtk_volume_prop] of either table ends in an
    [AttributeError] after the colour points were made, and leaves the
    table as it is. *)
Theorem import_needs_opacity_nodes (ctf : ColorFunction) (otf : OpacityFunction)
    (old : GradientTableOld.t) (new : GradientTable.t) (nodes : list Q) :
  (1 < ctf_size ctf)%Z -> (2 < otf_size otf)%Z ->
  ctf_nodes ctf = Some nodes ->
  (ctf_size ctf <= Z.of_nat (List.length nodes))%Z ->
  otf_nodes otf = None ->
  ~ fst (ctf_range ctf) == snd (ctf_range ctf) ->
  old_load_from_vtk_volume_prop ctf otf old = (AttributeError, old) /\
  load_from_vtk_volume_prop ctf otf new = (AttributeError, new).
Proof.
  intros H1 H2 Hnodes Hlen Hnone Hrange.
  assert (E : new_control_points ctf otf = ImportAttributeError).
  { unfold new_control_points.
    assert (H1' : (1 <? ctf_size ctf)%Z = true) by (apply Z.ltb_lt; exact H1).
    assert (H2' : (1 <? otf_size otf)%Z = true) by (apply Z.ltb_lt; lia).
    rewrite H1', H2'. cbn [negb].
    destruct (ctf_range ctf) as [s1 s2]. cbn [fst snd] in Hrange.
    assert (Hs : ~ s2 - s1 == 0) by lra.
    assert (Hd : ~ inject_Z (ctf_size ctf - 1) == 0).
    { change 0 with (inject_Z 0). rewrite inject_Z_injective. lia. }
    assert (Hd' : ~ inject_Z (otf_size otf - 1) == 0).
    { change 0 with (inject_Z 0). rewrite inject_Z_injective. lia. }
    rewrite (py_div_nonzero _ _ Hd).
    destruct (import_colour_loop ctf otf s1 (s2 - s1)
                ((s2 - s1) / inject_Z (ctf_size ctf - 1))
                (fun i => nth (Z.to_nat i) nodes 0) Hs) as (made & -> & _).
    { intros i Hi. rewrite Hnodes.
      rewrite <- (Z2Nat.id i) at 1 by lia. rewrite getitem_of_nat.
      destruct (nth_error nodes (Z.to_nat i)) as [x|] eqn:En.
      - rewrite (nth_error_nth _ _ _ En). reflexivity.
      - apply nth_error_None in En. lia. }
    cbn [import_bind]. rewrite (py_div_nonzero _ _ Hd').
    destruct (range_from_head 1 (otf_size otf - 1)) as [l ->]; [lia|].
    cbn [import_loop]. unfold import_opacity_step, opacity_sample.
    rewrite Hnodes, Hnone. reflexivity. }
  unfold old_load_from_vtk_volume_prop, load_from_vtk_volume_prop.
  rewrite E. split; reflexivity.
Qed.

Lemma import_needs_opacity_nodes_witness :
  old_load_from_vtk_volume_prop
    (mk_ColorFunction 2 (0, 1) (Some [0; 1]) (fun _ => (0, 0, 0)))
    (mk_OpacityFunction 3 None (fun _ => 1)) (Sample.two_points 4)
  = (AttributeError, Sample.two_points 4) /\
  load_from_vtk_volume_prop
    (mk_ColorFunction 2 (0, 1) (Some [0; 1]) (fun _ => (0, 0, 0)))
    (mk_OpacityFunction 3 None (fun _ => 1))
    (GradientTable.mk 4 [] [] [] EmptyString (1 # 2) None)
  = (AttributeError, GradientTable.mk 4 [] [] [] EmptyString (1 # 2) None).
Proof.
  apply (import_needs_opacity_nodes
           (mk_ColorFunction 2 (0, 1) (Some [0; 1]) (fun _ => (0, 0, 0)))
           (mk_OpacityFunction 3 None (fun _ => 1)) (Sample.two_points 4)
           (GradientTable.mk 4 [] [] [] EmptyString (1 # 2) None) [0; 1]).
  - cbn. lia.
  - cbn. lia.
  - reflexivity.
  - cbn. lia.
  - reflexivity.
  - cbn. intros H. discriminate H.
Defined.

(** The opacity points of the second loop when the samples are computed. *)
Lemma import_opacity_loop (ctf : ColorFunction) (otf : OpacityFunction)
    (s1 scale ds : Q) (l : list Z) (acc : list ColorControlPoint.t) :
  ~ scale == 0 -> ctf_nodes ctf = None ->
  exists made,
    import_loop l (import_opacity_step ctf otf s1 scale ds) acc
    = Points (acc ++ map made l) /\
    forall i,
      ColorControlPoint.pos (made i)
      = Py.max2 (Py.min2 ((s1 + inject_Z i * ds - s1) / scale) 1) 0 /\
      ColorControlPoint.fixed (made i) = false /\
      ColorControlPoint.active_channels (made i) = "a"%string.
Proof.
  intros Hs Hnone.
  set (made := fun i =>
         match import_point "a" false s1 scale (s1 + inject_Z i * ds)
                 (ctf_get_color ctf (s1 + inject_Z i * ds))
                 (otf_get_value otf (s1 + inject_Z i * ds)) with
         | Ok pt => pt
         | Raise _ => ColorControlPoint.init "a" false
         end).
  exists made. split.
  - apply import_loop_points. intros i acc' _.
    unfold import_opacity_step, opacity_sample. rewrite Hnone. unfold made.
    match goal with
    | |- context [import_point ?c ?f ?a ?b ?x ?rgb ?al] =>
        destruct (import_point_ok c f a b x rgb al Hs) as (pt & -> & _)
    end. reflexivity.
  - intros i. unfold made.
    match goal with
    | |- context [import_point ?c ?f ?a ?b ?x ?rgb ?al] =>
        destruct (import_point_ok c f a b x rgb al Hs) as (pt & -> & Hp & Hf & Hc)
    end. rewrite Hp, Hf, Hc. repeat split.
Qed.

Lemma clamp_inside (f : Q) : 0 <= f <= 1 -> Py.max2 (Py.min2 f 1) 0 = f.
Proof.
  intros [H0 H1]. unfold Py.max2, Py.min2.
  assert (E1 : Py.ltb 1 f = false) by (apply ltb_false; exact H1).
  rewrite E1.
  assert (E2 : Py.ltb f 0 = false) by (apply ltb_false; exact H0).
  rewrite E2. reflexivity.
Qed.

(** The position of the sample [i] of [n] evenly spaced ones. *)
Lemma even_sample (s1 scale : Q) (n i : Z) :
  ~ scale == 0 -> (1 < n)%Z -> (0 <= i <= n - 1)%Z ->
  let f := (s1 + inject_Z i * (scale / inject_Z (n - 1)) - s1) / scale in
  f == inject_Z i / inject_Z (n - 1) /\ Py.max2 (Py.min2 f 1) 0 = f.
Proof.
  intros Hs Hn Hi. cbv zeta.
  assert (Hd : 0 < inject_Z (n - 1)).
  { change 0 with (inject_Z 0). rewrite <- Zlt_Qlt. lia. }
  assert (E : (s1 + inject_Z i * (scale / inject_Z (n - 1)) - s1) / scale
              == inject_Z i / inject_Z (n - 1)).
  { field. split; [lra|assumption]. }
  split; [exact E|].
  apply clamp_inside. rewrite E. split.
  - apply Qle_shift_div_l; [assumption|]. rewrite Qmult_0_l.
    change 0 with (inject_Z 0). rewrite <- Zle_Qle. lia.
  - apply Qle_shift_div_r; [assumption|]. rewrite Qmult_1_l.
    rewrite <- Zle_Qle. lia.
Qed.

Lemma nth_error_map_seq {A} (made : Z -> A) (g : nat -> Z) (m : nat) :
  forall a i p,
    nth_error (map made (map g (seq a m))) i = Some p ->
    (i < m)%nat /\ p = made (g (a + i)%nat).
Proof.
  induction m as [|m IH]; intros a i p H.
  - destruct i; discriminate H.
  - destruct i as [|i]; cbn in H.
    + injection H as <-. rewrite Nat.add_0_r. split; [lia|reflexivity].
    + apply IH in H. destruct H as [H1 ->].
      replace (S a + i)%nat with (a + S i)%nat by lia. split; [lia|reflexivity].
Qed.

(** X30.  From a colour function and an opacity function without the
    attribute [nodes], of two nodes or more each and over a range that has
    a width, the import makes evenly spaced control points: one colour
    point for each [i] below [ctf.size], at the position [i/(ctf.size-1)],
    the first and the last of them fixed and with all channels, and then an
    opacity-only point for each inner node of the opacity function, the
    [j]-th at [(j+1)/(otf.size-1)].  The delegating table sorts them,
    updates and returns. *)
Theorem import_even_samples (ctf : ColorFunction) (otf : OpacityFunction)
    (new : GradientTable.t) :
  (1 < ctf_size ctf)%Z -> (1 < otf_size otf)%Z ->
  ctf_nodes ctf = None ->
  ~ fst (ctf_range ctf) == snd (ctf_range ctf) ->
  exists colour opacity,
    new_control_points ctf otf = Points (colour ++ opacity) /\
    List.length colour = Z.to_nat (ctf_size ctf) /\
    List.length opacity = Z.to_nat (otf_size otf - 2) /\
    (forall i p, nth_error colour i = Some p ->
       ColorControlPoint.pos p
       == inject_Z (Z.of_nat i) / inject_Z (ctf_size ctf - 1) /\
       ColorControlPoint.fixed p
       = ((Z.of_nat i =? 0)%Z || (Z.of_nat i =? ctf_size ctf - 1)%Z) /\
       ColorControlPoint.active_channels p
       = (if ColorControlPoint.fixed p then "rgbhsva" else "rgbhsv")%string) /\
    (forall j p, nth_error opacity j = Some p ->
       ColorControlPoint.pos p
       == inject_Z (Z.of_nat j + 1) / inject_Z (otf_size otf - 1) /\
       ColorControlPoint.fixed p = false /\
       ColorControlPoint.active_channels p = "a"%string) /\
    fst (load_from_vtk_volume_prop ctf otf new) = Done (Ok tt) /\
    GradientTable.control_points (snd (load_from_vtk_volume_prop ctf otf new))
    = sort_by_pos (colour ++ opacity).
Proof.
  intros H1 H2 Hnone Hrange.
  unfold load_from_vtk_volume_prop, new_control_points.
  assert (H1' : (1 <? ctf_size ctf)%Z = true) by (apply Z.ltb_lt; exact H1).
  assert (H2' : (1 <? otf_size otf)%Z = true) by (apply Z.ltb_lt; exact H2).
  rewrite H1', H2'. cbn [negb].
  destruct (ctf_range ctf) as [s1 s2]. cbn [fst snd] in Hrange.
  assert (Hs : ~ s2 - s1 == 0) by lra.
  assert (Hd : ~ inject_Z (ctf_size ctf - 1) == 0).
  { change 0 with (inject_Z 0). rewrite inject_Z_injective. lia. }
  assert (Hd' : ~ inject_Z (otf_size otf - 1) == 0).
  { change 0 with (inject_Z 0). rewrite inject_Z_injective. lia. }
  rewrite (py_div_nonzero _ _ Hd).
  set (ds := (s2 - s1) / inject_Z (ctf_size ctf - 1)).
  destruct (import_colour_loop ctf otf s1 (s2 - s1) ds
              (fun i => s1 + inject_Z i * ds) Hs) as (made & -> & Hmade).
  { intros i _. rewrite Hnone. reflexivity. }
  cbn [import_bind]. rewrite (py_div_nonzero _ _ Hd').
  set (ds' := (s2 - s1) / inject_Z (otf_size otf - 1)).
  destruct (import_opacity_loop ctf otf s1 (s2 - s1) ds'
              (range_from 1 (otf_size otf - 1))
              (map made (PySeq.range (ctf_size ctf))) Hs Hnone)
    as (made' & -> & Hmade').
  exists (map made (PySeq.range (ctf_size ctf))),
    (map made' (range_from 1 (otf_size otf - 1))).
  split; [reflexivity|].
  split; [unfold PySeq.range; rewrite !length_map, length_seq; reflexivity|].
  split; [unfold range_from; rewrite !length_map, length_seq; f_equal; lia|].
  split.
  { intros i p Hp. unfold PySeq.range in Hp.
    apply nth_error_map_seq in Hp. destruct Hp as [Hi ->]. cbn [plus].
    destruct (Hmade (Z.of_nat i)) as (Hpos & Hfix & Hch).
    destruct (even_sample s1 (s2 - s1) (ctf_size ctf) (Z.of_nat i) Hs H1)
      as [E1 E2]; [lia|].
    cbv zeta in E1, E2. fold ds in E1, E2.
    rewrite Hpos, E2, Hfix, Hch. split; [exact E1|]. split; reflexivity. }
  split.
  { intros j p Hp. unfold range_from in Hp.
    apply nth_error_map_seq in Hp. destruct Hp as [Hj ->]. cbn [plus].
    replace (1 + Z.of_nat j)%Z with (Z.of_nat j + 1)%Z by lia.
    destruct (Hmade' (Z.of_nat j + 1)%Z) as (Hpos & Hfix & Hch).
    destruct (even_sample s1 (s2 - s1) (otf_size otf) (Z.of_nat j + 1) Hs H2)
      as [E1 E2]; [lia|].
    cbv zeta in E1, E2. fold ds' in E1, E2.
    rewrite Hpos, E2. split; [exact E1|]. split; assumption. }
  unfold bind, modify, GradientTable.sort_control_points.
  cbn [GradientTable.control_points GradientTable.with_control_points].
  unfold GradientTable.update, bind, modify, gets.
  cbn [GradientTable.control_points GradientTable.with_control_points
         GradientTable.with_table GradientTable.with_alpha].
  rewrite replay_points. split; reflexivity.
Qed.

Lemma import_even_samples_witness :
  exists colour opacity,
    new_control_points
      (mk_ColorFunction 3 (0, 2) None (fun _ => (1, 0, 0)))
      (mk_OpacityFunction 3 None (fun _ => 1))
    = Points (colour ++ opacity) /\
    List.length colour = Z.to_nat 3 /\
    List.length opacity = Z.to_nat (3 - 2) /\
    (forall i p, nth_error colour i = Some p ->
       ColorControlPoint.pos p == inject_Z (Z.of_nat i) / inject_Z (3 - 1) /\
       ColorControlPoint.fixed p
       = ((Z.of_nat i =? 0)%Z || (Z.of_nat i =? 3 - 1)%Z) /\
       ColorControlPoint.active_channels p
       = (if ColorControlPoint.fixed p then "rgbhsva" else "rgbhsv")%string) /\
    (forall j p, nth_error opacity j = Some p ->
       ColorControlPoint.pos p == inject_Z (Z.of_nat j + 1) / inject_Z (3 - 1) /\
       ColorControlPoint.fixed p = false /\
       ColorControlPoint.active_channels p = "a"%string) /\
    fst (load_from_vtk_volume_prop
           (mk_ColorFunction 3 (0, 2) None (fun _ => (1, 0, 0)))
           (mk_OpacityFunction 3 None (fun _ => 1))
           (GradientTable.mk 4 [] [] [] EmptyString (1 # 2) None))
    = Done (Ok tt) /\
    GradientTable.control_points
      (snd (load_from_vtk_volume_prop
              (mk_ColorFunction 3 (0, 2) None (fun _ => (1, 0, 0)))
              (mk_OpacityFunction 3 None (fun _ => 1))
              (GradientTable.mk 4 [] [] [] EmptyString (1 # 2) None)))
    = sort_by_pos (colour ++ opacity).
Proof.
  apply (import_even_samples
           (mk_ColorFunction 3 (0, 2) None (fun _ => (1, 0, 0)))
           (mk_OpacityFunction 3 None (fun _ => 1))
           (GradientTable.mk 4 [] [] [] EmptyString (1 # 2) None)).
  - cbn. lia.
  - cbn. lia.
  - reflexivity.
  - cbn. intros H. discriminate H.
Defined.
